(** * cdk-deployer: the stack-lifecycle engine of [pkg/cdk/deployer.go]

    A shallow embedding of the deployer: the CloudFormation client, the file
    system, the context and the scheduler of [select] are an environment the
    code runs against; the code itself is written in a small state monad that
    threads the clock, the remote system and a trace of what was done.

    Times are instants and durations in nanoseconds, as [time.Duration] has
    them.  What the program prints on standard output is not modelled. *)

From Stdlib Require Import ZArith NArith List String Ascii Bool Lia.
Import ListNotations.

Local Open Scope string_scope.
Local Open Scope Z_scope.
Local Open Scope list_scope.

Infix "^^" := String.append (at level 60, right associativity).

(** ** Go values *)

(** A slice is [nil] or a backing sequence; [append] always yields a non-nil
    slice, and [len] and [range] do not tell [nil] from an empty one. *)
Inductive slice (A : Type) : Type :=
| Nil
| Slice (l : list A).
Arguments Nil {A}.
Arguments Slice {A} l.

Definition elems {A} (s : slice A) : list A :=
  match s with Nil => [] | Slice l => l end.

Definition len {A} (s : slice A) : nat := List.length (elems s).

Definition is_nil {A} (s : slice A) : bool :=
  match s with Nil => true | Slice _ => false end.

Definition append {A} (s : slice A) (x : A) : slice A := Slice (elems s ++ [x]).

(** [for _, x := range xs { acc = append(acc, f x) }] *)
Definition range_append {A B} (f : A -> B) (xs : list A) (acc : slice B) : slice B :=
  fold_left (fun acc x => append acc (f x)) xs acc.

(** [aws.ToString]: the empty string for a nil pointer. *)
Definition ToString (p : option string) : string :=
  match p with Some s => s | None => EmptyString end.

(** Errors.  [ctx.Err()] is one of the two context errors; the SDK and the
    operating system produce errors of their own; the deployer builds the
    others with [fmt.Errorf], with or without a wrapped cause ([%w]). *)
Inductive ctxError := Canceled | DeadlineExceeded.

Inductive error : Type :=
| CtxErr (c : ctxError)
| External (msg : string)
| Errorf (msg : string)
| ErrorfW (msg : string) (cause : error).

Fixpoint Error (e : error) : string :=
  match e with
  | CtxErr Canceled => "context canceled"
  | CtxErr DeadlineExceeded => "context deadline exceeded"
  | External m => m
  | Errorf m => m
  | ErrorfW m c => m ^^ Error c
  end.

(** [errors.Unwrap], iterated: the innermost cause. *)
Fixpoint cause_of (e : error) : error :=
  match e with
  | ErrorfW _ c => cause_of c
  | _ => e
  end.

Inductive result (A : Type) : Type :=
| Ok (a : A)
| Err (e : error).
Arguments Ok {A} a.
Arguments Err {A} e.

(** [time.Duration] constants. *)
Definition Nanosecond : Z := 1.
Definition Microsecond : Z := 1000 * Nanosecond.
Definition Millisecond : Z := 1000 * Microsecond.
Definition Second : Z := 1000 * Millisecond.
Definition Minute : Z := 60 * Second.

(** ** The CloudFormation SDK, as far as the deployer uses it *)

Module types.

Definition StackStatusCreateInProgress := "CREATE_IN_PROGRESS".
Definition StackStatusCreateFailed := "CREATE_FAILED".
Definition StackStatusCreateComplete := "CREATE_COMPLETE".
Definition StackStatusRollbackInProgress := "ROLLBACK_IN_PROGRESS".
Definition StackStatusRollbackFailed := "ROLLBACK_FAILED".
Definition StackStatusRollbackComplete := "ROLLBACK_COMPLETE".
Definition StackStatusDeleteInProgress := "DELETE_IN_PROGRESS".
Definition StackStatusDeleteFailed := "DELETE_FAILED".
Definition StackStatusDeleteComplete := "DELETE_COMPLETE".
Definition StackStatusUpdateInProgress := "UPDATE_IN_PROGRESS".
Definition StackStatusUpdateComplete := "UPDATE_COMPLETE".
Definition StackStatusUpdateFailed := "UPDATE_FAILED".
Definition StackStatusUpdateRollbackInProgress := "UPDATE_ROLLBACK_IN_PROGRESS".
Definition StackStatusUpdateRollbackFailed := "UPDATE_ROLLBACK_FAILED".
Definition StackStatusUpdateRollbackComplete := "UPDATE_ROLLBACK_COMPLETE".

Definition StackDriftDetectionStatusDetectionInProgress := "DETECTION_IN_PROGRESS".
Definition StackDriftDetectionStatusDetectionFailed := "DETECTION_FAILED".
Definition StackDriftDetectionStatusDetectionComplete := "DETECTION_COMPLETE".

Definition StackResourceDriftStatusInSync := "IN_SYNC".
Definition StackResourceDriftStatusModified := "MODIFIED".
Definition StackResourceDriftStatusDeleted := "DELETED".
Definition StackResourceDriftStatusNotChecked := "NOT_CHECKED".

Definition CapabilityCapabilityIam := "CAPABILITY_IAM".
Definition CapabilityCapabilityNamedIam := "CAPABILITY_NAMED_IAM".
Definition CapabilityCapabilityAutoExpand := "CAPABILITY_AUTO_EXPAND".

Definition OnFailureRollback := "ROLLBACK".

Record Output := {
  OutputKey : option string;
  OutputValue : option string
}.

Record StackDriftInformation := {
  StackDriftStatus : string
}.

Record Stack := {
  StackStatus : string;
  Outputs : list Output;
  DriftInformation : option StackDriftInformation
}.

Record PropertyDifference := {
  PropertyPath : option string;
  ExpectedValue : option string;
  ActualValue : option string;
  DifferenceType : string
}.

Record StackResourceDrift := {
  LogicalResourceId : option string;
  PhysicalResourceId : option string;
  ResourceType : option string;
  StackResourceDriftStatus : string;
  PropertyDifferences : list PropertyDifference
}.

End types.

Module cloudformation.

Record DescribeStacksOutput := {
  Stacks : list types.Stack
}.

Module CreateStackInput.
Record t := {
  StackName : string;
  TemplateBody : string;
  Capabilities : list string;
  OnFailure : string
}.
End CreateStackInput.

Module UpdateStackInput.
Record t := {
  StackName : string;
  TemplateBody : string;
  Capabilities : list string
}.
End UpdateStackInput.

(** [CreateStackOutput] and [UpdateStackOutput] *)
Record StackIdOutput := {
  StackId : option string
}.

Record DetectStackDriftOutput := {
  StackDriftDetectionId : option string
}.

Record DescribeStackDriftDetectionStatusOutput := {
  DetectionStatus : string;
  DetectionStatusReason : option string
}.

Module DescribeStackResourceDriftsInput.
Record t := {
  StackName : string;
  StackResourceDriftStatusFilters : list string
}.
End DescribeStackResourceDriftsInput.

Record DescribeStackResourceDriftsOutput := {
  StackResourceDrifts : list types.StackResourceDrift
}.

End cloudformation.

(** ** [pkg/cdk/types.go] *)

Record StackOutput := {
  Key : string;
  Value : string
}.

Module DeployResult.
Record t := {
  StackName : string;
  StackID : string;
  Status : string;
  Outputs : slice StackOutput
}.
End DeployResult.

Record PropertyDiff := {
  PropertyPath : string;
  ExpectedValue : string;
  ActualValue : string;
  DifferenceType : string
}.

Module DriftedResource.
Record t := {
  LogicalID : string;
  PhysicalID : string;
  ResourceType : string;
  DriftStatus : string;
  PropertyDiffs : slice PropertyDiff
}.
End DriftedResource.

Module DriftResult.
Record t := {
  StackName : string;
  DriftStatus : string;
  DriftedResources : slice DriftedResource.t
}.
End DriftResult.

(** [Synthesizer], of which the deployer uses [GetTemplateBody] only. *)
Record Synthesizer := {
  projectPath : string;
  outputDir : string
}.

(** ** The machine the deployer runs on *)

(** What a run does that can be seen from outside: the API calls it issues and
    the [select] cases it takes, each with its instant. *)
Inductive Call : Type :=
| CallDescribeStacks (stackName : string)
| CallCreateStack (input : cloudformation.CreateStackInput.t)
| CallUpdateStack (input : cloudformation.UpdateStackInput.t)
| CallDetectStackDrift (stackName : string)
| CallDescribeStackDriftDetectionStatus (driftDetectionId : string)
| CallDescribeStackResourceDrifts (input : cloudformation.DescribeStackResourceDriftsInput.t).

Inductive Case := CtxDone | TimeoutFired | Tick.

Inductive Event : Type :=
| EvCall (c : Call) (t : Z)
| EvSelect (c : Case) (t : Z).

Definition is_call (ev : Event) : bool :=
  match ev with EvCall _ _ => true | EvSelect _ _ => false end.

Definition is_tick (ev : Event) : bool :=
  match ev with EvSelect Tick _ => true | _ => false end.

Definition event_time (ev : Event) : Z :=
  match ev with EvCall _ t => t | EvSelect _ t => t end.

(** [time.NewTicker]: a channel of capacity one, filled at every multiple of
    the period after its creation; a tick that finds the channel full is
    dropped. *)
Record Ticker := {
  C : bool;
  next_fire : Z;
  period : Z
}.

Definition NewTicker (d : Z) (t0 : Z) : Ticker :=
  {| C := false; next_fire := t0 + d; period := d |}.

(** The ticker as it stands at instant [t]. *)
Definition ticker_at (tk : Ticker) (t : Z) : Ticker :=
  if next_fire tk <=? t
  then {| C := true;
          next_fire := next_fire tk + period tk * ((t - next_fire tk) / period tk + 1);
          period := period tk |}
  else tk.

Definition receive (tk : Ticker) : Ticker :=
  {| C := false; next_fire := next_fire tk; period := period tk |}.

(** [time.After d] at instant [t0]: the instant its channel becomes ready. *)
Definition After (d : Z) (t0 : Z) : Z := t0 + d.

Set Implicit Arguments.

Section Deployer.

(** The remote system: every request takes some time and answers from the
    state of the remote system, which it may change. *)
Variable Remote : Type.

Definition reply (A : Type) : Type := (N * result A * Remote)%type.

Record Client := {
  DescribeStacks : string -> Z -> Remote -> reply cloudformation.DescribeStacksOutput;
  CreateStack : cloudformation.CreateStackInput.t -> Z -> Remote -> reply cloudformation.StackIdOutput;
  UpdateStack : cloudformation.UpdateStackInput.t -> Z -> Remote -> reply cloudformation.StackIdOutput;
  DetectStackDrift : string -> Z -> Remote -> reply cloudformation.DetectStackDriftOutput;
  DescribeStackDriftDetectionStatus :
    string -> Z -> Remote -> reply cloudformation.DescribeStackDriftDetectionStatusOutput;
  DescribeStackResourceDrifts :
    cloudformation.DescribeStackResourceDriftsInput.t -> Z -> Remote ->
    reply cloudformation.DescribeStackResourceDriftsOutput
}.

(** The rest of the environment: the files of [cdk.out], the instant at which
    the caller's context is done with the error it then reports, and the
    random numbers [select] draws when several cases are ready. *)
Record Env := {
  cfnClient : Client;
  synthesizer : Synthesizer;
  Join : string -> string -> string;
  ReadFile : string -> result string;
  ctx_done : option (Z * ctxError);
  fastrand : nat -> nat
}.

Record St := {
  now : Z;
  remote : Remote;
  selects : nat;
  trace : list Event
}.

Inductive Out (A : Type) : Type :=
| Ret (a : A) (s : St)
| Panic (s : St)
| OutOfFuel (s : St).
Arguments Ret {A} a s.
Arguments Panic {A} s.
Arguments OutOfFuel {A} s.

(** The state a run ends in, however it ends. *)
Definition final {A} (o : Out A) : St :=
  match o with Ret _ s => s | Panic s => s | OutOfFuel s => s end.

Definition M (A : Type) : Type := St -> Out A.

Definition ret {A} (a : A) : M A := fun s => Ret a s.

Definition bind {A B} (m : M A) (k : A -> M B) : M B :=
  fun s => match m s with
           | Ret a s' => k a s'
           | Panic s' => Panic s'
           | OutOfFuel s' => OutOfFuel s'
           end.

Definition panic {A} : M A := fun s => Panic s.

Notation "x <- m ;; k" := (bind m (fun x => k))
  (at level 61, m at next level, right associativity).

Variable env : Env.

(** A request to the remote system. *)
Definition call {A} (c : Call) (f : Z -> Remote -> reply A) : M (result A) :=
  fun s =>
    let '(latency, r, remote') := f (now s) (remote s) in
    Ret r {| now := now s + Z.of_N latency;
             remote := remote';
             selects := selects s;
             trace := trace s ++ [EvCall c (now s)] |}.

(** *** [select] over [ctx.Done()], the timeout channel and the ticker *)

Definition ctx_fired (t : Z) : bool :=
  match ctx_done env with
  | Some (c, _) => c <=? t
  | None => false
  end.

(** [ctx.Err()] once the context is done. *)
Definition ctx_Err : option error :=
  match ctx_done env with
  | Some (_, e) => Some (CtxErr e)
  | None => None
  end.

Definition ready (tk : Ticker) (timeout : Z) (t : Z) : list Case :=
  (if ctx_fired t then [CtxDone] else []) ++
  (if timeout <=? t then [TimeoutFired] else []) ++
  (if C tk then [Tick] else []).

(** The instant a blocked [select] wakes up: the earliest of its sources. *)
Definition wake_time (tk : Ticker) (timeout : Z) : Z :=
  let t := Z.min timeout (next_fire tk) in
  match ctx_done env with
  | Some (c, _) => Z.min c t
  | None => t
  end.

(** [select] proceeds at once when a case is ready and blocks until one is
    otherwise; among several ready cases it takes one at random. *)
Definition select (tk : Ticker) (timeout : Z) : M (Case * Ticker) :=
  fun s =>
    let tk0 := ticker_at tk (now s) in
    let t := match ready tk0 timeout (now s) with
             | [] => wake_time tk0 timeout
             | _ => now s
             end in
    let tk1 := ticker_at tk0 t in
    let rs := ready tk1 timeout t in
    let c := nth (fastrand env (selects s) mod List.length rs)%nat rs TimeoutFired in
    let tk2 := match c with Tick => receive tk1 | _ => tk1 end in
    Ret (c, tk2) {| now := t;
                    remote := remote s;
                    selects := S (selects s);
                    trace := trace s ++ [EvSelect c t] |}.

(** ** [pkg/cdk/synthesizer.go]: [GetTemplateBody] *)

Definition GetTemplateBody (stackName : string) : string * option error :=
  let templatePath := Join env (outputDir (synthesizer env)) (stackName ^^ ".template.json") in
  match ReadFile env templatePath with
  | Err e => ("", Some (ErrorfW ("failed to read template for stack " ^^ stackName ^^ ": ") e))
  | Ok data => (data, None)
  end.

(** ** [pkg/cdk/deployer.go] *)

Definition stackExists (stackName : string) : M (bool * option error) :=
  r <- call (CallDescribeStacks stackName) (DescribeStacks (cfnClient env) stackName) ;;
  match r with
  | Err _ => ret (false, None)
  | Ok _ => ret (true, None)
  end.

Definition createStackInput (stackName templateBody : string) : cloudformation.CreateStackInput.t :=
  {| cloudformation.CreateStackInput.StackName := stackName;
     cloudformation.CreateStackInput.TemplateBody := templateBody;
     cloudformation.CreateStackInput.Capabilities :=
       [types.CapabilityCapabilityIam;
        types.CapabilityCapabilityNamedIam;
        types.CapabilityCapabilityAutoExpand];
     cloudformation.CreateStackInput.OnFailure := types.OnFailureRollback |}.

Definition createStack (stackName templateBody : string) : M (string * option error) :=
  let input := createStackInput stackName templateBody in
  r <- call (CallCreateStack input) (CreateStack (cfnClient env) input) ;;
  match r with
  | Err e => ret ("", Some (ErrorfW "failed to create stack: " e))
  | Ok output => ret (ToString (cloudformation.StackId output), None)
  end.

Definition updateStackInput (stackName templateBody : string) : cloudformation.UpdateStackInput.t :=
  {| cloudformation.UpdateStackInput.StackName := stackName;
     cloudformation.UpdateStackInput.TemplateBody := templateBody;
     cloudformation.UpdateStackInput.Capabilities :=
       [types.CapabilityCapabilityIam;
        types.CapabilityCapabilityNamedIam;
        types.CapabilityCapabilityAutoExpand] |}.

Definition updateStack (stackName templateBody : string) : M (string * option error) :=
  let input := updateStackInput stackName templateBody in
  r <- call (CallUpdateStack input) (UpdateStack (cfnClient env) input) ;;
  match r with
  | Err e => ret ("", Some (ErrorfW "failed to update stack: " e))
  | Ok output => ret (ToString (cloudformation.StackId output), None)
  end.

Definition getStackStatus (stackName : string) : M (string * option error) :=
  r <- call (CallDescribeStacks stackName) (DescribeStacks (cfnClient env) stackName) ;;
  match r with
  | Err e => ret ("", Some (ErrorfW "failed to describe stack: " e))
  | Ok output =>
      match cloudformation.Stacks output with
      | [] => ret ("", Some (Errorf ("stack " ^^ stackName ^^ " not found")))
      | stack0 :: _ => ret (types.StackStatus stack0, None)
      end
  end.

(** The two arms of the [switch] of [waitForStack]. *)
Definition stack_succeeded (status : string) : bool :=
  String.eqb status types.StackStatusCreateComplete ||
  String.eqb status types.StackStatusUpdateComplete.

Definition stack_failed (status : string) : bool :=
  String.eqb status types.StackStatusCreateFailed ||
  String.eqb status types.StackStatusRollbackComplete ||
  String.eqb status types.StackStatusRollbackFailed ||
  String.eqb status types.StackStatusUpdateRollbackComplete ||
  String.eqb status types.StackStatusUpdateRollbackFailed ||
  String.eqb status types.StackStatusDeleteComplete ||
  String.eqb status types.StackStatusDeleteFailed.

(** The [for { select { ... } }] of [waitForStack]; [fuel] bounds the number
    of iterations. *)
Fixpoint waitForStack_loop (fuel : nat) (stackName : string) (ticker : Ticker) (timeout : Z)
  : M (string * option error) :=
  match fuel with
  | O => fun s => OutOfFuel s
  | S fuel' =>
      p <- select ticker timeout ;;
      match fst p with
      | CtxDone => ret ("", ctx_Err)
      | TimeoutFired => ret ("", Some (Errorf ("timeout waiting for stack " ^^ stackName)))
      | Tick =>
          q <- getStackStatus stackName ;;
          match snd q with
          | Some err => ret ("", Some err)
          | None =>
              let status := fst q in
              if stack_succeeded status then ret (status, None)
              else if stack_failed status then
                ret (status, Some (Errorf ("stack operation failed with status: " ^^ status)))
              else waitForStack_loop fuel' stackName (snd p) timeout
          end
      end
  end.

(** [ticker := time.NewTicker(10 * time.Second)] and
    [timeout := time.After(30 * time.Minute)], created at instant [t0]. *)
Definition waitForStack_ticker (t0 : Z) : Ticker := NewTicker (10 * Second) t0.
Definition waitForStack_timeout (t0 : Z) : Z := After (30 * Minute) t0.

Definition waitForStack (fuel : nat) (stackName : string) : M (string * option error) :=
  fun s =>
    let ticker := waitForStack_ticker (now s) in
    let timeout := waitForStack_timeout (now s) in
    waitForStack_loop fuel stackName ticker timeout s.

Definition toStackOutput (o : types.Output) : StackOutput :=
  {| Key := ToString (types.OutputKey o);
     Value := ToString (types.OutputValue o) |}.

Definition getStackOutputs (stackName : string) : M (slice StackOutput * option error) :=
  r <- call (CallDescribeStacks stackName) (DescribeStacks (cfnClient env) stackName) ;;
  match r with
  | Err e => ret (Nil, Some (ErrorfW "failed to describe stack: " e))
  | Ok output =>
      match cloudformation.Stacks output with
      | [] => ret (Nil, None)
      | stack0 :: _ => ret (range_append toStackOutput (types.Outputs stack0) Nil, None)
      end
  end.

Definition Deploy (fuel : nat) (stackName : string) : M (option DeployResult.t * option error) :=
  let t := GetTemplateBody stackName in
  match snd t with
  | Some err => ret (None, Some err)
  | None =>
      let templateBody := fst t in
      ex <- stackExists stackName ;;
      match snd ex with
      | Some err => ret (None, Some err)
      | None =>
          sub <- (if fst ex
                  then updateStack stackName templateBody
                  else createStack stackName templateBody) ;;
          match snd sub with
          | Some err => ret (None, Some err)
          | None =>
              let stackID := fst sub in
              w <- waitForStack fuel stackName ;;
              match snd w with
              | Some err => ret (None, Some err)
              | None =>
                  let status := fst w in
                  o <- getStackOutputs stackName ;;
                  match snd o with
                  | Some err => ret (None, Some err)
                  | None =>
                      ret (Some {| DeployResult.StackName := stackName;
                                   DeployResult.StackID := stackID;
                                   DeployResult.Status := status;
                                   DeployResult.Outputs := fst o |}, None)
                  end
              end
          end
      end
  end.

(** The [for ... range stacks] of [DeployAll], from the results gathered so far. *)
Fixpoint DeployAll_range (fuel : nat) (stacks : list string) (results : slice DeployResult.t)
  : M (slice DeployResult.t * option error) :=
  match stacks with
  | [] => ret (results, None)
  | stackName :: stacks' =>
      d <- Deploy fuel stackName ;;
      match snd d with
      | Some err =>
          ret (results, Some (ErrorfW ("failed to deploy stack " ^^ stackName ^^ ": ") err))
      | None =>
          match fst d with
          | None => panic
          | Some result => DeployAll_range fuel stacks' (append results result)
          end
      end
  end.

Definition DeployAll (fuel : nat) (stacks : list string) : M (slice DeployResult.t * option error) :=
  DeployAll_range fuel stacks Nil.

(** The two arms of the [switch] of [waitForDriftDetection]. *)
Definition detection_complete (status : string) : bool :=
  String.eqb status types.StackDriftDetectionStatusDetectionComplete.

Definition detection_failed (status : string) : bool :=
  String.eqb status types.StackDriftDetectionStatusDetectionFailed.

Fixpoint waitForDriftDetection_loop (fuel : nat) (driftDetectionId : string)
  (ticker : Ticker) (timeout : Z) : M (string * option error) :=
  match fuel with
  | O => fun s => OutOfFuel s
  | S fuel' =>
      p <- select ticker timeout ;;
      match fst p with
      | CtxDone => ret ("", ctx_Err)
      | TimeoutFired => ret ("", Some (Errorf "timeout waiting for drift detection"))
      | Tick =>
          r <- call (CallDescribeStackDriftDetectionStatus driftDetectionId)
                    (DescribeStackDriftDetectionStatus (cfnClient env) driftDetectionId) ;;
          match r with
          | Err e => ret ("", Some (ErrorfW "failed to get drift detection status: " e))
          | Ok output =>
              let status := cloudformation.DetectionStatus output in
              if detection_complete status then ret (status, None)
              else if detection_failed status then
                let reason := ToString (cloudformation.DetectionStatusReason output) in
                ret (status, Some (Errorf ("drift detection failed: " ^^ reason)))
              else waitForDriftDetection_loop fuel' driftDetectionId (snd p) timeout
          end
      end
  end.

(** [ticker := time.NewTicker(5 * time.Second)] and
    [timeout := time.After(10 * time.Minute)], created at instant [t0]. *)
Definition waitForDriftDetection_ticker (t0 : Z) : Ticker := NewTicker (5 * Second) t0.
Definition waitForDriftDetection_timeout (t0 : Z) : Z := After (10 * Minute) t0.

Definition waitForDriftDetection (fuel : nat) (driftDetectionId : string)
  : M (string * option error) :=
  fun s =>
    let ticker := waitForDriftDetection_ticker (now s) in
    let timeout := waitForDriftDetection_timeout (now s) in
    waitForDriftDetection_loop fuel driftDetectionId ticker timeout s.

Definition toPropertyDiff (pd : types.PropertyDifference) : PropertyDiff :=
  {| PropertyPath := ToString (types.PropertyPath pd);
     ExpectedValue := ToString (types.ExpectedValue pd);
     ActualValue := ToString (types.ActualValue pd);
     DifferenceType := types.DifferenceType pd |}.

(** The body of the loop over [resourceDriftsOutput.StackResourceDrifts]: the
    entry starts with nil [PropertyDiffs], to which the inner loop appends. *)
Definition toDriftedResource (rd : types.StackResourceDrift) : DriftedResource.t :=
  {| DriftedResource.LogicalID := ToString (types.LogicalResourceId rd);
     DriftedResource.PhysicalID := ToString (types.PhysicalResourceId rd);
     DriftedResource.ResourceType := ToString (types.ResourceType rd);
     DriftedResource.DriftStatus := types.StackResourceDriftStatus rd;
     DriftedResource.PropertyDiffs :=
       range_append toPropertyDiff (types.PropertyDifferences rd) Nil |}.

Definition resourceDriftsInput (stackName : string)
  : cloudformation.DescribeStackResourceDriftsInput.t :=
  {| cloudformation.DescribeStackResourceDriftsInput.StackName := stackName;
     cloudformation.DescribeStackResourceDriftsInput.StackResourceDriftStatusFilters :=
       [types.StackResourceDriftStatusModified;
        types.StackResourceDriftStatusDeleted;
        types.StackResourceDriftStatusNotChecked] |}.

Definition getDriftResults (stackName : string) : M (option DriftResult.t * option error) :=
  r <- call (CallDescribeStacks stackName) (DescribeStacks (cfnClient env) stackName) ;;
  match r with
  | Err e => ret (None, Some (ErrorfW "failed to describe stack: " e))
  | Ok describeOutput =>
      match cloudformation.Stacks describeOutput with
      | [] => ret (None, Some (Errorf ("stack " ^^ stackName ^^ " not found")))
      | stack0 :: _ =>
          match types.DriftInformation stack0 with
          | None => panic
          | Some info =>
              let input := resourceDriftsInput stackName in
              r' <- call (CallDescribeStackResourceDrifts input)
                         (DescribeStackResourceDrifts (cfnClient env) input) ;;
              match r' with
              | Err e => ret (None, Some (ErrorfW "failed to get resource drifts: " e))
              | Ok resourceDriftsOutput =>
                  ret (Some {| DriftResult.StackName := stackName;
                               DriftResult.DriftStatus := types.StackDriftStatus info;
                               DriftResult.DriftedResources :=
                                 range_append toDriftedResource
                                   (cloudformation.StackResourceDrifts resourceDriftsOutput)
                                   Nil |},
                       None)
              end
          end
      end
  end.

Definition DetectDrift (fuel : nat) (stackName : string) : M (option DriftResult.t * option error) :=
  ex <- stackExists stackName ;;
  match snd ex with
  | Some err => ret (None, Some err)
  | None =>
      if negb (fst ex) then ret (None, Some (Errorf ("stack " ^^ stackName ^^ " does not exist")))
      else
        r <- call (CallDetectStackDrift stackName) (DetectStackDrift (cfnClient env) stackName) ;;
        match r with
        | Err e => ret (None, Some (ErrorfW "failed to initiate drift detection: " e))
        | Ok detectOutput =>
            let driftDetectionId := ToString (cloudformation.StackDriftDetectionId detectOutput) in
            w <- waitForDriftDetection fuel driftDetectionId ;;
            match snd w with
            | Some err => ret (None, Some err)
            | None =>
                let status := fst w in
                if negb (String.eqb status types.StackDriftDetectionStatusDetectionComplete)
                then ret (None, Some (Errorf ("drift detection failed with status: " ^^ status)))
                else getDriftResults stackName
            end
        end
  end.

Fixpoint DetectDriftAll_range (fuel : nat) (stacks : list string) (results : slice DriftResult.t)
  : M (slice DriftResult.t * option error) :=
  match stacks with
  | [] => ret (results, None)
  | stackName :: stacks' =>
      d <- DetectDrift fuel stackName ;;
      match snd d with
      | Some err =>
          ret (results, Some (ErrorfW ("failed to detect drift for stack " ^^ stackName ^^ ": ") err))
      | None =>
          match fst d with
          | None => panic
          | Some result => DetectDriftAll_range fuel stacks' (append results result)
          end
      end
  end.

Definition DetectDriftAll (fuel : nat) (stacks : list string)
  : M (slice DriftResult.t * option error) :=
  DetectDriftAll_range fuel stacks Nil.

(** ** The common shape of the two wait loops

    Both [waitForStack] and [waitForDriftDetection] are the same
    [for { select { ... } }] around a different status query; [poll_loop] is
    that loop with the query as a parameter: the query answers [Some r] to
    return [r] and [None] to go on waiting.  The loops above are shown equal
    to instances of it, and what holds of both is proved once. *)

Definition stack_poll (stackName : string) : M (option (string * option error)) :=
  q <- getStackStatus stackName ;;
  match snd q with
  | Some err => ret (Some ("", Some err))
  | None =>
      let status := fst q in
      if stack_succeeded status then ret (Some (status, None))
      else if stack_failed status then
        ret (Some (status, Some (Errorf ("stack operation failed with status: " ^^ status))))
      else ret None
  end.

Definition drift_poll (driftDetectionId : string) : M (option (string * option error)) :=
  r <- call (CallDescribeStackDriftDetectionStatus driftDetectionId)
            (DescribeStackDriftDetectionStatus (cfnClient env) driftDetectionId) ;;
  match r with
  | Err e => ret (Some ("", Some (ErrorfW "failed to get drift detection status: " e)))
  | Ok output =>
      let status := cloudformation.DetectionStatus output in
      if detection_complete status then ret (Some (status, None))
      else if detection_failed status then
        let reason := ToString (cloudformation.DetectionStatusReason output) in
        ret (Some (status, Some (Errorf ("drift detection failed: " ^^ reason))))
      else ret None
  end.

Fixpoint poll_loop (timeout_err : error) (poll : M (option (string * option error)))
  (fuel : nat) (ticker : Ticker) (timeout : Z) : M (string * option error) :=
  match fuel with
  | O => fun s => OutOfFuel s
  | S fuel' =>
      p <- select ticker timeout ;;
      match fst p with
      | CtxDone => ret ("", ctx_Err)
      | TimeoutFired => ret ("", Some timeout_err)
      | Tick =>
          v <- poll ;;
          match v with
          | Some r => ret r
          | None => poll_loop timeout_err poll fuel' (snd p) timeout
          end
      end
  end.

(** ** States and queries the properties speak of *)

(** The state [select] leaves behind when it takes case [c] at instant [t]. *)
Definition selected (s : St) (c : Case) (t : Z) : St :=
  {| now := t;
     remote := remote s;
     selects := S (selects s);
     trace := trace s ++ [EvSelect c t] |}.

(** The state a request issued in [s] leaves behind. *)
Definition called (s : St) (c : Call) (latency : N) (remote' : Remote) : St :=
  {| now := now s + Z.of_N latency;
     remote := remote';
     selects := selects s;
     trace := trace s ++ [EvCall c (now s)] |}.

(** A status query: one request [c], whatever it answers. *)
Definition queries (c : Call) (poll : M (option (string * option error))) : Prop :=
  forall s, exists v latency remote', poll s = Ret v (called s c latency remote').

End Deployer.

Unset Implicit Arguments.

Arguments Panic {Remote A} s.
Arguments OutOfFuel {Remote A} s.

(** The events of a wait that took its ticks at the instants [ts]: every
    tick is followed at once by one request [c]. *)
Definition polled (c : Call) (ts : list Z) : list Event :=
  flat_map (fun t => [EvSelect Tick t; EvCall c t]) ts.


(** What a status query of [waitForStack] can make the wait return. *)
Definition stack_verdict (stackName : string) (r : string * option error) : Prop :=
  (stack_succeeded (fst r) = true /\ snd r = None) \/
  (stack_failed (fst r) = true /\
   snd r = Some (Errorf ("stack operation failed with status: " ^^ fst r))) \/
  (fst r = "" /\ exists e, snd r = Some (ErrorfW "failed to describe stack: " e)) \/
  (fst r = "" /\ snd r = Some (Errorf ("stack " ^^ stackName ^^ " not found"))).

(** What a status query of [waitForDriftDetection] can make the wait return. *)
Definition drift_verdict (r : string * option error) : Prop :=
  (detection_complete (fst r) = true /\ snd r = None) \/
  (detection_failed (fst r) = true /\
   exists reason, snd r = Some (Errorf ("drift detection failed: " ^^ reason))) \/
  (fst r = "" /\ exists e, snd r = Some (ErrorfW "failed to get drift detection status: " e)).

(** A ticker that holds no tick and fires next in the future of [s]. *)
Definition armed {Remote : Type} (tk : Ticker) (s : St Remote) : Prop :=
  C tk = false /\ now s < next_fire tk.

(** [n] instants one interval [d] apart, from [t1] on. *)
Definition ticks_from (t1 d : Z) (n : nat) : list Z :=
  map (fun j => t1 + Z.of_nat j * d) (seq 0 n).

(** A status query that is always answered in less than [d]. *)
Definition answers_within {Remote : Type} (d : Z)
  (poll : M Remote (option (string * option error))) : Prop :=
  forall s v s', poll s = Ret v s' -> now s' < now s + d.

(** [s'] is [s] with more events at the end of its trace. *)
Definition extends {Remote : Type} (s s' : St Remote) : Prop :=
  exists l, trace s' = trace s ++ l.

(** The requests of a trace, in the order they were issued. *)
Definition requests (tr : list Event) : list Call :=
  flat_map (fun ev => match ev with EvCall c _ => [c] | EvSelect _ _ => [] end) tr.

(** What the remote system answers to a request issued in [s], and the state
    the request leaves behind. *)
Definition answer {Remote A : Type} (f : Z -> Remote -> reply Remote A) (s : St Remote)
  : result A :=
  snd (fst (f (now s) (remote s))).

Definition after {Remote A : Type} (c : Call) (f : Z -> Remote -> reply Remote A)
  (s : St Remote) : St Remote :=
  called s c (fst (fst (f (now s) (remote s)))) (snd (f (now s) (remote s))).

(** ** Scripted environments

    A remote system that counts the requests it has served and answers the
    [n]-th one from a script; used to run the deployer on concrete inputs. *)

Module Example.

Definition stack (status : string) (outputs : list types.Output) : types.Stack :=
  {| types.StackStatus := status;
     types.Outputs := outputs;
     types.DriftInformation := Some {| types.StackDriftStatus := "DRIFTED" |} |}.

Definition described (status : string) (outputs : list types.Output)
  : result cloudformation.DescribeStacksOutput :=
  Ok {| cloudformation.Stacks := [stack status outputs] |}.

Definition no_stacks : result cloudformation.DescribeStacksOutput :=
  Ok {| cloudformation.Stacks := [] |}.

Definition detection (status : string) (reason : option string)
  : result cloudformation.DescribeStackDriftDetectionStatusOutput :=
  Ok {| cloudformation.DetectionStatus := status;
        cloudformation.DetectionStatusReason := reason |}.

Definition stack_id : result cloudformation.StackIdOutput :=
  Ok {| cloudformation.StackId := Some "arn:aws:cloudformation:stack/Net/1" |}.

Definition detection_id : result cloudformation.DetectStackDriftOutput :=
  Ok {| cloudformation.StackDriftDetectionId := Some "detection-1" |}.

(** The remote system honours [StackResourceDriftStatusFilters]. *)
Definition filtered_drifts (all : list types.StackResourceDrift)
  (input : cloudformation.DescribeStackResourceDriftsInput.t)
  : result cloudformation.DescribeStackResourceDriftsOutput :=
  Ok {| cloudformation.StackResourceDrifts :=
          filter (fun rd =>
                    existsb (String.eqb (types.StackResourceDriftStatus rd))
                      (cloudformation.DescribeStackResourceDriftsInput.StackResourceDriftStatusFilters
                         input))
                 all |}.

Definition client
  (describe : nat -> N * result cloudformation.DescribeStacksOutput)
  (submit : nat -> N * result cloudformation.StackIdOutput)
  (detect : nat -> N * result cloudformation.DescribeStackDriftDetectionStatusOutput)
  (resources : list types.StackResourceDrift) : Client nat :=
  {| DescribeStacks := fun _ _ n => (fst (describe n), snd (describe n), S n);
     CreateStack := fun _ _ n => (fst (submit n), snd (submit n), S n);
     UpdateStack := fun _ _ n => (fst (submit n), snd (submit n), S n);
     DetectStackDrift := fun _ _ n => (0%N, detection_id, S n);
     DescribeStackDriftDetectionStatus := fun _ _ n => (fst (detect n), snd (detect n), S n);
     DescribeStackResourceDrifts := fun input _ n => (0%N, filtered_drifts resources input, S n) |}.

Definition environment (c : Client nat) (done : option (Z * ctxError)) (rand : nat -> nat)
  : Env nat :=
  {| cfnClient := c;
     synthesizer := {| projectPath := "/tmp/app"; outputDir := "/tmp/app/cdk.out" |};
     Join := fun dir file => dir ^^ "/" ^^ file;
     ReadFile := fun _ => Ok "{}";
     ctx_done := done;
     fastrand := rand |}.

Definition start : St nat :=
  {| now := 0; remote := 0%nat; selects := 0%nat; trace := [] |}.

Definition seconds (n : N) : N := (n * 1000000000)%N.

(** The start, with [n] requests already served. *)
Definition after_requests (n : nat) : St nat :=
  {| now := 0; remote := n; selects := 0%nat; trace := [] |}.

(** *** Scenarios *)

(** Nothing is cancelled, and [select] takes the first ready case. *)
Definition quiet (c : Client nat) : Env nat := environment c None (fun _ => 0%nat).

Definition K1V1 : types.Output :=
  {| types.OutputKey := Some "K1"; types.OutputValue := Some "V1" |}.
Definition K2V2 : types.Output :=
  {| types.OutputKey := Some "K2"; types.OutputValue := Some "V2" |}.

(** A stack being created: the first two queries find it in progress, the
    later ones complete, each answered after one second. *)
Definition progressing : Env nat :=
  quiet (client (fun n => match n with
                          | 0%nat | 1%nat => (seconds 1, described "CREATE_IN_PROGRESS" [])
                          | _ => (seconds 1, described "CREATE_COMPLETE" [K1V1; K2V2])
                          end)
                (fun _ => (0%N, stack_id))
                (fun _ => (0%N, detection "DETECTION_COMPLETE" None))
                []).

(** Stack "Net" does not exist: the existence check fails, the create request
    is accepted, and the stack completes at the third query. *)
Definition creating : Env nat :=
  quiet (client (fun n => match n with
                          | 0%nat => (0%N, Err (External "Stack with id Net does not exist"))
                          | 2%nat | 3%nat => (seconds 1, described "CREATE_IN_PROGRESS" [])
                          | _ => (seconds 1, described "CREATE_COMPLETE" [K1V1; K2V2])
                          end)
                (fun _ => (0%N, stack_id))
                (fun _ => (0%N, detection "DETECTION_COMPLETE" None))
                []).

(** The stack exists and completes without outputs. *)
Definition no_outputs : Env nat :=
  quiet (client (fun _ => (0%N, described "UPDATE_COMPLETE" []))
                (fun _ => (0%N, stack_id))
                (fun _ => (0%N, detection "DETECTION_COMPLETE" None))
                []).

(** Every describe request succeeds with no stacks. *)
Definition gone : Env nat :=
  quiet (client (fun _ => (0%N, no_stacks))
                (fun _ => (0%N, stack_id))
                (fun _ => (0%N, detection "DETECTION_COMPLETE" None))
                []).

(** The describe request fails. *)
Definition unreachable : Env nat :=
  quiet (client (fun _ => (0%N, Err (External "RequestError: send request failed")))
                (fun _ => (0%N, stack_id))
                (fun _ => (0%N, detection "DETECTION_COMPLETE" None))
                []).





(** A batch: the update of the first stack completes at once; the update of
    the second is rolled back and the rollback fails. *)
Definition second_fails : Env nat :=
  quiet (client (fun n => match n with
                          | 6%nat => (0%N, described "UPDATE_IN_PROGRESS" [])
                          | 7%nat => (0%N, described "UPDATE_ROLLBACK_FAILED" [])
                          | _ => (0%N, described "UPDATE_COMPLETE" [K1V1])
                          end)
                (fun _ => (0%N, stack_id))
                (fun _ => (0%N, detection "DETECTION_COMPLETE" None))
                []).

Definition timeout_diff : types.PropertyDifference :=
  {| types.PropertyPath := Some "Properties.Timeout";
     types.ExpectedValue := Some "30";
     types.ActualValue := Some "60";
     types.DifferenceType := "NOT_EQUAL" |}.

Definition resource (id status : string) (diffs : list types.PropertyDifference)
  : types.StackResourceDrift :=
  {| types.LogicalResourceId := Some id;
     types.PhysicalResourceId := Some (id ^^ "-1");
     types.ResourceType := Some "AWS::Lambda::Function";
     types.StackResourceDriftStatus := status;
     types.PropertyDifferences := diffs |}.

Definition resources : list types.StackResourceDrift :=
  [resource "Fn" "MODIFIED" [timeout_diff];
   resource "Role" "IN_SYNC" [];
   resource "Queue" "DELETED" [];
   resource "Topic" "NOT_CHECKED" []].


(** Drift detection of the second stack of a batch fails. *)
Definition second_detection_fails : Env nat :=
  quiet (client (fun _ => (0%N, described "UPDATE_COMPLETE" []))
                (fun _ => (0%N, stack_id))
                (fun n => match n with
                          | 7%nat => (0%N, detection "DETECTION_FAILED" (Some "throttled"))
                          | _ => (0%N, detection "DETECTION_COMPLETE" None)
                          end)
                resources).

(** The template of the stack is not in [cdk.out]. *)
Definition no_template : Env nat :=
  {| cfnClient := client (fun _ => (0%N, described "UPDATE_COMPLETE" []))
                         (fun _ => (0%N, stack_id))
                         (fun _ => (0%N, detection "DETECTION_COMPLETE" None))
                         [];
     synthesizer := {| projectPath := "/tmp/app"; outputDir := "/tmp/app/cdk.out" |};
     Join := fun dir file => dir ^^ "/" ^^ file;
     ReadFile := fun _ => Err (External "no such file or directory");
     ctx_done := None;
     fastrand := fun _ => 0%nat |}.

(** The stack exists and the update request is rejected. *)
Definition rejected : Env nat :=
  quiet (client (fun _ => (0%N, described "UPDATE_COMPLETE" []))
                (fun _ => (0%N, Err (External "ValidationError: No updates are to be performed.")))
                (fun _ => (0%N, detection "DETECTION_COMPLETE" None))
                []).

(** The stack is described without drift information. *)
Definition no_drift_information : Env nat :=
  quiet (client (fun _ => (0%N, Ok {| cloudformation.Stacks :=
                                        [{| types.StackStatus := "UPDATE_COMPLETE";
                                            types.Outputs := [];
                                            types.DriftInformation := None |}] |}))
                (fun _ => (0%N, stack_id))
                (fun _ => (0%N, detection "DETECTION_COMPLETE" None))
                []).

(** The stack vanishes while it is waited for: the second describe request
    returns no stacks. *)
Definition vanishing : Env nat :=
  quiet (client (fun n => match n with
                          | 0%nat => (0%N, described "UPDATE_COMPLETE" [])
                          | _ => (0%N, no_stacks)
                          end)
                (fun _ => (0%N, stack_id))
                (fun _ => (0%N, detection "DETECTION_COMPLETE" None))
                []).

End Example.

(** * The rest of the tool: [pkg/cdk/synthesizer.go], [pkg/cdk/cdk.go],
      [pkg/git/clone.go] and [run] of [main.go]

    These run on the local machine: its files, the processes they start and
    the libraries they call are a [Host] the code runs against, as the
    CloudFormation client is for the deployer.

    The synthesizer is embedded as it is with the check of the version of
    Python, in [installPythonDependencies]; its other functions are the same
    without it. *)

(** ** Strings and paths *)

(** [s[i:]] and [s[:j]], for [i] and [j] within the string. *)
Definition slice_from (s : string) (i : nat) : string :=
  String.substring i (String.length s - i) s.

Definition slice_to (s : string) (j : nat) : string :=
  String.substring 0 j s.

(** [strings.HasPrefix], [strings.HasSuffix], [strings.TrimSuffix] and
    [strings.Contains]. *)
Definition HasPrefix (s prefix : string) : bool := String.prefix prefix s.

Definition HasSuffix (s suffix : string) : bool :=
  (String.length suffix <=? String.length s)%nat &&
  String.eqb (slice_from s (String.length s - String.length suffix)) suffix.

Definition TrimSuffix (s suffix : string) : string :=
  if HasSuffix s suffix then slice_to s (String.length s - String.length suffix) else s.

Definition Contains (s substr : string) : bool :=
  match String.index 0 substr s with
  | Some _ => true
  | None => false
  end.

Definition slash : ascii := "/"%char.
Definition dot : ascii := "."%char.

(** [filepath.Base] where the separator is [/]: the last element of the
    path, trailing slashes removed first; [.] for the empty path and [/] for
    a path of slashes only.  The functions below work on the path read from
    its end. *)
Fixpoint strip_slashes (rpath : list ascii) : list ascii :=
  match rpath with
  | c :: rest => if Ascii.eqb c slash then strip_slashes rest else rpath
  | [] => []
  end.

Fixpoint last_element (rpath : list ascii) : list ascii :=
  match rpath with
  | c :: rest => if Ascii.eqb c slash then [] else c :: last_element rest
  | [] => []
  end.

Definition Base (path : string) : string :=
  if String.eqb path "" then "."
  else
    match last_element (strip_slashes (rev (list_ascii_of_string path))) with
    | [] => "/"
    | relem => string_of_list_ascii (rev relem)
    end.

(** [filepath.Ext]: the suffix that begins at the last dot of the last
    element of the path, empty when that element has no dot. *)
Fixpoint ext_from (rpath : list ascii) (suffix : list ascii) : list ascii :=
  match rpath with
  | c :: rest =>
      if Ascii.eqb c slash then []
      else if Ascii.eqb c dot then c :: suffix
      else ext_from rest (c :: suffix)
  | [] => []
  end.

Definition Ext (path : string) : string :=
  string_of_list_ascii (ext_from (rev (list_ascii_of_string path)) []).

(** The double quote, for the patterns that hold one. *)
Definition quote : string :=
  String (Ascii.Ascii false true false false false true false false) EmptyString.

(** ** Processes *)

Module exec.

(** [exec.Cmd], with the fields the tool sets; [Args] begins with the name of
    the program. *)
Record Cmd := {
  Args : list string;
  Dir : string;
  Env : slice string
}.

(** [exec.Command(name, arg...)] *)
Definition Command (name : string) (arg : list string) : Cmd :=
  {| Args := name :: arg; Dir := ""; Env := Nil |}.

(** [cmd.Dir = dir] and [cmd.Env = env] *)
Definition set_Dir (cmd : Cmd) (dir : string) : Cmd :=
  {| Args := Args cmd; Dir := dir; Env := Env cmd |}.

Definition set_Env (cmd : Cmd) (env : slice string) : Cmd :=
  {| Args := Args cmd; Dir := Dir cmd; Env := env |}.

End exec.

(** ** [pkg/cdk/types.go], the rest *)

(** [CDKConfig]; its [Context] is never read. *)
Record CDKConfig := {
  App : string
}.

Module SynthResult.
Record t := {
  TemplateDir : string;
  Stacks : slice string
}.
End SynthResult.

(** What the tool does to the local machine, in the order it does it. *)
Inductive Action : Type :=
| ActRun (cmd : exec.Cmd)
| ActCombinedOutput (cmd : exec.Cmd)
| ActMkdirTemp (dir pattern : string)
| ActPlainClone (path url : string) (depth : Z)
| ActRemoveAll (path : string)
| ActLoadDefaultConfig.

Set Implicit Arguments.

Section Tool.

(** The files and the processes of the local machine, the remote system, and
    the configuration of the SDK. *)
Variable World : Type.
Variable Remote : Type.
Variable Config : Type.

(** The library calls of the tool, by package. *)
Record Host := {
  filepath_Join : list string -> string;
  filepath_Glob : string -> World -> list string * option error;
  os_Stat : string -> World -> option error;
  os_IsNotExist : error -> bool;
  os_ReadFile : string -> World -> result string;
  os_MkdirTemp : string -> string -> World -> result string * World;
  os_RemoveAll : string -> World -> option error * World;
  os_Environ : World -> list string;
  os_Getenv : string -> World -> string;
  exec_LookPath : string -> World -> option error;
  exec_Run : exec.Cmd -> World -> option error * World;
  exec_CombinedOutput : exec.Cmd -> World -> string * option error * World;
  strings_Fields : string -> list string;
  strings_TrimSpace : string -> string;
  regexp_FindStringSubmatch : string -> string -> list string;
  strconv_Atoi : string -> Z;
  fmt_d : Z -> string;
  json_Unmarshal : string -> result CDKConfig;
  git_PlainClone : string -> string -> Z -> World -> option error * World;
  config_LoadDefaultConfig : option (Z * ctxError) -> World -> result Config;
  cloudformation_NewFromConfig : Config -> Client Remote;
  runtime_fastrand : nat -> nat
}.

(** The state of a run: the local machine, what was done to it, and the
    state of the deployer. *)
Record Machine := {
  world : World;
  done : list Action;
  cloud : St Remote
}.

(** Code that runs on the local machine only. *)
Definition L (A : Type) : Type := Machine -> A * Machine.

Definition unit_L {A} (a : A) : L A := fun m => (a, m).

Definition bind_L {A B} (x : L A) (k : A -> L B) : L B :=
  fun m => let (a, m') := x m in k a m'.

Notation "x <- m ;; k" := (bind_L m (fun x => k))
  (at level 61, m at next level, right associativity).

Variable host : Host.

(** Reading the machine. *)
Definition look {A} (f : World -> A) : L A := fun m => (f (world m), m).

(** Changing it. *)
Definition act {A} (a : Action) (f : World -> A * World) : L A :=
  fun m => let (r, w) := f (world m) in
           (r, {| world := w; done := done m ++ [a]; cloud := cloud m |}).

Definition Stat (name : string) : L (option error) := look (os_Stat host name).

(** [os.IsNotExist(err)], false of a nil error. *)
Definition IsNotExist (err : option error) : bool :=
  match err with
  | Some e => os_IsNotExist host e
  | None => false
  end.

(** [cmd.Run()] and [cmd.CombinedOutput()] *)
Definition Run (cmd : exec.Cmd) : L (option error) := act (ActRun cmd) (exec_Run host cmd).

Definition CombinedOutput (cmd : exec.Cmd) : L (string * option error) :=
  act (ActCombinedOutput cmd) (exec_CombinedOutput host cmd).

(** ** [pkg/cdk/synthesizer.go] *)

Definition NewSynthesizer (projectPath : string) : Synthesizer :=
  {| projectPath := projectPath;
     outputDir := filepath_Join host [projectPath; "cdk.out"] |}.

Definition DetectProjectType (s : Synthesizer) : L (string * option error) :=
  err <- Stat (filepath_Join host [projectPath s; "package.json"]) ;;
  match err with
  | None => unit_L ("typescript", None)
  | Some _ =>
  err <- Stat (filepath_Join host [projectPath s; "requirements.txt"]) ;;
  match err with
  | None => unit_L ("python", None)
  | Some _ =>
  err <- Stat (filepath_Join host [projectPath s; "setup.py"]) ;;
  match err with
  | None => unit_L ("python", None)
  | Some _ =>
  err <- Stat (filepath_Join host [projectPath s; "go.mod"]) ;;
  match err with
  | None => unit_L ("go", None)
  | Some _ =>
  err <- Stat (filepath_Join host [projectPath s; "pom.xml"]) ;;
  match err with
  | None => unit_L ("java", None)
  | Some _ =>
  files <- look (filepath_Glob host (filepath_Join host [projectPath s; "*.csproj"])) ;;
  if (0 <? List.length (fst files))%nat then unit_L ("csharp", None)
  else unit_L ("", Some (Errorf "unable to detect CDK project type"))
  end end end end end.

(** [getPythonVersion]: the version the command reports, as
    [(major, minor, patch)]. *)
Definition getPythonVersion (pythonCmd : string) : L (Z * Z * Z * option error) :=
  out <- CombinedOutput (exec.Command pythonCmd ["--version"]) ;;
  match snd out with
  | Some err => unit_L (0, 0, 0, Some (ErrorfW "failed to get Python version: " err))
  | None =>
      let versionStr := strings_TrimSpace host (fst out) in
      let matches := regexp_FindStringSubmatch host "Python (\d+)\.(\d+)\.(\d+)" versionStr in
      if negb (List.length matches =? 4)%nat then
        let matches := regexp_FindStringSubmatch host "Python (\d+)\.(\d+)" versionStr in
        if negb (List.length matches =? 3)%nat then
          unit_L (0, 0, 0, Some (Errorf ("failed to parse Python version from: " ^^ versionStr)))
        else
          unit_L (strconv_Atoi host (nth 1 matches ""),
                  strconv_Atoi host (nth 2 matches ""), 0, None)
      else
        unit_L (strconv_Atoi host (nth 1 matches ""),
                strconv_Atoi host (nth 2 matches ""),
                strconv_Atoi host (nth 3 matches ""), None)
  end.

(** One of the three places [getRequiredPythonVersion] looks in: a file, what
    is done to its content before matching, and a pattern of two groups. *)
Definition required_in (name : string) (prepare : string -> string) (pattern : string)
  : L (option (Z * Z)) :=
  r <- look (os_ReadFile host name) ;;
  match r with
  | Ok data =>
      let matches := regexp_FindStringSubmatch host pattern (prepare data) in
      if (List.length matches =? 3)%nat then
        unit_L (Some (strconv_Atoi host (nth 1 matches ""),
                      strconv_Atoi host (nth 2 matches "")))
      else unit_L None
  | Err _ => unit_L None
  end.

Definition getRequiredPythonVersion (s : Synthesizer) : L (Z * Z * option error) :=
  v <- required_in (filepath_Join host [projectPath s; ".python-version"])
         (strings_TrimSpace host) "^(\d+)\.(\d+)" ;;
  match v with
  | Some (major, minor) => unit_L (major, minor, None)
  | None =>
  v <- required_in (filepath_Join host [projectPath s; "setup.py"])
         (fun content => content)
         ("python_requires\s*=\s*['" ^^ quote ^^ "]>=(\d+)\.(\d+)") ;;
  match v with
  | Some (major, minor) => unit_L (major, minor, None)
  | None =>
  v <- required_in (filepath_Join host [projectPath s; "pyproject.toml"])
         (fun content => content)
         ("requires-python\s*=\s*['" ^^ quote ^^ "]>=(\d+)\.(\d+)") ;;
  match v with
  | Some (major, minor) => unit_L (major, minor, None)
  | None => unit_L (3, 7, None)
  end end end.

Definition checkPythonCompatibility (s : Synthesizer) (pythonCmd : string) : L (option error) :=
  v <- getPythonVersion pythonCmd ;;
  let '(major, minor, patch, err) := v in
  match err with
  | Some err => unit_L (Some err)
  | None =>
      let installedVersion :=
        fmt_d host major ^^ "." ^^ fmt_d host minor ^^ "." ^^ fmt_d host patch in
      q <- getRequiredPythonVersion s ;;
      let '(reqMajor, reqMinor, err) := q in
      match err with
      | Some err => unit_L (Some err)
      | None =>
          let requiredVersion := fmt_d host reqMajor ^^ "." ^^ fmt_d host reqMinor in
          if (major <? reqMajor) || ((major =? reqMajor) && (minor <? reqMinor)) then
            unit_L (Some (Errorf ("python version " ^^ installedVersion ^^
                                  " is incompatible with project requirements (>=" ^^
                                  requiredVersion ^^ ")")))
          else unit_L None
      end
  end.

Definition installPythonDependencies (s : Synthesizer) : L (option error) :=
  let venvPath := filepath_Join host [projectPath s; ".venv"] in
  err <- look (exec_LookPath host "python3") ;;
  let pythonCmd := match err with Some _ => "python" | None => "python3" end in
  err <- checkPythonCompatibility s pythonCmd ;;
  match err with
  | Some err => unit_L (Some err)
  | None =>
      err <- Stat venvPath ;;
      err <- (if IsNotExist err then
                err <- Run (exec.set_Dir (exec.Command pythonCmd ["-m"; "venv"; ".venv"])
                              (projectPath s)) ;;
                match err with
                | Some err =>
                    unit_L (Some (ErrorfW "failed to create virtual environment: " err))
                | None => unit_L None
                end
              else unit_L None) ;;
      match err with
      | Some err => unit_L (Some err)
      | None =>
          let pipPath := filepath_Join host [venvPath; "bin"; "pip"] in
          err <- Run (exec.set_Dir (exec.Command pipPath ["install"; "-r"; "requirements.txt"])
                        (projectPath s)) ;;
          match err with
          | Some err => unit_L (Some (ErrorfW "failed to install dependencies: " err))
          | None => unit_L None
          end
      end
  end.

(** The end of [InstallDependencies], for the project types that install
    with one command. *)
Definition install_with (s : Synthesizer) (cmd : exec.Cmd) : L (option error) :=
  err <- Run (exec.set_Dir cmd (projectPath s)) ;;
  match err with
  | Some err => unit_L (Some (ErrorfW "failed to install dependencies: " err))
  | None => unit_L None
  end.

Definition InstallDependencies (s : Synthesizer) (projectType : string) : L (option error) :=
  if String.eqb projectType "typescript" then
    err <- Stat (filepath_Join host [projectPath s; "node_modules"]) ;;
    if IsNotExist err then install_with s (exec.Command "npm" ["install"])
    else unit_L None
  else if String.eqb projectType "python" then installPythonDependencies s
  else if String.eqb projectType "go" then install_with s (exec.Command "go" ["mod"; "download"])
  else if String.eqb projectType "java" then
    install_with s (exec.Command "mvn" ["dependency:resolve"])
  else unit_L (Some (Errorf ("unsupported project type: " ^^ projectType))).

Definition readCDKConfig (s : Synthesizer) : L (result CDKConfig) :=
  let configPath := filepath_Join host [projectPath s; "cdk.json"] in
  r <- look (os_ReadFile host configPath) ;;
  match r with
  | Err err => unit_L (Err (ErrorfW "failed to read cdk.json: " err))
  | Ok data =>
      match json_Unmarshal host data with
      | Err err => unit_L (Err (ErrorfW "failed to parse cdk.json: " err))
      | Ok config => unit_L (Ok config)
      end
  end.

(** The app command of a Python project: a leading [python3] or [python] gives
    way to the interpreter of the virtual environment. *)
Definition venv_command (venvPython appCmd : string) : string :=
  if HasPrefix appCmd "python3 " then venvPython ^^ slice_from appCmd 7
  else if HasPrefix appCmd "python " then venvPython ^^ slice_from appCmd 6
  else appCmd.

Definition runCDKSynth (s : Synthesizer) (appCmd : string) : L (option error) :=
  let parts := strings_Fields host appCmd in
  if (List.length parts =? 0)%nat then
    unit_L (Some (Errorf "empty app command in cdk.json"))
  else
    env <- look (os_Environ host) ;;
    let env := env ++ ["CDK_OUTDIR=" ^^ outputDir s] in
    t <- DetectProjectType s ;;
    let projectType := fst t in
    _ <- (if String.eqb projectType "typescript" && negb (Contains appCmd "ts-node") then
            err <- Stat (filepath_Join host [projectPath s; "tsconfig.json"]) ;;
            match err with
            | None =>
                _ <- Run (exec.set_Dir (exec.Command "npx" ["tsc"]) (projectPath s)) ;;
                unit_L tt
            | Some _ => unit_L tt
            end
          else unit_L tt) ;;
    p <- (if String.eqb projectType "python" then
            let venvPython := filepath_Join host [projectPath s; ".venv"; "bin"; "python"] in
            let venvBin := filepath_Join host [projectPath s; ".venv"; "bin"] in
            path <- look (os_Getenv host "PATH") ;;
            unit_L (venv_command venvPython appCmd,
                    env ++ ["PATH=" ^^ venvBin ^^ ":" ^^ path] ++
                    ["VIRTUAL_ENV=" ^^ filepath_Join host [projectPath s; ".venv"]])
          else unit_L (appCmd, env)) ;;
    let cmd := exec.Command "npx" ["cdk"; "synth"; "--app"; fst p; "--output"; outputDir s] in
    err <- Run (exec.set_Env (exec.set_Dir cmd (projectPath s)) (Slice (snd p))) ;;
    match err with
    | Some err => unit_L (Some (ErrorfW "CDK synthesis failed: " err))
    | None => unit_L None
    end.

(** The name of the stack of a template file. *)
Definition stack_of_template (path : string) : string :=
  TrimSuffix (Base path) ".template.json".

Definition findGeneratedStacks (s : Synthesizer) : L (slice string * option error) :=
  let pattern := filepath_Join host [outputDir s; "*.template.json"] in
  g <- look (filepath_Glob host pattern) ;;
  match snd g with
  | Some err => unit_L (Nil, Some (ErrorfW "failed to find templates: " err))
  | None =>
      let stacks := range_append stack_of_template (fst g) Nil in
      if (len stacks =? 0)%nat then
        unit_L (Nil, Some (Errorf ("no CloudFormation templates found in " ^^ outputDir s)))
      else unit_L (stacks, None)
  end.

Definition Synth (s : Synthesizer) : L (result SynthResult.t) :=
  c <- readCDKConfig s ;;
  match c with
  | Err err => unit_L (Err err)
  | Ok cdkConfig =>
      err <- runCDKSynth s (App cdkConfig) ;;
      match err with
      | Some err => unit_L (Err err)
      | None =>
          f <- findGeneratedStacks s ;;
          match snd f with
          | Some err => unit_L (Err err)
          | None =>
              unit_L (Ok {| SynthResult.TemplateDir := outputDir s;
                            SynthResult.Stacks := fst f |})
          end
      end
  end.

(** ** [pkg/git/clone.go] *)

(** The directory name of a repository: the last element of its URL, without
    a [.git] extension. *)
Definition repo_name (repoURL : string) : string :=
  let repoName := Base repoURL in
  if String.eqb (Ext repoName) ".git" then slice_to repoName (String.length repoName - 4)
  else repoName.

Definition CloneRepository (repoURL destDir : string) : L (string * option error) :=
  d <- (if String.eqb destDir "" then
          r <- act (ActMkdirTemp "" "cdk-deployer-*") (os_MkdirTemp host "" "cdk-deployer-*") ;;
          match r with
          | Err err => unit_L ("", Some (ErrorfW "failed to create temp directory: " err))
          | Ok tmpDir => unit_L (tmpDir, None)
          end
        else unit_L (destDir, None)) ;;
  match snd d with
  | Some err => unit_L ("", Some err)
  | None =>
      let clonePath := filepath_Join host [fst d; repo_name repoURL] in
      err <- act (ActPlainClone clonePath repoURL 1) (git_PlainClone host clonePath repoURL 1) ;;
      match err with
      | Some err => unit_L ("", Some (ErrorfW "failed to clone repository: " err))
      | None => unit_L (clonePath, None)
      end
  end.

Definition CleanupRepository (path : string) : L (option error) :=
  act (ActRemoveAll path) (os_RemoveAll host path).

(** ** [pkg/cdk/deployer.go]: [NewDeployer] *)

(** [Deployer]: the client and the synthesizer.  Its methods, above, take
    them from their environment, with the context they are called in. *)
Record Deployer := {
  deployer_cfnClient : Client Remote;
  deployer_synthesizer : Synthesizer
}.

Definition NewDeployer (ctx : option (Z * ctxError)) (synthesizer : Synthesizer)
  : L (result Deployer) :=
  r <- act ActLoadDefaultConfig
         (fun w => (config_LoadDefaultConfig host ctx w, w)) ;;
  match r with
  | Err err => unit_L (Err (ErrorfW "failed to load AWS config: " err))
  | Ok cfg =>
      unit_L (Ok {| deployer_cfnClient := cloudformation_NewFromConfig host cfg;
                    deployer_synthesizer := synthesizer |})
  end.

(** The environment of the methods of a deployer called with context [ctx]
    on a machine whose files are those of [w]. *)
Definition deployer_env (d : Deployer) (ctx : option (Z * ctxError)) (w : World) : Env Remote :=
  {| cfnClient := deployer_cfnClient d;
     synthesizer := deployer_synthesizer d;
     Join := fun dir file => filepath_Join host [dir; file];
     ReadFile := fun name => os_ReadFile host name w;
     ctx_done := ctx;
     fastrand := runtime_fastrand host |}.

(** ** Code that runs on both sides *)

Inductive Outcome (A : Type) : Type :=
| Returns (a : A) (m : Machine)
| Panics (m : Machine)
| RunsOut (m : Machine).
Arguments Returns {A} a m.
Arguments Panics {A} m.
Arguments RunsOut {A} m.

Definition machine {A} (o : Outcome A) : Machine :=
  match o with Returns _ m => m | Panics m => m | RunsOut m => m end.

Definition T (A : Type) : Type := Machine -> Outcome A.

Definition unit_T {A} (a : A) : T A := fun m => Returns a m.

Definition bind_T {A B} (x : T A) (k : A -> T B) : T B :=
  fun m => match x m with
           | Returns a m' => k a m'
           | Panics m' => Panics m'
           | RunsOut m' => RunsOut m'
           end.

Definition local {A} (x : L A) : T A := fun m => let (a, m') := x m in Returns a m'.

(** A method of the deployer, run on the state of the deployer. *)
Definition remote_call {A} (x : World -> M Remote A) : T A :=
  fun m => match x (world m) (cloud m) with
           | Ret a s => Returns a {| world := world m; done := done m; cloud := s |}
           | Panic s => Panics {| world := world m; done := done m; cloud := s |}
           | OutOfFuel s => RunsOut {| world := world m; done := done m; cloud := s |}
           end.

(** [defer]: the deferred call runs when the function returns and when it
    panics; what it returns is dropped. *)
Definition defer {A B} (deferred : L B) (body : T A) : T A :=
  fun m => match body m with
           | Returns a m' => Returns a (snd (deferred m'))
           | Panics m' => Panics (snd (deferred m'))
           | RunsOut m' => RunsOut m'
           end.

Notation "x <<- m ;; k" := (bind_T m (fun x => k))
  (at level 61, m at next level, right associativity).

(** ** [pkg/cdk/cdk.go] *)

Record CDK := {
  cdk_projectPath : string;
  cdk_synthesizer : Synthesizer;
  cdk_deployer : option Deployer
}.

Definition CDK_New (projectPath : string) : CDK :=
  {| cdk_projectPath := projectPath;
     cdk_synthesizer := NewSynthesizer projectPath;
     cdk_deployer := None |}.

Definition CDK_Initialize (c : CDK) : L (option error) :=
  t <- DetectProjectType (cdk_synthesizer c) ;;
  match snd t with
  | Some err => unit_L (Some (ErrorfW "failed to detect project type: " err))
  | None =>
      err <- InstallDependencies (cdk_synthesizer c) (fst t) ;;
      match err with
      | Some err => unit_L (Some (ErrorfW "failed to install dependencies: " err))
      | None => unit_L None
      end
  end.

Definition CDK_Synth (c : CDK) : L (result SynthResult.t) := Synth (cdk_synthesizer c).

(** [c.deployer = deployer] *)
Definition set_deployer (c : CDK) (d : Deployer) : CDK :=
  {| cdk_projectPath := cdk_projectPath c;
     cdk_synthesizer := cdk_synthesizer c;
     cdk_deployer := Some d |}.

(** The methods below return the instance as they leave it, with their
    results. *)
Definition CDK_Deploy (c : CDK) (ctx : option (Z * ctxError)) (fuel : nat)
  (stacks : list string) : T (CDK * (slice DeployResult.t * option error)) :=
  match cdk_deployer c with
  | None =>
      r <<- local (NewDeployer ctx (cdk_synthesizer c)) ;;
      match r with
      | Err err => unit_T (c, (Nil, Some err))
      | Ok d =>
          res <<- remote_call (fun w => DeployAll (deployer_env d ctx w) fuel stacks) ;;
          unit_T (set_deployer c d, res)
      end
  | Some d =>
      res <<- remote_call (fun w => DeployAll (deployer_env d ctx w) fuel stacks) ;;
      unit_T (c, res)
  end.

Definition CDK_DetectDrift (c : CDK) (ctx : option (Z * ctxError)) (fuel : nat)
  (stacks : list string) : T (CDK * (slice DriftResult.t * option error)) :=
  match cdk_deployer c with
  | None =>
      r <<- local (NewDeployer ctx (cdk_synthesizer c)) ;;
      match r with
      | Err err => unit_T (c, (Nil, Some err))
      | Ok d =>
          res <<- remote_call (fun w => DetectDriftAll (deployer_env d ctx w) fuel stacks) ;;
          unit_T (set_deployer c d, res)
      end
  | Some d =>
      res <<- remote_call (fun w => DetectDriftAll (deployer_env d ctx w) fuel stacks) ;;
      unit_T (c, res)
  end.

Definition CDK_SynthAndDeploy (c : CDK) (ctx : option (Z * ctxError)) (fuel : nat)
  : T (CDK * (slice DeployResult.t * option error)) :=
  err <<- local (CDK_Initialize c) ;;
  match err with
  | Some err => unit_T (c, (Nil, Some err))
  | None =>
      r <<- local (CDK_Synth c) ;;
      match r with
      | Err err => unit_T (c, (Nil, Some (ErrorfW "synthesis failed: " err)))
      | Ok synthResult => CDK_Deploy c ctx fuel (elems (SynthResult.Stacks synthResult))
      end
  end.

(** ** [main.go]: [run] *)

(** The [switch] of [run], on the instance it has initialized. *)
Definition run_command (cdkApp : CDK) (ctx : option (Z * ctxError)) (fuel : nat)
  (command stackName : string) : T (option error) :=
  if String.eqb command "synth" then
    r <<- local (CDK_Synth cdkApp) ;;
    match r with
    | Err err => unit_T (Some (ErrorfW "synthesis failed: " err))
    | Ok _ => unit_T None
    end
  else if String.eqb command "deploy" then
    r <<- local (CDK_Synth cdkApp) ;;
    match r with
    | Err err => unit_T (Some (ErrorfW "synthesis failed: " err))
    | Ok synthResult =>
        d <<- CDK_Deploy cdkApp ctx fuel (elems (SynthResult.Stacks synthResult)) ;;
        match snd (snd d) with
        | Some err => unit_T (Some (ErrorfW "deployment failed: " err))
        | None => unit_T None
        end
    end
  else if String.eqb command "drift" then
    s <<- (if negb (String.eqb stackName "") then unit_T (Ok [stackName])
           else
             r <<- local (CDK_Synth cdkApp) ;;
             match r with
             | Err err => unit_T (Err (ErrorfW "synthesis failed: " err))
             | Ok synthResult => unit_T (Ok (elems (SynthResult.Stacks synthResult)))
             end) ;;
    match s with
    | Err err => unit_T (Some err)
    | Ok stacks =>
        d <<- CDK_DetectDrift cdkApp ctx fuel stacks ;;
        match snd (snd d) with
        | Some err => unit_T (Some (ErrorfW "drift detection failed: " err))
        | None => unit_T None
        end
    end
  else
    unit_T (Some (Errorf ("unknown command: " ^^ command ^^
                          " (use 'synth', 'deploy', or 'drift')"))).

Definition run (ctx : option (Z * ctxError)) (fuel : nat)
  (repoURL command destDir stackName : string) (cleanup : bool) : T (option error) :=
  p <<- local (CloneRepository repoURL destDir) ;;
  match snd p with
  | Some err => unit_T (Some (ErrorfW "failed to clone repository: " err))
  | None =>
      let projectPath := fst p in
      let rest : T (option error) :=
        let cdkApp := CDK_New projectPath in
        err <<- local (CDK_Initialize cdkApp) ;;
        match err with
        | Some err => unit_T (Some (ErrorfW "failed to initialize CDK project: " err))
        | None => run_command cdkApp ctx fuel command stackName
        end in
      if cleanup then defer (CleanupRepository projectPath) rest else rest
  end.

End Tool.

Unset Implicit Arguments.

Arguments Returns {World Remote A} a m.
Arguments Panics {World Remote A} m.
Arguments RunsOut {World Remote A} m.

(** ** What the properties of the tool speak of *)

(** Commands; and commands and the loading of the configuration of the SDK:
    what the tool does to the local machine between the clone and its
    removal. *)
Definition runs (a : Action) : Prop :=
  match a with
  | ActRun _ | ActCombinedOutput _ => True
  | _ => False
  end.

Definition runs_or_loads (a : Action) : Prop :=
  match a with
  | ActRun _ | ActCombinedOutput _ | ActLoadDefaultConfig => True
  | _ => False
  end.

(** Code of the local machine that adds to what was done only actions with
    [P]; it leaves the state of the deployer as it is. *)
Definition adds {World Remote A : Type} (P : Action -> Prop) (x : L World Remote A) : Prop :=
  forall m, cloud (snd (x m)) = cloud m /\
            exists l, done (snd (x m)) = done m ++ l /\ Forall P l.

Definition adds_T {World Remote A : Type} (P : Action -> Prop) (x : T World Remote A) : Prop :=
  forall m, exists l, done (machine (x m)) = done m ++ l /\ Forall P l.

(** ** A scripted local machine

    Files with their content; commands that succeed, those of [fails] apart,
    and leave the files as they are; a repository that is cloned by copying
    its files; an interpreter that reports the version [python]. *)

Module Local.

Definition World : Type := list (string * string).

Definition join (elem : list string) : string :=
  String.concat "/" (filter (fun e => negb (String.eqb e "")) elem).

Definition has (w : World) (name : string) : bool :=
  existsb (fun f => String.eqb (fst f) name) w.

Definition read (w : World) (name : string) : result string :=
  match find (fun f => String.eqb (fst f) name) w with
  | Some f => Ok (snd f)
  | None => Err (External "no such file or directory")
  end.

(** The files that match a pattern with one star. *)
Definition glob (pattern : string) (w : World) : list string :=
  match String.index 0 "*" pattern with
  | Some i =>
      filter (fun name => HasPrefix name (slice_to pattern i) &&
                          HasSuffix name (slice_from pattern (S i)))
             (map fst w)
  | None => filter (String.eqb pattern) (map fst w)
  end.

(** The fields of a string, around single spaces. *)
Fixpoint fields_from (s : string) (field : string) : list string :=
  match s with
  | EmptyString => if String.eqb field "" then [] else [field]
  | String c rest =>
      if Ascii.eqb c " "%char
      then (if String.eqb field "" then [] else [field]) ++ fields_from rest ""
      else fields_from rest (field ^^ String c "")
  end.

Definition atoi (s : string) : Z :=
  fold_left (fun n c => 10 * n + (Z.of_nat (nat_of_ascii c) - 48)) (list_ascii_of_string s) 0.

Definition digit (n : Z) : string :=
  String (ascii_of_nat (48 + Z.to_nat n)) "".

Definition itoa (n : Z) : string :=
  if n <? 10 then digit n else digit (n / 10) ^^ digit (n mod 10).

(** The submatches of the two patterns of [getPythonVersion] on an output
    of the form [Python a.b.c], with [a], [b] and [c] of one digit. *)
Definition version_submatch (pattern s : string) : list string :=
  if HasPrefix s "Python " && (String.length s =? 12)%nat then
    if String.eqb pattern "Python (\d+)\.(\d+)\.(\d+)" then
      [s; String.substring 7 1 s; String.substring 9 1 s; String.substring 11 1 s]
    else if String.eqb pattern "Python (\d+)\.(\d+)" then
      [slice_to s 10; String.substring 7 1 s; String.substring 9 1 s]
    else []
  else [].

Definition host (python : string) (repo : World) (fails : exec.Cmd -> bool) (unreachable : bool)
  : Host World nat unit :=
  {| filepath_Join := join;
     filepath_Glob := fun pattern w => (glob pattern w, None);
     os_Stat := fun name w =>
                  if has w name then None else Some (External "no such file or directory");
     os_IsNotExist := fun e => match e with
                               | External msg => String.eqb msg "no such file or directory"
                               | _ => false
                               end;
     os_ReadFile := fun name w => read w name;
     os_MkdirTemp := fun _ _ w => (Ok "/tmp/cdk-deployer-1", w);
     os_RemoveAll := fun path w =>
                       (None, filter (fun f => negb (HasPrefix (fst f) path)) w);
     os_Environ := fun _ => ["HOME=/root"];
     os_Getenv := fun _ _ => "/usr/bin";
     exec_LookPath := fun _ _ => None;
     exec_Run := fun cmd w =>
                   (if fails cmd then Some (External "exit status 1") else None, w);
     exec_CombinedOutput := fun _ w => (python, None, w);
     strings_Fields := fun s => fields_from s "";
     strings_TrimSpace := fun s => s;
     regexp_FindStringSubmatch := version_submatch;
     strconv_Atoi := atoi;
     fmt_d := itoa;
     json_Unmarshal := fun data => Ok {| App := data |};
     git_PlainClone :=
       fun path url _ w =>
         if unreachable then (Some (External "repository not found"), w)
         else (None, w ++ map (fun f => (join [path; fst f], snd f)) repo);
     config_LoadDefaultConfig := fun _ _ => Ok tt;
     cloudformation_NewFromConfig := fun _ => cfnClient Example.creating;
     runtime_fastrand := fun _ => 0%nat |}.

Definition no_failure (cmd : exec.Cmd) : bool := false.

(** A machine with the files [w] on which nothing was done yet. *)
Definition machine_of (w : World) : Machine World nat :=
  {| world := w; done := []; cloud := Example.start |}.

(** A TypeScript project with its synthesized template, and the machine it
    is cloned on. *)
Definition typescript_repo : World :=
  [("package.json", "{}");
   ("cdk.json", "npx ts-node bin/app.ts");
   ("cdk.out/Net.template.json", "{}")].

Definition laptop : Host World nat unit := host "Python 3.9.7" typescript_repo no_failure false.

(** A C# project, a Python project and a TypeScript project that is
    compiled, already in [/app]. *)
Definition csharp_files : World := [("/app/App.csproj", "<Project/>")].

Definition python_files : World :=
  [("/app/requirements.txt", "aws-cdk-lib"); ("/app/cdk.json", "python3 app.py")].

Definition compiled_files : World :=
  [("/app/package.json", "{}"); ("/app/tsconfig.json", "{}");
   ("/app/cdk.json", "node bin/app.js")].

Definition two_templates : World :=
  [("/app/cdk.out/Net.template.json", "{}"); ("/app/cdk.out/Web.template.json", "{}");
   ("/app/cdk.out/manifest.json", "{}")].

Definition app : Synthesizer := {| projectPath := "/app"; outputDir := "/app/cdk.out" |}.

Definition app_instance : CDK nat :=
  {| cdk_projectPath := "/app"; cdk_synthesizer := app; cdk_deployer := None |}.

End Local.

(** * Properties *)

(** ** Slices *)

Lemma elems_range_append {A B} (f : A -> B) (xs : list A) (acc : slice B) :
  elems (range_append f xs acc) = elems acc ++ map f xs.
Proof.
  unfold range_append.
  revert acc; induction xs as [|x xs IH]; intros acc; simpl.
  - now rewrite app_nil_r.
  - rewrite IH. unfold append; simpl. now rewrite <- app_assoc.
Qed.

Lemma range_append_nil_iff {A B} (f : A -> B) (xs : list A) :
  range_append f xs Nil = Nil <-> xs = [].
Proof.
  split.
  - destruct xs as [|x xs]; [reflexivity|].
    unfold range_append; simpl. intros H.
    assert (E : elems (range_append f xs (append Nil (f x))) = []).
    { unfold range_append. now rewrite H. }
    rewrite elems_range_append in E. simpl in E. discriminate.
  - intros ->. reflexivity.
Qed.

Lemma range_append_cons {A B} (f : A -> B) (x : A) (xs : list A) :
  range_append f (x :: xs) Nil = Slice (map f (x :: xs)).
Proof.
  assert (G : forall l acc, range_append f l (Slice acc) = Slice (acc ++ map f l)).
  { induction l as [|y l IH]; intros acc.
    - unfold range_append; simpl. now rewrite app_nil_r.
    - unfold range_append in *; simpl. unfold append; simpl.
      rewrite IH. now rewrite <- app_assoc. }
  unfold range_append; simpl. unfold append; simpl.
  apply (G xs [f x]).
Qed.

(** ** The status sets of the two [switch] statements *)

Lemma stack_succeeded_iff (status : string) :
  stack_succeeded status = true <->
  status = "CREATE_COMPLETE" \/ status = "UPDATE_COMPLETE".
Proof.
  unfold stack_succeeded. rewrite orb_true_iff, !String.eqb_eq. reflexivity.
Qed.

Lemma stack_failed_iff (status : string) :
  stack_failed status = true <->
  status = "CREATE_FAILED" \/ status = "ROLLBACK_COMPLETE" \/
  status = "ROLLBACK_FAILED" \/ status = "UPDATE_ROLLBACK_COMPLETE" \/
  status = "UPDATE_ROLLBACK_FAILED" \/ status = "DELETE_COMPLETE" \/
  status = "DELETE_FAILED".
Proof.
  unfold stack_failed. rewrite !orb_true_iff, !String.eqb_eq.
  unfold types.StackStatusCreateFailed, types.StackStatusRollbackComplete,
    types.StackStatusRollbackFailed, types.StackStatusUpdateRollbackComplete,
    types.StackStatusUpdateRollbackFailed, types.StackStatusDeleteComplete,
    types.StackStatusDeleteFailed.
  tauto.
Qed.


Lemma stack_succeeded_nonempty (status : string) :
  stack_succeeded status = true -> status <> "".
Proof. rewrite stack_succeeded_iff. intros [-> | ->]; discriminate. Qed.

Lemma stack_failed_nonempty (status : string) :
  stack_failed status = true -> status <> "".
Proof.
  rewrite stack_failed_iff.
  intros [-> | [-> | [-> | [-> | [-> | [-> | ->]]]]]]; discriminate.
Qed.

Lemma detection_complete_iff (status : string) :
  detection_complete status = true <-> status = "DETECTION_COMPLETE".
Proof. unfold detection_complete. apply String.eqb_eq. Qed.



(** ** The ticker and [select] *)

Lemma ticker_at_C (tk : Ticker) (t : Z) :
  C (ticker_at tk t) = C tk || (next_fire tk <=? t).
Proof.
  unfold ticker_at. destruct (next_fire tk <=? t); simpl.
  - now rewrite orb_true_r.
  - now rewrite orb_false_r.
Qed.

Lemma ticker_at_before (tk : Ticker) (t : Z) :
  t < next_fire tk -> ticker_at tk t = tk.
Proof.
  intros H. unfold ticker_at.
  destruct (Z.leb_spec (next_fire tk) t); [lia | reflexivity].
Qed.

Lemma ticker_at_fire (tk : Ticker) :
  ticker_at tk (next_fire tk) =
  {| C := true; next_fire := next_fire tk + period tk; period := period tk |}.
Proof.
  unfold ticker_at. rewrite Z.leb_refl, Z.sub_diag.
  f_equal. change (0 / period tk) with 0. lia.
Qed.

Section Properties.

Variable Remote : Type.
Variable env : Env Remote.

Lemma In_ready (c : Case) (tk : Ticker) (timeout t : Z) :
  In c (ready env tk timeout t) <->
  match c with
  | CtxDone => ctx_fired env t = true
  | TimeoutFired => timeout <= t
  | Tick => C tk = true
  end.
Proof.
  unfold ready.
  destruct (ctx_fired env t), (Z.leb_spec timeout t), (C tk), c; simpl;
    intuition (try discriminate; try lia).
Qed.

Lemma ready_nil (tk : Ticker) (timeout t : Z) :
  ready env tk timeout t = [] ->
  ctx_fired env t = false /\ t < timeout /\ C tk = false.
Proof.
  unfold ready.
  destruct (ctx_fired env t), (Z.leb_spec timeout t), (C tk); simpl;
    intros E; try discriminate; repeat split; auto.
Qed.

Lemma ready_nonempty (c : Case) (tk : Ticker) (timeout t : Z) :
  In c (ready env tk timeout t) -> ready env tk timeout t <> [].
Proof. intros H E. rewrite E in H. destruct H. Qed.

Lemma ctx_fired_true (t : Z) :
  ctx_fired env t = true <-> exists c k, ctx_done env = Some (c, k) /\ c <= t.
Proof.
  unfold ctx_fired. destruct (ctx_done env) as [[c k]|].
  - rewrite Z.leb_le. split.
    + intros H. exists c, k. auto.
    + intros (c' & k' & E & H). inversion E; subst. exact H.
  - split; [discriminate | intros (c & k & E & _); discriminate].
Qed.

Lemma ctx_fired_false (t : Z) :
  ctx_fired env t = false <-> forall c k, ctx_done env = Some (c, k) -> t < c.
Proof.
  unfold ctx_fired. destruct (ctx_done env) as [[c k]|].
  - rewrite Z.leb_gt. split.
    + intros H c' k' E. inversion E; subst. exact H.
    + intros H. apply (H c k eq_refl).
  - split; [intros _ c k E; discriminate | reflexivity].
Qed.

(** A blocked [select] wakes up strictly later, at an instant where one of
    its sources has fired. *)
Lemma wake_time_later (tk : Ticker) (timeout t : Z) :
  ctx_fired env t = false -> t < timeout -> t < next_fire tk ->
  t < wake_time env tk timeout.
Proof.
  intros Hc Ht Hn. unfold wake_time.
  rewrite ctx_fired_false in Hc.
  destruct (ctx_done env) as [[c k]|]; [specialize (Hc c k eq_refl)|]; lia.
Qed.

Lemma wake_time_ready (tk : Ticker) (timeout : Z) :
  ready env (ticker_at tk (wake_time env tk timeout)) timeout (wake_time env tk timeout) <> [].
Proof.
  set (w := wake_time env tk timeout).
  assert (H : ctx_fired env w = true \/ timeout <= w \/ next_fire tk <= w).
  { unfold w, wake_time, ctx_fired.
    destruct (ctx_done env) as [[c k]|].
    - rewrite Z.leb_le. lia.
    - lia. }
  destruct H as [H | [H | H]].
  - apply (ready_nonempty CtxDone). now apply In_ready.
  - apply (ready_nonempty TimeoutFired). now apply In_ready.
  - apply (ready_nonempty Tick). apply In_ready.
    rewrite ticker_at_C. apply orb_true_iff. right. now apply Z.leb_le.
Qed.

Lemma select_spec (tk : Ticker) (timeout : Z) (s : St Remote) :
  exists c tk' t,
    select env tk timeout s = Ret (c, tk') (selected s c t) /\
    now s <= t /\
    In c (ready env (ticker_at (ticker_at tk (now s)) t) timeout t) /\
    tk' = match c with
          | Tick => receive (ticker_at (ticker_at tk (now s)) t)
          | _ => ticker_at (ticker_at tk (now s)) t
          end.
Proof.
  unfold select.
  set (tk0 := ticker_at tk (now s)).
  set (t := match ready env tk0 timeout (now s) with
            | [] => wake_time env tk0 timeout
            | _ => now s
            end).
  set (tk1 := ticker_at tk0 t).
  set (rs := ready env tk1 timeout t).
  assert (Hne : rs <> [] /\ now s <= t).
  { unfold rs, tk1, t.
    destruct (ready env tk0 timeout (now s)) as [|c0 l] eqn:E.
    - split; [apply wake_time_ready|].
      apply ready_nil in E. destruct E as (Hc & Ht & HC).
      apply Z.lt_le_incl, wake_time_later; auto.
      unfold tk0 in HC. rewrite ticker_at_C in HC.
      apply orb_false_iff in HC. destruct HC as [_ HC].
      apply Z.leb_gt in HC.
      unfold tk0. rewrite ticker_at_before; lia.
    - split; [|lia].
      assert (Hin : In c0 (ready env tk0 timeout (now s))) by (rewrite E; now left).
      apply In_ready in Hin.
      destruct c0.
      + apply (ready_nonempty CtxDone). now apply In_ready.
      + apply (ready_nonempty TimeoutFired). now apply In_ready.
      + apply (ready_nonempty Tick). apply In_ready.
        rewrite ticker_at_C, Hin. reflexivity. }
  destruct Hne as [Hne Ht].
  exists (nth (fastrand env (selects s) mod List.length rs)%nat rs TimeoutFired).
  eexists. exists t.
  split; [reflexivity|]. split; [exact Ht|]. split; [|reflexivity].
  apply nth_In. apply Nat.mod_upper_bound.
  intros E. apply Hne. apply length_zero_iff_nil. exact E.
Qed.

(** What taking a case tells about the instant it is taken at. *)
Lemma select_case (tk : Ticker) (timeout : Z) (s : St Remote) (c : Case) (tk' : Ticker)
  (s' : St Remote) :
  select env tk timeout s = Ret (c, tk') s' ->
  s' = selected s c (now s') /\
  now s <= now s' /\
  match c with
  | CtxDone => exists t0 k, ctx_done env = Some (t0, k) /\ t0 <= now s'
  | TimeoutFired => timeout <= now s'
  | Tick => C tk = true \/ next_fire tk <= now s'
  end.
Proof.
  intros H.
  destruct (select_spec tk timeout s) as (c0 & tk0 & t & E & Ht & Hin & _).
  rewrite E in H. inversion H; subst. simpl.
  split; [reflexivity|]. split; [exact Ht|].
  apply In_ready in Hin. destruct c.
  - now apply ctx_fired_true.
  - exact Hin.
  - rewrite !ticker_at_C in Hin.
    apply orb_true_iff in Hin. destruct Hin as [Hin | Hin].
    + apply orb_true_iff in Hin. destruct Hin as [Hin | Hin]; [now left|].
      apply Z.leb_le in Hin. right. lia.
    + apply Z.leb_le in Hin. right.
      unfold ticker_at in Hin at 1.
      destruct (Z.leb_spec (next_fire tk) (now s)); simpl in Hin; lia.
Qed.

(** ** Requests *)

Lemma call_spec {A} (c : Call) (f : Z -> Remote -> reply Remote A) (s : St Remote) :
  call c f s =
  Ret (snd (fst (f (now s) (remote s))))
      (called s c (fst (fst (f (now s) (remote s)))) (snd (f (now s) (remote s)))).
Proof.
  unfold call, called. destruct (f (now s) (remote s)) as [[l r] rem]. reflexivity.
Qed.

Lemma getStackStatus_spec (stackName : string) (s : St Remote) :
  exists q latency remote',
    getStackStatus env stackName s =
    Ret q (called s (CallDescribeStacks stackName) latency remote').
Proof.
  unfold getStackStatus, bind. rewrite call_spec.
  destruct (snd (fst (DescribeStacks (cfnClient env) stackName (now s) (remote s))))
    as [output | e]; [destruct (cloudformation.Stacks output)|];
    do 3 eexists; reflexivity.
Qed.

Lemma stack_poll_queries (stackName : string) :
  queries (CallDescribeStacks stackName) (stack_poll env stackName).
Proof.
  intros s. unfold stack_poll, bind.
  destruct (getStackStatus_spec stackName s) as ([st e] & l & r & E). rewrite E; simpl.
  destruct e; [|destruct (stack_succeeded st); [|destruct (stack_failed st)]];
    do 3 eexists; reflexivity.
Qed.

Lemma drift_poll_queries (driftDetectionId : string) :
  queries (CallDescribeStackDriftDetectionStatus driftDetectionId)
          (drift_poll env driftDetectionId).
Proof.
  intros s. unfold drift_poll, bind. rewrite call_spec.
  destruct (snd (fst (DescribeStackDriftDetectionStatus (cfnClient env) driftDetectionId
                        (now s) (remote s)))) as [output | e]; simpl.
  - destruct (detection_complete _); [|destruct (detection_failed _)];
      do 3 eexists; reflexivity.
  - do 3 eexists; reflexivity.
Qed.

(** ** The wait loops are instances of [poll_loop] *)

Lemma waitForStack_loop_poll_loop (fuel : nat) (stackName : string) (tk : Ticker)
  (timeout : Z) (s : St Remote) :
  waitForStack_loop env fuel stackName tk timeout s =
  poll_loop env (Errorf ("timeout waiting for stack " ^^ stackName))
            (stack_poll env stackName) fuel tk timeout s.
Proof.
  revert tk s. induction fuel as [|fuel IH]; intros tk s; [reflexivity|].
  simpl. unfold bind at 1 3.
  destruct (select env tk timeout s) as [[c tk'] s1 | s1 | s1]; simpl; auto.
  destruct c; auto.
  unfold stack_poll, bind.
  destruct (getStackStatus env stackName s1) as [[st e] s2 | s2 | s2]; simpl; auto.
  destruct e; simpl; auto.
  destruct (stack_succeeded st); auto.
  destruct (stack_failed st); auto.
Qed.

Lemma waitForDriftDetection_loop_poll_loop (fuel : nat) (driftDetectionId : string)
  (tk : Ticker) (timeout : Z) (s : St Remote) :
  waitForDriftDetection_loop env fuel driftDetectionId tk timeout s =
  poll_loop env (Errorf "timeout waiting for drift detection")
            (drift_poll env driftDetectionId) fuel tk timeout s.
Proof.
  revert tk s. induction fuel as [|fuel IH]; intros tk s; [reflexivity|].
  simpl. unfold bind at 1 3.
  destruct (select env tk timeout s) as [[c tk'] s1 | s1 | s1]; simpl; auto.
  destruct c; auto.
  unfold drift_poll, bind. rewrite call_spec.
  destruct (snd (fst (DescribeStackDriftDetectionStatus (cfnClient env) driftDetectionId
                        (now s1) (remote s1)))) as [output | e]; simpl; auto.
  destruct (detection_complete _); auto.
  destruct (detection_failed _); auto.
Qed.

(** ** An invariant rule for [poll_loop] *)

Section Rule.

Variable timeout_err : error.
Variable poll : M Remote (option (string * option error)).
Variable timeout : Z.
Variable Inv : Ticker -> St Remote -> Prop.
Variable Post : string * option error -> St Remote -> Prop.

Hypothesis step :
  forall tk s c tk' s1,
    Inv tk s -> select env tk timeout s = Ret (c, tk') s1 ->
    match c with
    | CtxDone => Post ("", ctx_Err env) s1
    | TimeoutFired => Post ("", Some timeout_err) s1
    | Tick => forall v s2, poll s1 = Ret v s2 ->
                           match v with
                           | Some r => Post r s2
                           | None => Inv tk' s2
                           end
    end.

Lemma poll_loop_rule (fuel : nat) (tk : Ticker) (s : St Remote)
  (r : string * option error) (s' : St Remote) :
  Inv tk s ->
  poll_loop env timeout_err poll fuel tk timeout s = Ret r s' ->
  Post r s'.
Proof.
  revert tk s. induction fuel as [|fuel IH]; intros tk s HI H; [discriminate|].
  simpl in H. unfold bind in H at 1.
  destruct (select env tk timeout s) as [[c tk'] s1 | s1 | s1] eqn:E; try discriminate.
  pose proof (step tk s c tk' s1 HI E) as St. simpl in H.
  destruct c.
  - inversion H; subst. exact St.
  - inversion H; subst. exact St.
  - unfold bind in H.
    destruct (poll s1) as [v s2 | s2 | s2] eqn:E2; try discriminate.
    specialize (St v s2 eq_refl).
    destruct v as [r0|].
    + inversion H; subst. exact St.
    + eapply IH; eauto.
Qed.

End Rule.

(** ** What a run of [poll_loop] looks like *)

Lemma polled_app (c : Call) (ts ts' : list Z) :
  polled c (ts ++ ts') = polled c ts ++ polled c ts'.
Proof. unfold polled. apply flat_map_app. Qed.

Section Run.

Variable timeout_err : error.
Variable poll : M Remote (option (string * option error)).
Variable c : Call.
Variable Q : string * option error -> Prop.
Variable timeout : Z.

Hypothesis poll_queries : queries c poll.
Hypothesis poll_returns : forall s r s', poll s = Ret (Some r) s' -> Q r.

(** A run that returns took ticks at instants [ts], none before the ticker
    first fired, queried once at each, and ended either on the answer to the
    last query, or on the context, or on the timeout. *)
Lemma poll_loop_run (fuel : nat) (tk : Ticker) (s : St Remote)
  (r : string * option error) (s' : St Remote) :
  poll_loop env timeout_err poll fuel tk timeout s = Ret r s' ->
  exists ts fin,
    trace s' = trace s ++ polled c ts ++ fin /\
    now s <= now s' /\
    Forall (fun t => now s <= t /\ t <= now s' /\ (C tk = true \/ next_fire tk <= t)) ts /\
    ((fin = [] /\ ts <> [] /\ Q r) \/
     (fin = [EvSelect CtxDone (now s')] /\ r = ("", ctx_Err env) /\
      exists t0 k, ctx_done env = Some (t0, k) /\ t0 <= now s') \/
     (fin = [EvSelect TimeoutFired (now s')] /\ r = ("", Some timeout_err) /\
      timeout <= now s')).
Proof.
  set (P := fun t => C tk = true \/ next_fire tk <= t).
  assert (Pmono : forall t t', P t -> t <= t' -> P t').
  { unfold P. intros t t' [Hb | Hn] Hle; [now left | right; lia]. }
  set (Inv := fun (tk1 : Ticker) (s1 : St Remote) =>
                now s <= now s1 /\ (tk1 = tk \/ P (now s1)) /\
                exists ts, trace s1 = trace s ++ polled c ts /\
                           Forall (fun t => now s <= t /\ t <= now s1 /\ P t) ts).
  intros H.
  refine (poll_loop_rule timeout_err poll timeout Inv
            (fun r s' => exists ts fin, _ /\ _ /\ Forall _ ts /\ _) _ fuel tk s r s' _ H).
  - clear fuel r s' H.
    intros tk1 s1 c0 tk' s2 (Hnow & Htk & ts & Htr & Hts) E.
    apply select_case in E. destruct E as (Es2 & Ht & Hc).
    assert (Htr2 : trace s2 = trace s ++ polled c ts ++ [EvSelect c0 (now s2)]).
    { rewrite Es2 at 1. simpl. rewrite Htr. now rewrite <- app_assoc. }
    assert (Hts2 : Forall (fun t => now s <= t /\ t <= now s2 /\ P t) ts).
    { eapply Forall_impl; [|exact Hts]. simpl. intros t (? & ? & ?). repeat split; auto; lia. }
    destruct c0.
    + exists ts, [EvSelect CtxDone (now s2)].
      split; [exact Htr2|]. split; [lia|]. split; [exact Hts2|]. right; left. auto.
    + exists ts, [EvSelect TimeoutFired (now s2)].
      split; [exact Htr2|]. split; [lia|]. split; [exact Hts2|]. right; right. auto.
    + assert (HP : P (now s2)).
      { destruct Htk as [-> | HP]; [exact Hc | eapply Pmono; eauto]. }
      intros v s3 E3.
      destruct (poll_queries s2) as (v' & lat & rem & Eq).
      rewrite Eq in E3. inversion E3; subst v' s3. clear E3.
      assert (Htr3 : trace (called s2 c lat rem) = trace s ++ polled c (ts ++ [now s2])).
      { simpl. rewrite Htr2, polled_app. simpl. now rewrite <- !app_assoc. }
      assert (Hnow3 : now s2 <= now (called s2 c lat rem)) by (simpl; lia).
      assert (Hts3 : Forall (fun t => now s <= t /\ t <= now (called s2 c lat rem) /\ P t)
                            (ts ++ [now s2])).
      { apply Forall_app. split.
        - eapply Forall_impl; [|exact Hts2]. simpl. intros t (? & ? & ?).
          repeat split; auto; lia.
        - constructor; [|constructor]. repeat split; auto; lia. }
      destruct v as [r0|].
      * exists (ts ++ [now s2]), [].
        rewrite app_nil_r. split; [exact Htr3|]. split; [lia|]. split; [exact Hts3|].
        left. split; [reflexivity|]. split; [|eapply poll_returns; exact Eq].
        intros Hnil. apply app_eq_nil in Hnil. destruct Hnil; discriminate.
      * split; [lia|]. split; [right; eapply Pmono; eauto|].
        exists (ts ++ [now s2]). split; [exact Htr3 | exact Hts3].
  - split; [lia|]. split; [now left|].
    exists []. split; [simpl; now rewrite app_nil_r | constructor].
Qed.

End Run.

(** ** What the status queries answer *)

Lemma stack_poll_returns (stackName : string) (s : St Remote)
  (r : string * option error) (s' : St Remote) :
  stack_poll env stackName s = Ret (Some r) s' -> stack_verdict stackName r.
Proof.
  unfold stack_poll, getStackStatus, bind. rewrite call_spec.
  destruct (snd (fst (DescribeStacks (cfnClient env) stackName (now s) (remote s))))
    as [output | e]; simpl.
  - destruct (cloudformation.Stacks output) as [|stack0 rest]; simpl.
    + intros H. inversion H; subst. right; right; right. auto.
    + destruct (stack_succeeded (types.StackStatus stack0)) eqn:Es.
      * intros H. inversion H; subst. left. auto.
      * destruct (stack_failed (types.StackStatus stack0)) eqn:Ef; [|discriminate].
        intros H. inversion H; subst. right; left. auto.
  - intros H. inversion H; subst. right; right; left. split; [reflexivity | eexists; reflexivity].
Qed.

Lemma drift_poll_returns (driftDetectionId : string) (s : St Remote)
  (r : string * option error) (s' : St Remote) :
  drift_poll env driftDetectionId s = Ret (Some r) s' -> drift_verdict r.
Proof.
  unfold drift_poll, bind. rewrite call_spec.
  destruct (snd (fst (DescribeStackDriftDetectionStatus (cfnClient env) driftDetectionId
                        (now s) (remote s)))) as [output | e]; simpl.
  - destruct (detection_complete (cloudformation.DetectionStatus output)) eqn:Ec.
    + intros H. inversion H; subst. left. auto.
    + destruct (detection_failed (cloudformation.DetectionStatus output)) eqn:Ef;
        [|discriminate].
      intros H. inversion H; subst. right; left. split; [exact Ef | eexists; reflexivity].
  - intros H. inversion H; subst. right; right. split; [reflexivity | eexists; reflexivity].
Qed.


(** ** [select] on an armed ticker *)


Lemma select_armed_tick (tk : Ticker) (timeout : Z) (s : St Remote) (tk' : Ticker)
  (s1 : St Remote) :
  armed tk s ->
  select env tk timeout s = Ret (Tick, tk') s1 ->
  s1 = selected s Tick (next_fire tk) /\
  next_fire tk <= timeout /\
  tk' = {| C := false; next_fire := next_fire tk + period tk; period := period tk |}.
Proof.
  intros [HC Hn] E. unfold select in E.
  rewrite (ticker_at_before tk (now s) Hn) in E.
  set (t := match ready env tk timeout (now s) with
            | [] => wake_time env tk timeout
            | _ => now s
            end) in E.
  set (rs := ready env (ticker_at tk t) timeout t) in E.
  assert (Ec : nth (fastrand env (selects s) mod List.length rs)%nat rs TimeoutFired = Tick)
    by (inversion E; reflexivity).
  assert (Hin : rs <> [] -> In Tick rs).
  { intros Hne. rewrite <- Ec. apply nth_In. apply Nat.mod_upper_bound.
    intros E0. apply Hne. now apply length_zero_iff_nil. }
  assert (Ht : t = next_fire tk /\ next_fire tk <= timeout).
  { unfold t in *. clear t.
    destruct (ready env tk timeout (now s)) as [|c0 l] eqn:Er.
    - assert (Hne : rs <> []) by apply wake_time_ready.
      specialize (Hin Hne). apply In_ready in Hin.
      rewrite ticker_at_C, HC in Hin. simpl in Hin. apply Z.leb_le in Hin.
      unfold wake_time in *. destruct (ctx_done env) as [[c k]|]; lia.
    - exfalso.
      assert (Hne : rs <> []).
      { unfold rs. rewrite (ticker_at_before tk (now s) Hn). rewrite Er. discriminate. }
      specialize (Hin Hne). apply In_ready in Hin.
      rewrite (ticker_at_before tk (now s) Hn) in Hin. congruence. }
  destruct Ht as [Ht Hle].
  rewrite Ec in E. inversion E as [[Etk Es]]. clear E.
  rewrite Ht. rewrite ticker_at_fire. repeat split; auto.
Qed.



(** ** Waits whose queries are answered within one interval *)

Lemma ticks_from_S (t1 d : Z) (n : nat) :
  ticks_from t1 d (S n) = ticks_from t1 d n ++ [t1 + Z.of_nat n * d].
Proof. unfold ticks_from. rewrite seq_S, map_app. reflexivity. Qed.

Section Prompt.

Variable timeout_err : error.
Variable poll : M Remote (option (string * option error)).
Variable c : Call.
Variable timeout : Z.
Variable d : Z.

Hypothesis poll_queries : queries c poll.
Hypothesis poll_prompt : answers_within d poll.

(** Every tick is then taken the instant the ticker fires, one interval
    after the one before, and none after the timeout. *)
Lemma poll_loop_prompt (fuel : nat) (tk : Ticker) (s : St Remote)
  (r : string * option error) (s' : St Remote) :
  armed tk s -> period tk = d ->
  poll_loop env timeout_err poll fuel tk timeout s = Ret r s' ->
  exists n fin,
    trace s' = trace s ++ polled c (ticks_from (next_fire tk) d n) ++ fin /\
    Forall (fun t => t <= timeout) (ticks_from (next_fire tk) d n) /\
    (fin = [] \/ fin = [EvSelect CtxDone (now s')] \/ fin = [EvSelect TimeoutFired (now s')]).
Proof.
  intros Harmed Hperiod H.
  set (Inv := fun (tk1 : Ticker) (s1 : St Remote) =>
                armed tk1 s1 /\ period tk1 = d /\
                exists n, next_fire tk1 = next_fire tk + Z.of_nat n * d /\
                          trace s1 = trace s ++ polled c (ticks_from (next_fire tk) d n) /\
                          Forall (fun t => t <= timeout) (ticks_from (next_fire tk) d n)).
  refine (poll_loop_rule timeout_err poll timeout Inv
            (fun r s' => exists n fin, _ /\ Forall _ _ /\ _) _ fuel tk s r s' _ H).
  - clear fuel r s' H.
    intros tk1 s1 c0 tk' s2 (Ha & Hp & n & Hnf & Htr & Hts) E.
    destruct c0.
    + apply select_case in E. destruct E as (Es2 & _ & _).
      exists n, [EvSelect CtxDone (now s2)].
      split; [|split; [exact Hts | auto]].
      rewrite Es2 at 1. simpl. rewrite Htr. now rewrite <- app_assoc.
    + apply select_case in E. destruct E as (Es2 & _ & _).
      exists n, [EvSelect TimeoutFired (now s2)].
      split; [|split; [exact Hts | auto]].
      rewrite Es2 at 1. simpl. rewrite Htr. now rewrite <- app_assoc.
    + apply (select_armed_tick tk1 timeout s1 tk' s2 Ha) in E.
      destruct E as (Es2 & Hle & Etk). subst s2 tk'.
      set (s2 := selected s1 Tick (next_fire tk1)).
      intros v s3 E3.
      pose proof (poll_prompt s2 v s3 E3) as Hlat.
      destruct (poll_queries s2) as (v' & lat & rem & Eq).
      rewrite Eq in E3. inversion E3; subst v' s3. clear E3.
      assert (Htr3 : trace (called s2 c lat rem) =
                     trace s ++ polled c (ticks_from (next_fire tk) d (S n))).
      { rewrite ticks_from_S, polled_app, <- Hnf.
        change (trace (called s2 c lat rem))
          with ((trace s1 ++ [EvSelect Tick (next_fire tk1)]) ++ [EvCall c (next_fire tk1)]).
        rewrite Htr.
        unfold polled at 3. cbn [flat_map app]. now rewrite <- !app_assoc. }
      assert (Hts3 : Forall (fun t => t <= timeout) (ticks_from (next_fire tk) d (S n))).
      { rewrite ticks_from_S. apply Forall_app. split; [exact Hts|].
        constructor; [lia | constructor]. }
      destruct v as [r0|].
      * exists (S n), []. rewrite app_nil_r. auto.
      * split; [|split].
        -- split; [reflexivity|].
           change (now s2) with (next_fire tk1) in Hlat.
           cbn [next_fire]. lia.
        -- exact Hp.
        -- exists (S n). split; [|split; [exact Htr3 | exact Hts3]].
           cbn [next_fire]. rewrite Hnf, Hp. lia.
  - split; [exact Harmed|]. split; [exact Hperiod|].
    exists 0%nat. split; [simpl; lia|]. split; [|constructor].
    simpl. now rewrite app_nil_r.
Qed.

(** Such a wait returns, given fuel for the ticks that fit before the
    timeout and one more iteration. *)
Lemma poll_loop_prompt_returns (fuel : nat) (tk : Ticker) (s : St Remote) :
  armed tk s -> period tk = d ->
  (1 <= fuel)%nat ->
  timeout < next_fire tk + Z.of_nat fuel * d - d ->
  exists r s', poll_loop env timeout_err poll fuel tk timeout s = Ret r s'.
Proof.
  revert tk s. induction fuel as [|fuel IH]; intros tk s Ha Hp Hf Ht; [lia|].
  simpl. unfold bind at 1.
  destruct (select_spec tk timeout s) as (c0 & tk' & t & E & _).
  rewrite E. simpl.
  destruct c0; [do 2 eexists; reflexivity | do 2 eexists; reflexivity |].
  apply (select_armed_tick tk timeout s tk' _ Ha) in E.
  destruct E as (Es2 & Hle & Etk).
  unfold bind.
  destruct (poll_queries (selected s Tick t)) as (v & lat & rem & Eq).
  pose proof (poll_prompt _ _ _ Eq) as Hlat.
  rewrite Eq.
  destruct v as [r0|]; [do 2 eexists; reflexivity|].
  assert (Et : t = next_fire tk).
  { apply (f_equal (@now Remote)) in Es2. exact Es2. }
  apply IH.
  - split; [rewrite Etk; reflexivity|].
    rewrite Etk. simpl in *. lia.
  - rewrite Etk. exact Hp.
  - destruct fuel; [lia | lia].
  - rewrite Etk. simpl. lia.
Qed.

End Prompt.

(** ** The two waits *)

Lemma Second_pos : 0 < Second.
Proof. reflexivity. Qed.

Lemma Minute_Second : Minute = 60 * Second.
Proof. reflexivity. Qed.

Lemma waitForStack_armed (s : St Remote) : armed (waitForStack_ticker (now s)) s.
Proof.
  pose proof Second_pos.
  split; [reflexivity|]. unfold waitForStack_ticker, NewTicker; simpl. lia.
Qed.

Lemma waitForDriftDetection_armed (s : St Remote) :
  armed (waitForDriftDetection_ticker (now s)) s.
Proof.
  pose proof Second_pos.
  split; [reflexivity|]. unfold waitForDriftDetection_ticker, NewTicker; simpl. lia.
Qed.

Lemma stack_poll_state (stackName : string) (s : St Remote)
  (v : option (string * option error)) (s' : St Remote) :
  stack_poll env stackName s = Ret v s' ->
  s' = called s (CallDescribeStacks stackName)
         (fst (fst (DescribeStacks (cfnClient env) stackName (now s) (remote s))))
         (snd (DescribeStacks (cfnClient env) stackName (now s) (remote s))).
Proof.
  unfold stack_poll, getStackStatus, bind. rewrite call_spec.
  destruct (snd (fst (DescribeStacks (cfnClient env) stackName (now s) (remote s))))
    as [output | e]; simpl.
  - destruct (cloudformation.Stacks output) as [|stack0 rest]; simpl.
    + intros H. now inversion H.
    + destruct (stack_succeeded _); [|destruct (stack_failed _)];
        intros H; now inversion H.
  - intros H. now inversion H.
Qed.

Lemma stack_poll_answers_within (stackName : string) (d : Z) :
  (forall t rem, Z.of_N (fst (fst (DescribeStacks (cfnClient env) stackName t rem))) < d) ->
  answers_within d (stack_poll env stackName).
Proof.
  intros Hd s v s' E. apply stack_poll_state in E. subst s'. simpl.
  specialize (Hd (now s) (remote s)). lia.
Qed.

Lemma drift_poll_state (driftDetectionId : string) (s : St Remote)
  (v : option (string * option error)) (s' : St Remote) :
  drift_poll env driftDetectionId s = Ret v s' ->
  s' = called s (CallDescribeStackDriftDetectionStatus driftDetectionId)
         (fst (fst (DescribeStackDriftDetectionStatus (cfnClient env) driftDetectionId
                      (now s) (remote s))))
         (snd (DescribeStackDriftDetectionStatus (cfnClient env) driftDetectionId
                 (now s) (remote s))).
Proof.
  unfold drift_poll, bind. rewrite call_spec.
  destruct (snd (fst (DescribeStackDriftDetectionStatus (cfnClient env) driftDetectionId
                        (now s) (remote s)))) as [output | e]; simpl.
  - destruct (detection_complete _); [|destruct (detection_failed _)];
      intros H; now inversion H.
  - intros H. now inversion H.
Qed.

Lemma drift_poll_answers_within (driftDetectionId : string) (d : Z) :
  (forall t rem,
      Z.of_N (fst (fst (DescribeStackDriftDetectionStatus (cfnClient env) driftDetectionId
                          t rem))) < d) ->
  answers_within d (drift_poll env driftDetectionId).
Proof.
  intros Hd s v s' E. apply drift_poll_state in E. subst s'. simpl.
  specialize (Hd (now s) (remote s)). lia.
Qed.







(** ** Whole runs of the two waits *)

Lemma waitForStack_run (fuel : nat) (stackName : string) (s : St Remote)
  (r : string * option error) (s' : St Remote) :
  waitForStack env fuel stackName s = Ret r s' ->
  exists ts fin,
    trace s' = trace s ++ polled (CallDescribeStacks stackName) ts ++ fin /\
    now s <= now s' /\
    Forall (fun t => now s + 10 * Second <= t /\ t <= now s') ts /\
    ((fin = [] /\ ts <> [] /\ stack_verdict stackName r) \/
     (fin = [EvSelect CtxDone (now s')] /\ r = ("", ctx_Err env) /\
      exists t0 k, ctx_done env = Some (t0, k) /\ t0 <= now s') \/
     (fin = [EvSelect TimeoutFired (now s')] /\
      r = ("", Some (Errorf ("timeout waiting for stack " ^^ stackName))) /\
      waitForStack_timeout (now s) <= now s')).
Proof.
  intros H. unfold waitForStack in H. rewrite waitForStack_loop_poll_loop in H.
  apply (poll_loop_run _ _ (CallDescribeStacks stackName) (stack_verdict stackName) _
           (stack_poll_queries stackName) (stack_poll_returns stackName)) in H.
  destruct H as (ts & fin & Htr & Hnow & Hts & Hfin).
  exists ts, fin. split; [exact Htr|]. split; [exact Hnow|]. split; [|exact Hfin].
  eapply Forall_impl; [|exact Hts]. simpl.
  intros t (_ & Hle & [Hc | Hn]); [discriminate | split; assumption].
Qed.

Lemma waitForDriftDetection_run (fuel : nat) (driftDetectionId : string) (s : St Remote)
  (r : string * option error) (s' : St Remote) :
  waitForDriftDetection env fuel driftDetectionId s = Ret r s' ->
  exists ts fin,
    trace s' = trace s ++
               polled (CallDescribeStackDriftDetectionStatus driftDetectionId) ts ++ fin /\
    now s <= now s' /\
    Forall (fun t => now s + 5 * Second <= t /\ t <= now s') ts /\
    ((fin = [] /\ ts <> [] /\ drift_verdict r) \/
     (fin = [EvSelect CtxDone (now s')] /\ r = ("", ctx_Err env) /\
      exists t0 k, ctx_done env = Some (t0, k) /\ t0 <= now s') \/
     (fin = [EvSelect TimeoutFired (now s')] /\
      r = ("", Some (Errorf "timeout waiting for drift detection")) /\
      waitForDriftDetection_timeout (now s) <= now s')).
Proof.
  intros H. unfold waitForDriftDetection in H.
  rewrite waitForDriftDetection_loop_poll_loop in H.
  apply (poll_loop_run _ _ (CallDescribeStackDriftDetectionStatus driftDetectionId)
           drift_verdict _ (drift_poll_queries driftDetectionId)
           (drift_poll_returns driftDetectionId)) in H.
  destruct H as (ts & fin & Htr & Hnow & Hts & Hfin).
  exists ts, fin. split; [exact Htr|]. split; [exact Hnow|]. split; [|exact Hfin].
  eapply Forall_impl; [|exact Hts]. simpl.
  intros t (_ & Hle & [Hc | Hn]); [discriminate | split; assumption].
Qed.





Lemma drift_verdict_not_ctx (r : string) (k : ctxError) :
  ~ drift_verdict (r, Some (CtxErr k)).
Proof.
  unfold drift_verdict; simpl.
  intros [(_ & H) | [(_ & reason & H) | (_ & e & H)]]; discriminate.
Qed.





Lemma waitForDriftDetection_cancelled (fuel : nat) (driftDetectionId : string)
  (s : St Remote) (r : string) (k : ctxError) (s' : St Remote) :
  waitForDriftDetection env fuel driftDetectionId s = Ret (r, Some (CtxErr k)) s' ->
  r = "" /\
  (exists c, ctx_done env = Some (c, k) /\ c <= now s') /\
  exists ts, trace s' = trace s ++
                        polled (CallDescribeStackDriftDetectionStatus driftDetectionId) ts ++
                        [EvSelect CtxDone (now s')].
Proof.
  intros H. apply waitForDriftDetection_run in H.
  destruct H as (ts & fin & Htr & _ & _ & [(_ & _ & Hv) | [(-> & Hr & t0 & k0 & Hc & Hle) | (_ & Hr & _)]]).
  - exfalso. exact (drift_verdict_not_ctx _ _ Hv).
  - unfold ctx_Err in Hr. rewrite Hc in Hr. inversion Hr; subst.
    split; [reflexivity|]. split; [exists t0; auto|]. exists ts. exact Htr.
  - discriminate.
Qed.





(** ** [Deploy], step by step *)

Lemma stackExists_spec (stackName : string) (s : St Remote) :
  stackExists env stackName s =
  Ret (match snd (fst (DescribeStacks (cfnClient env) stackName (now s) (remote s))) with
       | Ok _ => true
       | Err _ => false
       end, None)
      (called s (CallDescribeStacks stackName)
         (fst (fst (DescribeStacks (cfnClient env) stackName (now s) (remote s))))
         (snd (DescribeStacks (cfnClient env) stackName (now s) (remote s)))).
Proof.
  unfold stackExists, bind. rewrite call_spec.
  destruct (snd (fst (DescribeStacks (cfnClient env) stackName (now s) (remote s))));
    reflexivity.
Qed.

Lemma getStackOutputs_spec (stackName : string) (s : St Remote) :
  getStackOutputs env stackName s =
  Ret (match snd (fst (DescribeStacks (cfnClient env) stackName (now s) (remote s))) with
       | Err e => (Nil, Some (ErrorfW "failed to describe stack: " e))
       | Ok output =>
           match cloudformation.Stacks output with
           | [] => (Nil, None)
           | stack0 :: _ => (range_append toStackOutput (types.Outputs stack0) Nil, None)
           end
       end)
      (called s (CallDescribeStacks stackName)
         (fst (fst (DescribeStacks (cfnClient env) stackName (now s) (remote s))))
         (snd (DescribeStacks (cfnClient env) stackName (now s) (remote s)))).
Proof.
  unfold getStackOutputs, bind. rewrite call_spec.
  destruct (snd (fst (DescribeStacks (cfnClient env) stackName (now s) (remote s))))
    as [output | e]; [|reflexivity].
  destruct (cloudformation.Stacks output); reflexivity.
Qed.

(** A [Deploy] that succeeds went through every step without an error, and
    its result is made of what the steps returned. *)
Lemma Deploy_succeeded (fuel : nat) (stackName : string) (s : St Remote)
  (result : DeployResult.t) (s' : St Remote) :
  Deploy env fuel stackName s = Ret (Some result, None) s' ->
  exists templateBody ex s1 stackID s2 status s3 outputs,
    GetTemplateBody env stackName = (templateBody, None) /\
    stackExists env stackName s = Ret (ex, None) s1 /\
    (if ex then updateStack env stackName templateBody
     else createStack env stackName templateBody) s1 = Ret (stackID, None) s2 /\
    waitForStack env fuel stackName s2 = Ret (status, None) s3 /\
    getStackOutputs env stackName s3 = Ret (outputs, None) s' /\
    result = {| DeployResult.StackName := stackName;
                DeployResult.StackID := stackID;
                DeployResult.Status := status;
                DeployResult.Outputs := outputs |}.
Proof.
  unfold Deploy.
  destruct (GetTemplateBody env stackName) as [templateBody [e|]] eqn:Et; simpl;
    [discriminate|].
  unfold bind at 1.
  destruct (stackExists env stackName s) as [[ex [e|]] s1 | s1 | s1] eqn:Ee; simpl;
    try discriminate.
  unfold bind at 1.
  destruct ((if ex then updateStack env stackName templateBody
             else createStack env stackName templateBody) s1)
    as [[stackID [e|]] s2 | s2 | s2] eqn:Es; simpl; try discriminate.
  unfold bind at 1.
  destruct (waitForStack env fuel stackName s2) as [[status [e|]] s3 | s3 | s3] eqn:Ew;
    simpl; try discriminate.
  unfold bind at 1.
  destruct (getStackOutputs env stackName s3) as [[outputs [e|]] s4 | s4 | s4] eqn:Eo;
    simpl; try discriminate.
  intros H. inversion H; subst.
  exists templateBody, ex, s1, stackID, s2, status, s3, outputs. repeat split; auto.
Qed.

(** [Deploy] returns a result exactly when it returns no error. *)
Lemma Deploy_result_or_error (fuel : nat) (stackName : string) (s : St Remote)
  (x : option DeployResult.t) (s' : St Remote) :
  Deploy env fuel stackName s = Ret (x, None) s' -> exists result, x = Some result.
Proof.
  unfold Deploy.
  destruct (GetTemplateBody env stackName) as [templateBody [e|]]; simpl; [discriminate|].
  unfold bind at 1.
  destruct (stackExists env stackName s) as [[ex [e|]] s1 | s1 | s1]; simpl;
    try discriminate.
  unfold bind at 1.
  destruct ((if ex then updateStack env stackName templateBody
             else createStack env stackName templateBody) s1)
    as [[stackID [e|]] s2 | s2 | s2]; simpl; try discriminate.
  unfold bind at 1.
  destruct (waitForStack env fuel stackName s2) as [[status [e|]] s3 | s3 | s3];
    simpl; try discriminate.
  unfold bind at 1.
  destruct (getStackOutputs env stackName s3) as [[outputs [e|]] s4 | s4 | s4];
    simpl; try discriminate.
  intros H. inversion H; subst. eauto.
Qed.

(** ** Traces only grow *)

Lemma extends_refl (s : St Remote) : extends s s.
Proof. exists []. now rewrite app_nil_r. Qed.

Lemma extends_trans (s1 s2 s3 : St Remote) :
  extends s1 s2 -> extends s2 s3 -> extends s1 s3.
Proof.
  intros [l1 H1] [l2 H2]. exists (l1 ++ l2). rewrite H2, H1. now rewrite app_assoc.
Qed.

Lemma bind_extends {A B} (m : M Remote A) (k : A -> M Remote B) :
  (forall s, extends s (final (m s))) ->
  (forall a s, extends s (final (k a s))) ->
  forall s, extends s (final (bind m k s)).
Proof.
  intros Hm Hk s. unfold bind. specialize (Hm s).
  destruct (m s) as [a s' | s' | s']; simpl in *; auto.
  eapply extends_trans; [exact Hm | apply Hk].
Qed.

Lemma call_extends {A} (c : Call) (f : Z -> Remote -> reply Remote A) (s : St Remote) :
  extends s (final (call c f s)).
Proof. rewrite call_spec. simpl. eexists. reflexivity. Qed.

Lemma select_extends (tk : Ticker) (timeout : Z) (s : St Remote) :
  extends s (final (select env tk timeout s)).
Proof.
  destruct (select_spec tk timeout s) as (c & tk' & t & E & _).
  rewrite E. simpl. eexists. reflexivity.
Qed.

Lemma poll_loop_extends (timeout_err : error)
  (poll : M Remote (option (string * option error))) (timeout : Z) :
  (forall s, extends s (final (poll s))) ->
  forall fuel tk s, extends s (final (poll_loop env timeout_err poll fuel tk timeout s)).
Proof.
  intros Hp. induction fuel as [|fuel IH]; intros tk s; [apply extends_refl|].
  simpl. apply bind_extends; [apply select_extends|].
  intros [c tk'] s1. simpl. destruct c; try apply extends_refl.
  apply bind_extends; [exact Hp|].
  intros [r|] s2; [apply extends_refl | apply IH].
Qed.

Lemma queries_extends (c : Call) (poll : M Remote (option (string * option error))) :
  queries c poll -> forall s, extends s (final (poll s)).
Proof.
  intros Hq s. destruct (Hq s) as (v & lat & rem & E). rewrite E. simpl.
  eexists. reflexivity.
Qed.

Lemma waitForStack_extends (fuel : nat) (stackName : string) (s : St Remote) :
  extends s (final (waitForStack env fuel stackName s)).
Proof.
  unfold waitForStack. rewrite waitForStack_loop_poll_loop.
  apply poll_loop_extends. apply (queries_extends (CallDescribeStacks stackName)).
  apply stack_poll_queries.
Qed.

Lemma getStackOutputs_extends (stackName : string) (s : St Remote) :
  extends s (final (getStackOutputs env stackName s)).
Proof. rewrite getStackOutputs_spec. simpl. eexists. reflexivity. Qed.

(** C6.  When the describe request of the existence check fails, whatever the
    failure, [stackExists] answers [false] with no error, and [Deploy] goes on
    to a create request: the request that follows the failed one in the trace
    is [CreateStack] for the stack. *)
Theorem stackExists_failure_means_create (fuel : nat) (stackName : string)
  (s : St Remote) (e : error) (templateBody : string) :
  snd (fst (DescribeStacks (cfnClient env) stackName (now s) (remote s))) = Err e ->
  GetTemplateBody env stackName = (templateBody, None) ->
  let s1 := called s (CallDescribeStacks stackName)
              (fst (fst (DescribeStacks (cfnClient env) stackName (now s) (remote s))))
              (snd (DescribeStacks (cfnClient env) stackName (now s) (remote s))) in
  stackExists env stackName s = Ret (false, None) s1 /\
  exists rest,
    trace (final (Deploy env fuel stackName s)) =
    trace s ++
    [EvCall (CallDescribeStacks stackName) (now s);
     EvCall (CallCreateStack (createStackInput stackName templateBody)) (now s1)] ++ rest.
Proof.
  intros He Ht s1.
  assert (Hex : stackExists env stackName s = Ret (false, None) s1).
  { rewrite stackExists_spec, He. reflexivity. }
  split; [exact Hex|].
  unfold Deploy. rewrite Ht. simpl. unfold bind at 1. rewrite Hex. simpl.
  unfold createStack. unfold bind at 1 2. rewrite call_spec.
  set (s2 := called s1 _ _ _).
  match goal with
  | |- exists rest, trace (final ?X) = _ => assert (Hgrow : extends s2 (final X))
  end.
  { refine (bind_extends _ _ _ _ s2).
    - intros s0. destruct (snd (fst (CreateStack _ _ _ _))); apply extends_refl.
    - intros sub s0. destruct (snd sub); [apply extends_refl|].
      apply bind_extends; [apply waitForStack_extends|].
      intros w s3. destruct (snd w); [apply extends_refl|].
      apply bind_extends; [apply getStackOutputs_extends|].
      intros o s4. destruct (snd o); apply extends_refl. }
  destruct Hgrow as [rest Hrest]. exists rest.
  rewrite Hrest. unfold s2, s1. simpl. now rewrite <- !app_assoc.
Qed.

(** A [Deploy] whose wait fails returns the error of the wait, in the state the
    wait ended in: the outputs are not asked for. *)
Lemma Deploy_wait_failed (fuel : nat) (stackName : string) (s : St Remote)
  (templateBody : string) (ex : bool) (s1 : St Remote) (stackID : string) (s2 : St Remote)
  (status : string) (err : error) (s3 : St Remote) :
  GetTemplateBody env stackName = (templateBody, None) ->
  stackExists env stackName s = Ret (ex, None) s1 ->
  (if ex then updateStack env stackName templateBody
   else createStack env stackName templateBody) s1 = Ret (stackID, None) s2 ->
  waitForStack env fuel stackName s2 = Ret (status, Some err) s3 ->
  Deploy env fuel stackName s = Ret (None, Some err) s3.
Proof.
  intros Ht He Hs Hw. unfold Deploy. rewrite Ht. simpl.
  unfold bind at 1. rewrite He. simpl.
  unfold bind at 1. rewrite Hs. simpl.
  unfold bind at 1. rewrite Hw. reflexivity.
Qed.

(** C7 (amended).  [getStackOutputs] returns an empty (nil) sequence and no
    error when the described stack has no outputs; it returns an error when
    the describe request fails; and when the describe request succeeds with no
    stacks it returns a nil sequence and no error.  [Deploy] asks for the
    outputs only after a wait that succeeded. *)
Theorem getStackOutputs_results (stackName : string) :
  (forall s stack0 rest,
      snd (fst (DescribeStacks (cfnClient env) stackName (now s) (remote s))) =
      Ok {| cloudformation.Stacks := stack0 :: rest |} ->
      types.Outputs stack0 = [] ->
      exists s', getStackOutputs env stackName s = Ret (Nil, None) s') /\
  (forall s e,
      snd (fst (DescribeStacks (cfnClient env) stackName (now s) (remote s))) = Err e ->
      exists s', getStackOutputs env stackName s =
                 Ret (Nil, Some (ErrorfW "failed to describe stack: " e)) s') /\
  (forall s,
      snd (fst (DescribeStacks (cfnClient env) stackName (now s) (remote s))) =
      Ok {| cloudformation.Stacks := [] |} ->
      exists s', getStackOutputs env stackName s = Ret (Nil, None) s') /\
  (forall fuel s templateBody ex s1 stackID s2 status err s3,
      GetTemplateBody env stackName = (templateBody, None) ->
      stackExists env stackName s = Ret (ex, None) s1 ->
      (if ex then updateStack env stackName templateBody
       else createStack env stackName templateBody) s1 = Ret (stackID, None) s2 ->
      waitForStack env fuel stackName s2 = Ret (status, Some err) s3 ->
      Deploy env fuel stackName s = Ret (None, Some err) s3).
Proof.
  split; [|split; [|split]].
  - intros s stack0 rest H Ho. rewrite getStackOutputs_spec, H. simpl. rewrite Ho.
    eexists. reflexivity.
  - intros s e H. rewrite getStackOutputs_spec, H. eexists. reflexivity.
  - intros s H. rewrite getStackOutputs_spec, H. eexists. reflexivity.
  - intros. eapply Deploy_wait_failed; eauto.
Qed.

(** C9 (amended).  The outputs that [getStackOutputs] returns are those of the
    described stack, one for one in the same order, with the key and the value
    the remote system reports ([aws.ToString] of each); the sequence is nil
    exactly when the stack reports no outputs.  The [Outputs] of the result of
    a [Deploy] that succeeds is what [getStackOutputs] returned. *)
Theorem getStackOutputs_round_trip (stackName : string) :
  (forall s stack0 rest,
      snd (fst (DescribeStacks (cfnClient env) stackName (now s) (remote s))) =
      Ok {| cloudformation.Stacks := stack0 :: rest |} ->
      exists outputs s',
        getStackOutputs env stackName s = Ret (outputs, None) s' /\
        elems outputs = map toStackOutput (types.Outputs stack0) /\
        (forall i k v,
            nth_error (types.Outputs stack0) i =
            Some {| types.OutputKey := Some k; types.OutputValue := Some v |} ->
            nth_error (elems outputs) i = Some {| Key := k; Value := v |}) /\
        (outputs = Nil <-> types.Outputs stack0 = [])) /\
  (forall fuel s result s',
      Deploy env fuel stackName s = Ret (Some result, None) s' ->
      exists s3, getStackOutputs env stackName s3 =
                 Ret (DeployResult.Outputs result, None) s').
Proof.
  split.
  - intros s stack0 rest H. rewrite getStackOutputs_spec, H. simpl.
    do 2 eexists. split; [reflexivity|]. split; [|split].
    + now rewrite elems_range_append.
    + intros i k v Hi. rewrite elems_range_append. simpl.
      rewrite nth_error_map, Hi. reflexivity.
    + apply range_append_nil_iff.
  - intros fuel s result s' H. apply Deploy_succeeded in H.
    destruct H as (tb & ex & s1 & id & s2 & status & s3 & outputs & _ & _ & _ & _ & Ho & ->).
    exists s3. exact Ho.
Qed.

(** ** Drift results *)




(** ** The batches *)

Lemma Deploy_ok (fuel : nat) (stackName : string) (s : St Remote)
  (x : option DeployResult.t) (s' : St Remote) :
  Deploy env fuel stackName s = Ret (x, None) s' ->
  exists result, x = Some result /\ DeployResult.StackName result = stackName.
Proof.
  intros H. destruct (Deploy_result_or_error _ _ _ _ _ H) as [result ->].
  exists result. split; [reflexivity|].
  apply Deploy_succeeded in H.
  destruct H as (tb & ex & s1 & id & s2 & status & s3 & outputs & _ & _ & _ & _ & _ & ->).
  reflexivity.
Qed.

Lemma getDriftResults_ok (stackName : string) (s : St Remote)
  (x : option DriftResult.t) (s' : St Remote) :
  getDriftResults env stackName s = Ret (x, None) s' ->
  exists result, x = Some result /\ DriftResult.StackName result = stackName.
Proof.
  unfold getDriftResults. unfold bind at 1. rewrite call_spec.
  destruct (snd (fst (DescribeStacks (cfnClient env) stackName (now s) (remote s))))
    as [describeOutput | e]; [|discriminate].
  destruct (cloudformation.Stacks describeOutput) as [|stack0 rest]; [discriminate|].
  destruct (types.DriftInformation stack0) as [info|]; [|discriminate].
  unfold bind. rewrite call_spec.
  destruct (snd (fst (DescribeStackResourceDrifts _ _ _ _))) as [output | e];
    [|discriminate].
  intros H. inversion H; subst. eexists. split; reflexivity.
Qed.

Lemma DetectDrift_ok (fuel : nat) (stackName : string) (s : St Remote)
  (x : option DriftResult.t) (s' : St Remote) :
  DetectDrift env fuel stackName s = Ret (x, None) s' ->
  exists result, x = Some result /\ DriftResult.StackName result = stackName.
Proof.
  unfold DetectDrift. unfold bind at 1.
  destruct (stackExists env stackName s) as [[ex [e|]] s1 | s1 | s1]; simpl;
    try discriminate.
  destruct ex; simpl; [|discriminate].
  unfold bind at 1. rewrite call_spec.
  destruct (snd (fst (DetectStackDrift _ _ _ _))) as [detectOutput | e]; [|discriminate].
  unfold bind at 1.
  destruct (waitForDriftDetection _ _ _ _) as [[status [e|]] s3 | s3 | s3]; simpl;
    try discriminate.
  destruct (negb _); [discriminate|].
  apply getDriftResults_ok.
Qed.

Lemma DeployAll_range_app (fuel : nat) (pre rest : list string)
  (acc results : slice DeployResult.t) (s s1 : St Remote) :
  DeployAll_range env fuel pre acc s = Ret (results, None) s1 ->
  DeployAll_range env fuel (pre ++ rest) acc s = DeployAll_range env fuel rest results s1.
Proof.
  revert acc s. induction pre as [|a pre IH]; intros acc s H; simpl in *.
  - inversion H; subst. reflexivity.
  - unfold bind in *.
    destruct (Deploy env fuel a s) as [[x [e|]] s0 | s0 | s0]; simpl in *;
      try discriminate.
    destruct x as [result|]; [|discriminate]. now apply IH.
Qed.

Lemma DeployAll_range_names (fuel : nat) (stacks : list string)
  (acc results : slice DeployResult.t) (s s' : St Remote) :
  DeployAll_range env fuel stacks acc s = Ret (results, None) s' ->
  map DeployResult.StackName (elems results) =
  map DeployResult.StackName (elems acc) ++ stacks.
Proof.
  revert acc s. induction stacks as [|a stacks IH]; intros acc s H; simpl in *.
  - inversion H; subst. now rewrite app_nil_r.
  - unfold bind in H.
    destruct (Deploy env fuel a s) as [[x [e|]] s0 | s0 | s0] eqn:E; simpl in *;
      try discriminate.
    destruct (Deploy_ok _ _ _ _ _ E) as (result & -> & Hn).
    apply IH in H. rewrite H. unfold append; simpl.
    rewrite map_app. simpl. rewrite Hn. now rewrite <- app_assoc.
Qed.

Lemma DetectDriftAll_range_app (fuel : nat) (pre rest : list string)
  (acc results : slice DriftResult.t) (s s1 : St Remote) :
  DetectDriftAll_range env fuel pre acc s = Ret (results, None) s1 ->
  DetectDriftAll_range env fuel (pre ++ rest) acc s =
  DetectDriftAll_range env fuel rest results s1.
Proof.
  revert acc s. induction pre as [|a pre IH]; intros acc s H; simpl in *.
  - inversion H; subst. reflexivity.
  - unfold bind in *.
    destruct (DetectDrift env fuel a s) as [[x [e|]] s0 | s0 | s0]; simpl in *;
      try discriminate.
    destruct x as [result|]; [|discriminate]. now apply IH.
Qed.

Lemma DetectDriftAll_range_names (fuel : nat) (stacks : list string)
  (acc results : slice DriftResult.t) (s s' : St Remote) :
  DetectDriftAll_range env fuel stacks acc s = Ret (results, None) s' ->
  map DriftResult.StackName (elems results) =
  map DriftResult.StackName (elems acc) ++ stacks.
Proof.
  revert acc s. induction stacks as [|a stacks IH]; intros acc s H; simpl in *.
  - inversion H; subst. now rewrite app_nil_r.
  - unfold bind in H.
    destruct (DetectDrift env fuel a s) as [[x [e|]] s0 | s0 | s0] eqn:E; simpl in *;
      try discriminate.
    destruct (DetectDrift_ok _ _ _ _ _ E) as (result & -> & Hn).
    apply IH in H. rewrite H. unfold append; simpl.
    rewrite map_app. simpl. rewrite Hn. now rewrite <- app_assoc.
Qed.

(** C2.  [DeployAll] and [DetectDriftAll] run the workflows in list order,
    each from the state the one before left.  When the workflows of [pre]
    succeed and the workflow of [b] fails, the batch on [pre ++ b :: post]
    returns exactly the outcomes of [pre], in order, with an error that names
    [b] and wraps the failure, in the very state the failed workflow ended in:
    nothing of [post] is started, whatever [post] is.  A batch that returns no
    error has one outcome for every identifier, in list order. *)
Theorem batch_fail_fast_keep_partial (fuel : nat) :
  (forall pre b post s results s1 x err s2,
      DeployAll env fuel pre s = Ret (results, None) s1 ->
      Deploy env fuel b s1 = Ret (x, Some err) s2 ->
      DeployAll env fuel (pre ++ b :: post) s =
      Ret (results, Some (ErrorfW ("failed to deploy stack " ^^ b ^^ ": ") err)) s2 /\
      map DeployResult.StackName (elems results) = pre) /\
  (forall stacks s results s',
      DeployAll env fuel stacks s = Ret (results, None) s' ->
      map DeployResult.StackName (elems results) = stacks) /\
  (forall a stacks s result s1,
      Deploy env fuel a s = Ret (Some result, None) s1 ->
      DeployAll env fuel (a :: stacks) s =
      DeployAll_range env fuel stacks (Slice [result]) s1) /\
  (forall pre b post s results s1 x err s2,
      DetectDriftAll env fuel pre s = Ret (results, None) s1 ->
      DetectDrift env fuel b s1 = Ret (x, Some err) s2 ->
      DetectDriftAll env fuel (pre ++ b :: post) s =
      Ret (results, Some (ErrorfW ("failed to detect drift for stack " ^^ b ^^ ": ") err)) s2 /\
      map DriftResult.StackName (elems results) = pre) /\
  (forall stacks s results s',
      DetectDriftAll env fuel stacks s = Ret (results, None) s' ->
      map DriftResult.StackName (elems results) = stacks) /\
  (forall a stacks s result s1,
      DetectDrift env fuel a s = Ret (Some result, None) s1 ->
      DetectDriftAll env fuel (a :: stacks) s =
      DetectDriftAll_range env fuel stacks (Slice [result]) s1).
Proof.
  split; [|split; [|split; [|split; [|split]]]].
  - intros pre b post s results s1 x err s2 Hpre Hb. unfold DeployAll in *. split.
    + rewrite (DeployAll_range_app fuel pre (b :: post) Nil results s s1 Hpre).
      simpl. unfold bind. rewrite Hb. reflexivity.
    + now apply DeployAll_range_names in Hpre.
  - intros stacks s results s' H. unfold DeployAll in H.
    now apply DeployAll_range_names in H.
  - intros a stacks s result s1 H. unfold DeployAll. simpl. unfold bind.
    rewrite H. reflexivity.
  - intros pre b post s results s1 x err s2 Hpre Hb. unfold DetectDriftAll in *. split.
    + rewrite (DetectDriftAll_range_app fuel pre (b :: post) Nil results s s1 Hpre).
      simpl. unfold bind. rewrite Hb. reflexivity.
    + now apply DetectDriftAll_range_names in Hpre.
  - intros stacks s results s' H. unfold DetectDriftAll in H.
    now apply DetectDriftAll_range_names in H.
  - intros a stacks s result s1 H. unfold DetectDriftAll. simpl. unfold bind.
    rewrite H. reflexivity.
Qed.

End Properties.

(** * The properties on the scenarios *)


(** C2 at a concrete input: of [A; B; C] the second fails. *)
Lemma batch_fail_fast_keep_partial_witness :
  let outcome_A := {| DeployResult.StackName := "A";
                      DeployResult.StackID := "arn:aws:cloudformation:stack/Net/1";
                      DeployResult.Status := "UPDATE_COMPLETE";
                      DeployResult.Outputs := Slice [{| Key := "K1"; Value := "V1" |}] |} in
  let failure := Errorf "stack operation failed with status: UPDATE_ROLLBACK_FAILED" in
  let s1 := final (DeployAll Example.second_fails 5 ["A"] Example.start) in
  let s2 := final (Deploy Example.second_fails 5 "B" s1) in
  DeployAll Example.second_fails 5 ["A"] Example.start = Ret (Slice [outcome_A], None) s1 /\
  Deploy Example.second_fails 5 "B" s1 = Ret (None, Some failure) s2 /\
  DeployAll Example.second_fails 5 (["A"] ++ "B" :: ["C"]) Example.start =
  Ret (Slice [outcome_A], Some (ErrorfW "failed to deploy stack B: " failure)) s2 /\
  map DeployResult.StackName (elems (Slice [outcome_A])) = ["A"].
Proof.
  intros outcome_A failure s1 s2.
  assert (H1 : DeployAll Example.second_fails 5 ["A"] Example.start =
               Ret (Slice [outcome_A], None) s1) by (vm_compute; reflexivity).
  assert (H2 : Deploy Example.second_fails 5 "B" s1 = Ret (None, Some failure) s2)
    by (vm_compute; reflexivity).
  split; [exact H1|]. split; [exact H2|].
  exact (proj1 (batch_fail_fast_keep_partial nat Example.second_fails 5)
           ["A"] "B" ["C"] Example.start (Slice [outcome_A]) s1 None failure s2 H1 H2).
Defined.






(** C6 at a concrete input: the existence check of a stack that does not
    exist. *)
Lemma stackExists_failure_means_create_witness :
  snd (fst (DescribeStacks (cfnClient Example.creating) "Net"
              (now Example.start) (remote Example.start))) =
  Err (External "Stack with id Net does not exist") /\
  GetTemplateBody Example.creating "Net" = ("{}", None) /\
  stackExists Example.creating "Net" Example.start =
  Ret (false, None) (called Example.start (CallDescribeStacks "Net") 0%N 1%nat) /\
  exists rest,
    trace (final (Deploy Example.creating 5 "Net" Example.start)) =
    trace Example.start ++
    [EvCall (CallDescribeStacks "Net") 0;
     EvCall (CallCreateStack (createStackInput "Net" "{}")) 0] ++ rest.
Proof.
  assert (H1 : snd (fst (DescribeStacks (cfnClient Example.creating) "Net"
                           (now Example.start) (remote Example.start))) =
               Err (External "Stack with id Net does not exist")) by reflexivity.
  assert (H2 : GetTemplateBody Example.creating "Net" = ("{}", None)) by reflexivity.
  split; [exact H1|]. split; [exact H2|].
  exact (stackExists_failure_means_create nat Example.creating 5 "Net" Example.start
           _ "{}" H1 H2).
Defined.

(** C7 (amended) at a concrete input: a stack without outputs. *)
Lemma getStackOutputs_results_witness :
  snd (fst (DescribeStacks (cfnClient Example.no_outputs) "Net"
              (now Example.start) (remote Example.start))) =
  Ok {| cloudformation.Stacks := [Example.stack "UPDATE_COMPLETE" []] |} /\
  types.Outputs (Example.stack "UPDATE_COMPLETE" []) = [] /\
  exists s', getStackOutputs Example.no_outputs "Net" Example.start = Ret (Nil, None) s'.
Proof.
  assert (H1 : snd (fst (DescribeStacks (cfnClient Example.no_outputs) "Net"
                           (now Example.start) (remote Example.start))) =
               Ok {| cloudformation.Stacks := [Example.stack "UPDATE_COMPLETE" []] |})
    by reflexivity.
  assert (H2 : types.Outputs (Example.stack "UPDATE_COMPLETE" []) = []) by reflexivity.
  split; [exact H1|]. split; [exact H2|].
  exact (proj1 (getStackOutputs_results nat Example.no_outputs "Net")
           Example.start _ [] H1 H2).
Defined.

(** C7 as stated fails: when the describe request returns no stacks,
    [getStackOutputs] returns no error. *)
Lemma getStackOutputs_no_stacks_is_not_an_error :
  snd (fst (DescribeStacks (cfnClient Example.gone) "Net"
              (now Example.start) (remote Example.start))) =
  Ok {| cloudformation.Stacks := [] |} /\
  getStackOutputs Example.gone "Net" Example.start =
  Ret (Nil, None) (called Example.start (CallDescribeStacks "Net") 0%N 1%nat) /\
  forall outputs e s',
    getStackOutputs Example.gone "Net" Example.start <> Ret (outputs, Some e) s'.
Proof.
  split; [reflexivity|]. split; [reflexivity|].
  intros outputs e s' H. vm_compute in H. discriminate.
Qed.


(** C9 (amended) at a concrete input: two outputs. *)
Lemma getStackOutputs_round_trip_witness :
  let s := Example.after_requests 2 in
  snd (fst (DescribeStacks (cfnClient Example.progressing) "Net" (now s) (remote s))) =
  Ok {| cloudformation.Stacks :=
          [Example.stack "CREATE_COMPLETE" [Example.K1V1; Example.K2V2]] |} /\
  exists outputs s',
    getStackOutputs Example.progressing "Net" s = Ret (outputs, None) s' /\
    elems outputs = [{| Key := "K1"; Value := "V1" |}; {| Key := "K2"; Value := "V2" |}].
Proof.
  intros s.
  assert (H : snd (fst (DescribeStacks (cfnClient Example.progressing) "Net"
                          (now s) (remote s))) =
              Ok {| cloudformation.Stacks :=
                      [Example.stack "CREATE_COMPLETE" [Example.K1V1; Example.K2V2]] |})
    by reflexivity.
  split; [exact H|].
  destruct (proj1 (getStackOutputs_round_trip nat Example.progressing "Net") s _ [] H)
    as (outputs & s' & Hrun & Helems & _).
  exists outputs, s'. split; [exact Hrun | exact Helems].
Defined.

(** C9 as stated fails: when the stack reports no outputs, the [Outputs] of
    the result of [Deploy] is the nil slice, not an empty one that is not
    nil. *)
Lemma zero_outputs_is_nil :
  exists result s',
    Deploy Example.no_outputs 5 "Net" Example.start = Ret (Some result, None) s' /\
    DeployResult.Outputs result = Nil /\
    is_nil (DeployResult.Outputs result) = true /\
    DeployResult.Outputs result <> Slice [].
Proof.
  do 2 eexists. split; [vm_compute; reflexivity|].
  split; [reflexivity|]. split; [reflexivity | discriminate].
Qed.


(** * The workflows of [pkg/cdk/deployer.go] *)

Section Workflows.

Variable Remote : Type.
Variable env : Env Remote.

Lemma requests_app (l l' : list Event) : requests (l ++ l') = requests l ++ requests l'.
Proof. unfold requests. apply flat_map_app. Qed.

Lemma requests_polled (c : Call) (ts : list Z) :
  requests (polled c ts) = repeat c (List.length ts).
Proof.
  induction ts as [|t ts IH]; [reflexivity|].
  unfold polled, requests in *. simpl. f_equal. exact IH.
Qed.

Lemma requests_fin (fin : list Event) (t : Z) :
  fin = [] \/ fin = [EvSelect CtxDone t] \/ fin = [EvSelect TimeoutFired t] ->
  requests fin = [].
Proof. intros [-> | [-> | ->]]; reflexivity. Qed.

Lemma call_answer {A} (c : Call) (f : Z -> Remote -> reply Remote A) (s : St Remote) :
  call c f s = Ret (answer f s) (after c f s).
Proof. apply call_spec. Qed.


Lemma stackExists_answer (stackName : string) (s : St Remote) :
  stackExists env stackName s =
  Ret (match answer (DescribeStacks (cfnClient env) stackName) s with
       | Ok _ => true
       | Err _ => false
       end, None)
      (after (CallDescribeStacks stackName) (DescribeStacks (cfnClient env) stackName) s).
Proof. apply stackExists_spec. Qed.

Lemma createStack_answer (stackName templateBody : string) (s : St Remote) :
  createStack env stackName templateBody s =
  Ret (match answer (CreateStack (cfnClient env) (createStackInput stackName templateBody)) s with
       | Err e => ("", Some (ErrorfW "failed to create stack: " e))
       | Ok output => (ToString (cloudformation.StackId output), None)
       end)
      (after (CallCreateStack (createStackInput stackName templateBody))
             (CreateStack (cfnClient env) (createStackInput stackName templateBody)) s).
Proof.
  unfold createStack, bind. rewrite call_answer.
  destruct (answer _ s); reflexivity.
Qed.

Lemma updateStack_answer (stackName templateBody : string) (s : St Remote) :
  updateStack env stackName templateBody s =
  Ret (match answer (UpdateStack (cfnClient env) (updateStackInput stackName templateBody)) s with
       | Err e => ("", Some (ErrorfW "failed to update stack: " e))
       | Ok output => (ToString (cloudformation.StackId output), None)
       end)
      (after (CallUpdateStack (updateStackInput stackName templateBody))
             (UpdateStack (cfnClient env) (updateStackInput stackName templateBody)) s).
Proof.
  unfold updateStack, bind. rewrite call_answer.
  destruct (answer _ s); reflexivity.
Qed.

Lemma getStackOutputs_answer (stackName : string) (s : St Remote) :
  getStackOutputs env stackName s =
  Ret (match answer (DescribeStacks (cfnClient env) stackName) s with
       | Err e => (Nil, Some (ErrorfW "failed to describe stack: " e))
       | Ok output =>
           match cloudformation.Stacks output with
           | [] => (Nil, None)
           | stack0 :: _ => (range_append toStackOutput (types.Outputs stack0) Nil, None)
           end
       end)
      (after (CallDescribeStacks stackName) (DescribeStacks (cfnClient env) stackName) s).
Proof. apply getStackOutputs_spec. Qed.

(** [Deploy] once the template is read: the existence check, the request it
    decides, the wait and the outputs, each step only if the one before
    returned no error. *)
Lemma Deploy_steps (fuel : nat) (stackName templateBody : string) (s : St Remote) :
  GetTemplateBody env stackName = (templateBody, None) ->
  Deploy env fuel stackName s =
  match (match answer (DescribeStacks (cfnClient env) stackName) s with
         | Ok _ => updateStack env stackName templateBody
         | Err _ => createStack env stackName templateBody
         end)
          (after (CallDescribeStacks stackName) (DescribeStacks (cfnClient env) stackName) s)
  with
  | Ret (stackID, None) s2 =>
      match waitForStack env fuel stackName s2 with
      | Ret (status, None) s3 =>
          match getStackOutputs env stackName s3 with
          | Ret (outputs, None) s4 =>
              Ret (Some {| DeployResult.StackName := stackName;
                           DeployResult.StackID := stackID;
                           DeployResult.Status := status;
                           DeployResult.Outputs := outputs |}, None) s4
          | Ret (_, Some err) s4 => Ret (None, Some err) s4
          | Panic s4 => Panic s4
          | OutOfFuel s4 => OutOfFuel s4
          end
      | Ret (_, Some err) s3 => Ret (None, Some err) s3
      | Panic s3 => Panic s3
      | OutOfFuel s3 => OutOfFuel s3
      end
  | Ret (_, Some err) s2 => Ret (None, Some err) s2
  | Panic s2 => Panic s2
  | OutOfFuel s2 => OutOfFuel s2
  end.
Proof.
  intros Ht. unfold Deploy. rewrite Ht. simpl.
  unfold bind at 1. rewrite stackExists_answer. simpl.
  set (s1 := after _ _ s).
  unfold bind at 1.
  destruct (answer (DescribeStacks (cfnClient env) stackName) s) as [o | e0]; simpl.
  - destruct (updateStack env stackName templateBody s1) as [[stackID [e|]] s2 | s2 | s2];
      simpl; try reflexivity.
    unfold bind at 1.
    destruct (waitForStack env fuel stackName s2) as [[status [e|]] s3 | s3 | s3];
      simpl; try reflexivity.
    unfold bind at 1.
    destruct (getStackOutputs env stackName s3) as [[outputs [e|]] s4 | s4 | s4];
      reflexivity.
  - destruct (createStack env stackName templateBody s1) as [[stackID [e|]] s2 | s2 | s2];
      simpl; try reflexivity.
    unfold bind at 1.
    destruct (waitForStack env fuel stackName s2) as [[status [e|]] s3 | s3 | s3];
      simpl; try reflexivity.
    unfold bind at 1.
    destruct (getStackOutputs env stackName s3) as [[outputs [e|]] s4 | s4 | s4];
      reflexivity.
Qed.

Lemma append_assoc (a b c : string) : (a ^^ b) ^^ c = a ^^ b ^^ c.
Proof. induction a as [|x a IH]; simpl; [reflexivity | now rewrite IH]. Qed.

(** ** [Deploy] *)

(** When the template of the stack cannot be read, [Deploy] returns the error
    of the read, wrapped, without a single request to the remote system and
    without waiting: the state is the one it started in.  A batch that starts
    with such a stack returns no outcome, and its message names the stack
    twice. *)
Theorem Deploy_without_template (fuel : nat) (stackName : string) (rest : list string)
  (s : St Remote) (e : error) :
  ReadFile env (Join env (outputDir (synthesizer env)) (stackName ^^ ".template.json")) =
  Err e ->
  let err := ErrorfW ("failed to read template for stack " ^^ stackName ^^ ": ") e in
  let batch_err := ErrorfW ("failed to deploy stack " ^^ stackName ^^ ": ") err in
  Deploy env fuel stackName s = Ret (None, Some err) s /\
  DeployAll env fuel (stackName :: rest) s = Ret (Nil, Some batch_err) s /\
  Error batch_err =
  "failed to deploy stack " ^^ stackName ^^ ": failed to read template for stack " ^^
  stackName ^^ ": " ^^ Error e.
Proof.
  intros Hread err batch_err.
  assert (Ht : GetTemplateBody env stackName = ("", Some err)).
  { unfold GetTemplateBody. rewrite Hread. reflexivity. }
  assert (Hd : Deploy env fuel stackName s = Ret (None, Some err) s).
  { unfold Deploy. rewrite Ht. reflexivity. }
  split; [exact Hd|]. split.
  - unfold DeployAll. simpl. unfold bind. rewrite Hd. reflexivity.
  - unfold batch_err, err. simpl. now rewrite !append_assoc.
Qed.


(** A create or an update request that the remote system rejects ends
    [Deploy] there: the error is the rejection, wrapped, and the stack is not
    waited for. *)
Theorem Deploy_rejected_request (fuel : nat) (stackName templateBody : string)
  (s : St Remote) (e : error) :
  GetTemplateBody env stackName = (templateBody, None) ->
  let s1 := after (CallDescribeStacks stackName) (DescribeStacks (cfnClient env) stackName) s in
  (forall output,
      answer (DescribeStacks (cfnClient env) stackName) s = Ok output ->
      answer (UpdateStack (cfnClient env) (updateStackInput stackName templateBody)) s1 = Err e ->
      Deploy env fuel stackName s =
      Ret (None, Some (ErrorfW "failed to update stack: " e))
          (after (CallUpdateStack (updateStackInput stackName templateBody))
                 (UpdateStack (cfnClient env) (updateStackInput stackName templateBody)) s1)) /\
  (forall e0,
      answer (DescribeStacks (cfnClient env) stackName) s = Err e0 ->
      answer (CreateStack (cfnClient env) (createStackInput stackName templateBody)) s1 = Err e ->
      Deploy env fuel stackName s =
      Ret (None, Some (ErrorfW "failed to create stack: " e))
          (after (CallCreateStack (createStackInput stackName templateBody))
                 (CreateStack (cfnClient env) (createStackInput stackName templateBody)) s1)).
Proof.
  intros Ht s1. split.
  - intros output Hd Hu. rewrite (Deploy_steps fuel stackName templateBody s Ht), Hd.
    fold s1. rewrite updateStack_answer, Hu. reflexivity.
  - intros e0 Hd Hc. rewrite (Deploy_steps fuel stackName templateBody s Ht), Hd.
    fold s1. rewrite createStack_answer, Hc. reflexivity.
Qed.

(** The outcome of a [Deploy] that succeeds: it carries the name it was asked
    for, the identifier the remote system gave in answer to the update or the
    create request, and as its status the one that ended the wait, which is
    CREATE_COMPLETE or UPDATE_COMPLETE. *)
Theorem Deploy_outcome (fuel : nat) (stackName : string) (s : St Remote)
  (result : DeployResult.t) (s' : St Remote) :
  Deploy env fuel stackName s = Ret (Some result, None) s' ->
  DeployResult.StackName result = stackName /\
  (DeployResult.Status result = "CREATE_COMPLETE" \/
   DeployResult.Status result = "UPDATE_COMPLETE") /\
  exists templateBody output,
    GetTemplateBody env stackName = (templateBody, None) /\
    let s1 := after (CallDescribeStacks stackName)
                (DescribeStacks (cfnClient env) stackName) s in
    match answer (DescribeStacks (cfnClient env) stackName) s with
    | Ok _ => answer (UpdateStack (cfnClient env) (updateStackInput stackName templateBody)) s1
    | Err _ => answer (CreateStack (cfnClient env) (createStackInput stackName templateBody)) s1
    end = Ok output /\
    DeployResult.StackID result = ToString (cloudformation.StackId output).
Proof.
  intros H.
  destruct (Deploy_succeeded _ env fuel stackName s result s' H)
    as (templateBody & ex & s1 & stackID & s2 & status & s3 & outputs &
        Ht & He & Hs & Hw & Ho & ->).
  simpl. split; [reflexivity|]. split.
  - destruct (waitForStack_run _ env fuel stackName s2 _ s3 Hw)
      as (ts & fin & _ & _ & _ & Hfin).
    destruct Hfin as [(_ & _ & Hv) | [(_ & Hr & t0 & k & Hk & _) | (_ & Hr & _)]].
    + destruct Hv as [[Hv _] | [[_ Hv] | [[_ [e0 Hv]] | [_ Hv]]]]; simpl in Hv;
        try discriminate.
      now apply stack_succeeded_iff.
    + inversion Hr as [[E1 E2]]. unfold ctx_Err in E2. rewrite Hk in E2. discriminate.
    + inversion Hr.
  - exists templateBody.
    rewrite stackExists_answer in He. inversion He as [[Hex Hs1]]. subst s1.
    destruct (answer (DescribeStacks (cfnClient env) stackName) s); subst ex.
    + rewrite updateStack_answer in Hs.
      destruct (answer (UpdateStack _ _) _) as [output | e0] eqn:Eu; inversion Hs; subst.
      exists output. repeat split; assumption.
    + rewrite createStack_answer in Hs.
      destruct (answer (CreateStack _ _) _) as [output | e0] eqn:Ec; inversion Hs; subst.
      exists output. repeat split; assumption.
Qed.

(** ** Neither wait panics *)

Lemma poll_loop_no_panic (timeout_err : error)
  (poll : M Remote (option (string * option error))) (c : Call) (timeout : Z) :
  queries c poll ->
  forall fuel tk s s', poll_loop env timeout_err poll fuel tk timeout s <> Panic s'.
Proof.
  intros Hq. induction fuel as [|fuel IH]; intros tk s s'; simpl; [discriminate|].
  unfold bind at 1.
  destruct (select_spec _ env tk timeout s) as (k & tk' & t & -> & _). simpl.
  destruct k; try discriminate.
  unfold bind.
  destruct (Hq (selected s Tick t)) as (v & lat & rem & ->).
  destruct v as [r|]; [discriminate | apply IH].
Qed.

Lemma waitForStack_no_panic (fuel : nat) (stackName : string) (s s' : St Remote) :
  waitForStack env fuel stackName s <> Panic s'.
Proof.
  unfold waitForStack. rewrite waitForStack_loop_poll_loop.
  apply (poll_loop_no_panic _ _ (CallDescribeStacks stackName)).
  apply stack_poll_queries.
Qed.

Lemma waitForDriftDetection_no_panic (fuel : nat) (driftDetectionId : string)
  (s s' : St Remote) :
  waitForDriftDetection env fuel driftDetectionId s <> Panic s'.
Proof.
  unfold waitForDriftDetection. rewrite waitForDriftDetection_loop_poll_loop.
  apply (poll_loop_no_panic _ _ (CallDescribeStackDriftDetectionStatus driftDetectionId)).
  apply drift_poll_queries.
Qed.

Lemma Deploy_template_error (fuel : nat) (stackName body : string) (e : error)
  (s : St Remote) :
  GetTemplateBody env stackName = (body, Some e) ->
  Deploy env fuel stackName s = Ret (None, Some e) s.
Proof. intros Ht. unfold Deploy. rewrite Ht. reflexivity. Qed.

Lemma Deploy_no_panic (fuel : nat) (stackName : string) (s s' : St Remote) :
  Deploy env fuel stackName s <> Panic s'.
Proof.
  destruct (GetTemplateBody env stackName) as [body [e|]] eqn:Ht.
  - rewrite (Deploy_template_error fuel stackName body e s Ht). discriminate.
  - rewrite (Deploy_steps fuel stackName body s Ht).
    set (s1 := after _ _ s).
    assert (Hsub : exists x s2,
               (match answer (DescribeStacks (cfnClient env) stackName) s with
                | Ok _ => updateStack env stackName body
                | Err _ => createStack env stackName body
                end) s1 = Ret x s2).
    { destruct (answer (DescribeStacks (cfnClient env) stackName) s).
      - rewrite updateStack_answer. eauto.
      - rewrite createStack_answer. eauto. }
    destruct Hsub as ([stackID [e|]] & s2 & ->); [discriminate|].
    destruct (waitForStack env fuel stackName s2) as [[status [e|]] s3 | s3 | s3] eqn:Ew;
      try discriminate.
    + rewrite getStackOutputs_answer.
      destruct (match answer (DescribeStacks (cfnClient env) stackName) s3 with
                | Ok output => _
                | Err e => _
                end) as [outputs [e|]]; discriminate.
    + exfalso. exact (waitForStack_no_panic fuel stackName s2 s3 Ew).
Qed.

Lemma Deploy_error_no_result (fuel : nat) (stackName : string) (s : St Remote)
  (x : option DeployResult.t) (e : error) (s' : St Remote) :
  Deploy env fuel stackName s = Ret (x, Some e) s' -> x = None.
Proof.
  destruct (GetTemplateBody env stackName) as [body [e0|]] eqn:Ht.
  - rewrite (Deploy_template_error fuel stackName body e0 s Ht). intros H. now inversion H.
  - rewrite (Deploy_steps fuel stackName body s Ht).
    destruct ((match answer (DescribeStacks (cfnClient env) stackName) s with
               | Ok _ => updateStack env stackName body
               | Err _ => createStack env stackName body
               end) _) as [[stackID [e1|]] s2 | s2 | s2];
      try discriminate; [intros H; now inversion H|].
    destruct (waitForStack env fuel stackName s2) as [[status [e1|]] s3 | s3 | s3];
      try discriminate; [intros H; now inversion H|].
    destruct (getStackOutputs env stackName s3) as [[outputs [e1|]] s4 | s4 | s4];
      try discriminate; intros H; now inversion H.
Qed.

(** ** [getDriftResults] and [DetectDrift], step by step *)

Lemma getDriftResults_steps (stackName : string) (s : St Remote) :
  getDriftResults env stackName s =
  match answer (DescribeStacks (cfnClient env) stackName) s with
  | Err e =>
      Ret (None, Some (ErrorfW "failed to describe stack: " e))
          (after (CallDescribeStacks stackName) (DescribeStacks (cfnClient env) stackName) s)
  | Ok describeOutput =>
      match cloudformation.Stacks describeOutput with
      | [] =>
          Ret (None, Some (Errorf ("stack " ^^ stackName ^^ " not found")))
              (after (CallDescribeStacks stackName) (DescribeStacks (cfnClient env) stackName) s)
      | stack0 :: _ =>
          match types.DriftInformation stack0 with
          | None =>
              Panic (after (CallDescribeStacks stackName)
                       (DescribeStacks (cfnClient env) stackName) s)
          | Some info =>
              Ret (match answer (DescribeStackResourceDrifts (cfnClient env)
                                   (resourceDriftsInput stackName))
                           (after (CallDescribeStacks stackName)
                              (DescribeStacks (cfnClient env) stackName) s)
                   with
                   | Err e => (None, Some (ErrorfW "failed to get resource drifts: " e))
                   | Ok resourceDriftsOutput =>
                       (Some {| DriftResult.StackName := stackName;
                                DriftResult.DriftStatus := types.StackDriftStatus info;
                                DriftResult.DriftedResources :=
                                  range_append toDriftedResource
                                    (cloudformation.StackResourceDrifts resourceDriftsOutput)
                                    Nil |},
                        None)
                   end)
                  (after (CallDescribeStackResourceDrifts (resourceDriftsInput stackName))
                     (DescribeStackResourceDrifts (cfnClient env) (resourceDriftsInput stackName))
                     (after (CallDescribeStacks stackName)
                        (DescribeStacks (cfnClient env) stackName) s))
          end
      end
  end.
Proof.
  unfold getDriftResults. unfold bind at 1. rewrite call_answer.
  destruct (answer (DescribeStacks (cfnClient env) stackName) s) as [describeOutput | e];
    [|reflexivity].
  destruct (cloudformation.Stacks describeOutput) as [|stack0 l]; [reflexivity|].
  destruct (types.DriftInformation stack0) as [info|]; [|reflexivity].
  unfold bind. rewrite call_answer.
  destruct (answer (DescribeStackResourceDrifts _ _) _); reflexivity.
Qed.

Lemma DetectDrift_steps (fuel : nat) (stackName : string) (s : St Remote) :
  DetectDrift env fuel stackName s =
  match answer (DescribeStacks (cfnClient env) stackName) s with
  | Err _ =>
      Ret (None, Some (Errorf ("stack " ^^ stackName ^^ " does not exist")))
          (after (CallDescribeStacks stackName) (DescribeStacks (cfnClient env) stackName) s)
  | Ok _ =>
      match answer (DetectStackDrift (cfnClient env) stackName)
                   (after (CallDescribeStacks stackName)
                      (DescribeStacks (cfnClient env) stackName) s)
      with
      | Err e =>
          Ret (None, Some (ErrorfW "failed to initiate drift detection: " e))
              (after (CallDetectStackDrift stackName) (DetectStackDrift (cfnClient env) stackName)
                 (after (CallDescribeStacks stackName)
                    (DescribeStacks (cfnClient env) stackName) s))
      | Ok detectOutput =>
          match waitForDriftDetection env fuel
                  (ToString (cloudformation.StackDriftDetectionId detectOutput))
                  (after (CallDetectStackDrift stackName)
                     (DetectStackDrift (cfnClient env) stackName)
                     (after (CallDescribeStacks stackName)
                        (DescribeStacks (cfnClient env) stackName) s))
          with
          | Ret (status, None) s3 =>
              if negb (String.eqb status types.StackDriftDetectionStatusDetectionComplete)
              then Ret (None, Some (Errorf ("drift detection failed with status: " ^^ status))) s3
              else getDriftResults env stackName s3
          | Ret (_, Some err) s3 => Ret (None, Some err) s3
          | Panic s3 => Panic s3
          | OutOfFuel s3 => OutOfFuel s3
          end
      end
  end.
Proof.
  unfold DetectDrift. unfold bind at 1. rewrite stackExists_answer. simpl.
  destruct (answer (DescribeStacks (cfnClient env) stackName) s) as [o | e0]; simpl;
    [|reflexivity].
  unfold bind at 1. rewrite call_answer.
  destruct (answer (DetectStackDrift (cfnClient env) stackName) _) as [detectOutput | e];
    [|reflexivity].
  unfold bind at 1.
  destruct (waitForDriftDetection env fuel _ _) as [[status [e|]] s3 | s3 | s3];
    try reflexivity.
  simpl. destruct (negb _); reflexivity.
Qed.

(** A wait for drift detection that returns no error returns DETECTION_COMPLETE. *)
Lemma waitForDriftDetection_ok (fuel : nat) (driftDetectionId : string) (s : St Remote)
  (status : string) (s' : St Remote) :
  waitForDriftDetection env fuel driftDetectionId s = Ret (status, None) s' ->
  status = "DETECTION_COMPLETE".
Proof.
  intros H.
  destruct (waitForDriftDetection_run _ env fuel driftDetectionId s _ s' H)
    as (ts & fin & _ & _ & _ & Hfin).
  destruct Hfin as [(_ & _ & Hv) | [(_ & Hr & t0 & k & Hk & _) | (_ & Hr & _)]].
  - destruct Hv as [[Hv _] | [[_ [reason Hv]] | [_ [e0 Hv]]]]; simpl in Hv;
      try discriminate.
    now apply detection_complete_iff.
  - inversion Hr as [[E1 E2]]. unfold ctx_Err in E2. rewrite Hk in E2. discriminate.
  - inversion Hr.
Qed.

Lemma DetectDrift_error_no_result (fuel : nat) (stackName : string) (s : St Remote)
  (x : option DriftResult.t) (e : error) (s' : St Remote) :
  DetectDrift env fuel stackName s = Ret (x, Some e) s' -> x = None.
Proof.
  rewrite DetectDrift_steps.
  destruct (answer (DescribeStacks (cfnClient env) stackName) s);
    [|intros H; now inversion H].
  destruct (answer (DetectStackDrift (cfnClient env) stackName) _);
    [|intros H; now inversion H].
  destruct (waitForDriftDetection env fuel _ _) as [[status [e1|]] s3 | s3 | s3];
    try discriminate; [intros H; now inversion H|].
  destruct (negb _); [intros H; now inversion H|].
  rewrite getDriftResults_steps.
  destruct (answer (DescribeStacks (cfnClient env) stackName) s3) as [o|];
    [|intros H; now inversion H].
  destruct (cloudformation.Stacks o) as [|stack0 l]; [intros H; now inversion H|].
  destruct (types.DriftInformation stack0); [|discriminate].
  destruct (answer (DescribeStackResourceDrifts _ _) _); intros H; now inversion H.
Qed.

(** [Deploy] and [DetectDrift] return an outcome or an error and never both,
    so that the batches can use the outcome whenever there is no error:
    [DeployAll] never panics. *)
Theorem outcome_or_error :
  (forall fuel stackName s x e s',
      Deploy env fuel stackName s = Ret (x, e) s' -> (x = None <-> e <> None)) /\
  (forall fuel stackName s x e s',
      DetectDrift env fuel stackName s = Ret (x, e) s' -> (x = None <-> e <> None)) /\
  (forall fuel stacks s s', DeployAll env fuel stacks s <> Panic s').
Proof.
  split; [|split].
  - intros fuel stackName s x [e|] s' H.
    + rewrite (Deploy_error_no_result fuel stackName s x e s' H). split; congruence.
    + destruct (Deploy_ok _ env fuel stackName s x s' H) as (result & -> & _).
      split; congruence.
  - intros fuel stackName s x [e|] s' H.
    + rewrite (DetectDrift_error_no_result fuel stackName s x e s' H). split; congruence.
    + destruct (DetectDrift_ok _ env fuel stackName s x s' H) as (result & -> & _).
      split; congruence.
  - intros fuel stacks. unfold DeployAll. generalize (@Nil DeployResult.t).
    induction stacks as [|a stacks IH]; intros acc s s'; simpl; [discriminate|].
    unfold bind.
    destruct (Deploy env fuel a s) as [[x [e|]] s1 | s1 | s1] eqn:Ed; simpl;
      try discriminate.
    + destruct (Deploy_ok _ env fuel a s x s1 Ed) as (result & -> & _). apply IH.
    + exfalso. exact (Deploy_no_panic fuel a s s1 Ed).
Qed.

(** [DetectDrift] takes a describe request that fails, whatever the failure,
    for a stack that does not exist: it returns that error, in which the
    failure itself is lost, after this one request, and starts no detection.
    A batch that starts with such a stack returns no outcome. *)
Theorem DetectDrift_of_missing_stack (fuel : nat) (stackName : string) (rest : list string)
  (s : St Remote) (e : error) :
  answer (DescribeStacks (cfnClient env) stackName) s = Err e ->
  let s1 := after (CallDescribeStacks stackName) (DescribeStacks (cfnClient env) stackName) s in
  let err := Errorf ("stack " ^^ stackName ^^ " does not exist") in
  let batch_err := ErrorfW ("failed to detect drift for stack " ^^ stackName ^^ ": ") err in
  DetectDrift env fuel stackName s = Ret (None, Some err) s1 /\
  trace s1 = trace s ++ [EvCall (CallDescribeStacks stackName) (now s)] /\
  DetectDriftAll env fuel (stackName :: rest) s = Ret (Nil, Some batch_err) s1 /\
  Error batch_err =
  "failed to detect drift for stack " ^^ stackName ^^ ": stack " ^^ stackName ^^
  " does not exist".
Proof.
  intros He s1 err batch_err.
  assert (Hd : DetectDrift env fuel stackName s = Ret (None, Some err) s1).
  { rewrite DetectDrift_steps, He. reflexivity. }
  split; [exact Hd|]. split; [reflexivity|]. split.
  - unfold DetectDriftAll. simpl. unfold bind. rewrite Hd. reflexivity.
  - unfold batch_err, err. simpl. now rewrite !append_assoc.
Qed.

(** [DetectDrift] never returns its error "drift detection failed with
    status": a wait for drift detection that returns no error has returned
    DETECTION_COMPLETE, so the check of the status after the wait never
    fails. *)
Theorem DetectDrift_status_check_is_dead :
  (forall fuel driftDetectionId s status s',
      waitForDriftDetection env fuel driftDetectionId s = Ret (status, None) s' ->
      status = "DETECTION_COMPLETE") /\
  (forall fuel stackName s x err s',
      DetectDrift env fuel stackName s = Ret (x, Some err) s' ->
      forall status, err <> Errorf ("drift detection failed with status: " ^^ status)).
Proof.
  split; [exact waitForDriftDetection_ok|].
  intros fuel stackName s x err s'. rewrite DetectDrift_steps.
  destruct (answer (DescribeStacks (cfnClient env) stackName) s).
  2:{ intros H status. inversion H; subst. intros E. simpl in E. discriminate. }
  destruct (answer (DetectStackDrift (cfnClient env) stackName) _) as [detectOutput | e0].
  2:{ intros H status. inversion H; subst. discriminate. }
  destruct (waitForDriftDetection env fuel _ _) as [[st [e1|]] s3 | s3 | s3] eqn:Ew;
    try discriminate.
  - intros H status. inversion H; subst. intros E.
    destruct (waitForDriftDetection_run _ env fuel _ _ _ s' Ew)
      as (ts & fin & _ & _ & _ & Hfin).
    destruct Hfin as [(_ & _ & Hv) | [(_ & Hr & t0 & k & Hk & _) | (_ & Hr & _)]].
    + destruct Hv as [[_ Hv] | [[_ [reason Hv]] | [_ [e0 Hv]]]]; simpl in Hv;
        rewrite E in Hv; discriminate.
    + inversion Hr as [[E1 E2]]. unfold ctx_Err in E2. rewrite Hk in E2.
      rewrite E in E2. discriminate.
    + rewrite E in Hr. inversion Hr.
  - rewrite (waitForDriftDetection_ok fuel _ _ st s3 Ew). simpl.
    rewrite getDriftResults_steps.
    destruct (answer (DescribeStacks (cfnClient env) stackName) s3) as [o|].
    2:{ intros H status. inversion H; subst. discriminate. }
    destruct (cloudformation.Stacks o) as [|stack0 l].
    { intros H status. inversion H; subst. intros E. simpl in E. discriminate. }
    destruct (types.DriftInformation stack0); [|discriminate].
    destruct (answer (DescribeStackResourceDrifts _ _) _);
      intros H status; inversion H; subst; discriminate.
Qed.

(** [getDriftResults] panics exactly when the describe request succeeds with
    a first stack that carries no drift information: it reads the drift
    status through the nil pointer.  It has then issued its describe request
    and not the request for the resource drifts.  This is the only panic of
    [DetectDrift]. *)
Theorem getDriftResults_without_drift_information (stackName : string) (s : St Remote) :
  ((exists s', getDriftResults env stackName s = Panic s') <->
   (exists describeOutput stack0 rest,
       answer (DescribeStacks (cfnClient env) stackName) s = Ok describeOutput /\
       cloudformation.Stacks describeOutput = stack0 :: rest /\
       types.DriftInformation stack0 = None)) /\
  (forall s',
      getDriftResults env stackName s = Panic s' ->
      s' = after (CallDescribeStacks stackName) (DescribeStacks (cfnClient env) stackName) s) /\
  (forall fuel s',
      DetectDrift env fuel stackName s = Panic s' ->
      exists s3, getDriftResults env stackName s3 = Panic s').
Proof.
  split; [|split].
  - rewrite getDriftResults_steps. split.
    + intros [s' H].
      destruct (answer (DescribeStacks (cfnClient env) stackName) s) as [o|];
        [|discriminate].
      destruct (cloudformation.Stacks o) as [|stack0 l] eqn:Es; [discriminate|].
      destruct (types.DriftInformation stack0) eqn:Ei; [discriminate|].
      exists o, stack0, l. auto.
    + intros (o & stack0 & l & -> & -> & ->). eexists. reflexivity.
  - intros s'. rewrite getDriftResults_steps.
    destruct (answer (DescribeStacks (cfnClient env) stackName) s) as [o|];
      [|discriminate].
    destruct (cloudformation.Stacks o) as [|stack0 l]; [discriminate|].
    destruct (types.DriftInformation stack0); [discriminate|].
    intros H. now inversion H.
  - intros fuel s'. rewrite DetectDrift_steps.
    destruct (answer (DescribeStacks (cfnClient env) stackName) s); [|discriminate].
    destruct (answer (DetectStackDrift (cfnClient env) stackName) _); [|discriminate].
    destruct (waitForDriftDetection env fuel _ _) as [[st [e1|]] s3 | s3 | s3] eqn:Ew;
      try discriminate.
    + destruct (negb _); [discriminate|]. intros H. exists s3. exact H.
    + intros _. exfalso. exact (waitForDriftDetection_no_panic fuel _ _ s3 Ew).
Qed.


(** ** How long the waits last *)

Lemma select_no_later (tk : Ticker) (timeout : Z) (s : St Remote) (c : Case) (tk' : Ticker)
  (s1 : St Remote) :
  select env tk timeout s = Ret (c, tk') s1 -> now s1 <= Z.max (now s) timeout.
Proof.
  unfold select. intros H.
  assert (E : now s1 = match ready env (ticker_at tk (now s)) timeout (now s) with
                       | [] => wake_time env (ticker_at tk (now s)) timeout
                       | _ => now s
                       end) by (inversion H; reflexivity).
  rewrite E. clear E H.
  destruct (ready env (ticker_at tk (now s)) timeout (now s)); [|lia].
  unfold wake_time. destruct (ctx_done env) as [[c0 k]|]; lia.
Qed.

(** A wait whose queries are answered within one interval [d] is over before
    its timeout has been passed by [d]. *)
Lemma poll_loop_prompt_ends (timeout_err : error)
  (poll : M Remote (option (string * option error))) (timeout d : Z) :
  answers_within d poll -> 0 < d ->
  forall fuel tk s r s',
    armed tk s -> period tk = d -> now s < timeout + d ->
    poll_loop env timeout_err poll fuel tk timeout s = Ret r s' ->
    now s' < timeout + d.
Proof.
  intros Hprompt Hd fuel tk s r s' Ha Hp Hn.
  apply (poll_loop_rule Remote env timeout_err poll timeout
           (fun tk s => armed tk s /\ period tk = d /\ now s < timeout + d)
           (fun _ s' => now s' < timeout + d)); [|auto].
  clear fuel tk s r s' Ha Hp Hn.
  intros tk s c tk' s1 (Ha & Hp & Hn) Hsel.
  destruct c.
  - pose proof (select_no_later tk timeout s _ _ _ Hsel). lia.
  - pose proof (select_no_later tk timeout s _ _ _ Hsel). lia.
  - destruct (select_armed_tick Remote env tk timeout s tk' s1 Ha Hsel) as (-> & Hle & ->).
    intros v s2 Hpoll. pose proof (Hprompt _ _ _ Hpoll) as Hlat. simpl in Hlat.
    destruct v as [r|]; [lia|].
    repeat split; simpl; try lia; auto.
Qed.

Lemma ticks_from_bound (t1 d timeout : Z) (n : nat) :
  Forall (fun t => t <= timeout) (ticks_from t1 d n) ->
  Z.of_nat n * d <= Z.max 0 (timeout - t1 + d).
Proof.
  destruct n as [|n]; [lia|].
  rewrite ticks_from_S. intros H. apply Forall_app in H. destruct H as [_ H].
  inversion H; subst. rewrite Nat2Z.inj_succ, Z.mul_succ_l. lia.
Qed.

Lemma length_ticks_from (t1 d : Z) (n : nat) : List.length (ticks_from t1 d n) = n.
Proof. unfold ticks_from. now rewrite length_map, length_seq. Qed.

(** When every status query is answered within one interval, [waitForStack]
    is over less than 30 minutes and 10 seconds after it began and has
    issued at most 180 queries, and [waitForDriftDetection] is over less than
    10 minutes and 5 seconds after it began and has issued at most 120. *)
Theorem waits_end_in_time :
  (forall fuel stackName s r s',
      (forall t rem,
          Z.of_N (fst (fst (DescribeStacks (cfnClient env) stackName t rem))) < 10 * Second) ->
      waitForStack env fuel stackName s = Ret r s' ->
      now s' < now s + 30 * Minute + 10 * Second /\
      exists added,
        trace s' = trace s ++ added /\
        (List.length (requests added) <= 180)%nat) /\
  (forall fuel driftDetectionId s r s',
      (forall t rem,
          Z.of_N (fst (fst (DescribeStackDriftDetectionStatus (cfnClient env) driftDetectionId
                              t rem))) < 5 * Second) ->
      waitForDriftDetection env fuel driftDetectionId s = Ret r s' ->
      now s' < now s + 10 * Minute + 5 * Second /\
      exists added,
        trace s' = trace s ++ added /\
        (List.length (requests added) <= 120)%nat).
Proof.
  pose proof Second_pos as HS. split.
  - intros fuel stackName s r s' Hd H. unfold waitForStack in H.
    rewrite waitForStack_loop_poll_loop in H. split.
    + apply (poll_loop_prompt_ends _ _ _ (10 * Second)
               (stack_poll_answers_within Remote env stackName _ Hd)) in H;
        [exact H | lia | apply waitForStack_armed | reflexivity |].
      unfold waitForStack_timeout, After. rewrite Minute_Second. lia.
    + apply (poll_loop_prompt Remote env _ _ (CallDescribeStacks stackName) _ (10 * Second)
               (stack_poll_queries Remote env stackName)
               (stack_poll_answers_within Remote env stackName _ Hd) _ _ _ _ _
               (waitForStack_armed Remote s) eq_refl) in H.
      destruct H as (n & fin & Htr & Hts & Hfin).
      eexists. split; [exact Htr|].
      rewrite requests_app, requests_polled, (requests_fin fin (now s') Hfin), app_nil_r.
      rewrite repeat_length, length_ticks_from.
      apply ticks_from_bound in Hts.
      unfold waitForStack_timeout, After, waitForStack_ticker, NewTicker in Hts.
      cbn [next_fire] in Hts. rewrite Minute_Second in Hts. nia.
  - intros fuel driftDetectionId s r s' Hd H. unfold waitForDriftDetection in H.
    rewrite waitForDriftDetection_loop_poll_loop in H. split.
    + apply (poll_loop_prompt_ends _ _ _ (5 * Second)
               (drift_poll_answers_within Remote env driftDetectionId _ Hd)) in H;
        [exact H | lia | apply waitForDriftDetection_armed | reflexivity |].
      unfold waitForDriftDetection_timeout, After. rewrite Minute_Second. lia.
    + apply (poll_loop_prompt Remote env _ _
               (CallDescribeStackDriftDetectionStatus driftDetectionId) _ (5 * Second)
               (drift_poll_queries Remote env driftDetectionId)
               (drift_poll_answers_within Remote env driftDetectionId _ Hd) _ _ _ _ _
               (waitForDriftDetection_armed Remote s) eq_refl) in H.
      destruct H as (n & fin & Htr & Hts & Hfin).
      eexists. split; [exact Htr|].
      rewrite requests_app, requests_polled, (requests_fin fin (now s') Hfin), app_nil_r.
      rewrite repeat_length, length_ticks_from.
      apply ticks_from_bound in Hts.
      unfold waitForDriftDetection_timeout, After, waitForDriftDetection_ticker, NewTicker in Hts.
      cbn [next_fire] in Hts. rewrite Minute_Second in Hts. nia.
Qed.

(** ** Status queries that fail *)

Lemma getStackStatus_answer (stackName : string) (s : St Remote) :
  getStackStatus env stackName s =
  Ret (match answer (DescribeStacks (cfnClient env) stackName) s with
       | Err e => ("", Some (ErrorfW "failed to describe stack: " e))
       | Ok output =>
           match cloudformation.Stacks output with
           | [] => ("", Some (Errorf ("stack " ^^ stackName ^^ " not found")))
           | stack0 :: _ => (types.StackStatus stack0, None)
           end
       end)
      (after (CallDescribeStacks stackName) (DescribeStacks (cfnClient env) stackName) s).
Proof.
  unfold getStackStatus, bind. rewrite call_answer.
  destruct (answer (DescribeStacks (cfnClient env) stackName) s) as [output | e];
    [|reflexivity].
  destruct (cloudformation.Stacks output); reflexivity.
Qed.

(** [getStackStatus] reports the status of the first stack of the answer; a
    describe request that fails, or one that succeeds with no stacks, is an
    error.  Neither wait retries a status query: a query that fails at a tick
    ends the wait with its error and without a status, whatever becomes of
    the stack afterwards. *)
Theorem status_query_failure_ends_the_wait (stackName : string) :
  (forall s,
      getStackStatus env stackName s =
      Ret (match answer (DescribeStacks (cfnClient env) stackName) s with
           | Err e => ("", Some (ErrorfW "failed to describe stack: " e))
           | Ok output =>
               match cloudformation.Stacks output with
               | [] => ("", Some (Errorf ("stack " ^^ stackName ^^ " not found")))
               | stack0 :: _ => (types.StackStatus stack0, None)
               end
           end)
          (after (CallDescribeStacks stackName) (DescribeStacks (cfnClient env) stackName) s)) /\
  (forall fuel tk timeout s tk1 s1 status err s2,
      select env tk timeout s = Ret (Tick, tk1) s1 ->
      getStackStatus env stackName s1 = Ret (status, Some err) s2 ->
      waitForStack_loop env (S fuel) stackName tk timeout s = Ret ("", Some err) s2) /\
  (forall fuel driftDetectionId tk timeout s tk1 s1 e,
      select env tk timeout s = Ret (Tick, tk1) s1 ->
      answer (DescribeStackDriftDetectionStatus (cfnClient env) driftDetectionId) s1 = Err e ->
      waitForDriftDetection_loop env (S fuel) driftDetectionId tk timeout s =
      Ret ("", Some (ErrorfW "failed to get drift detection status: " e))
          (after (CallDescribeStackDriftDetectionStatus driftDetectionId)
             (DescribeStackDriftDetectionStatus (cfnClient env) driftDetectionId) s1)).
Proof.
  split; [exact (getStackStatus_answer stackName)|]. split.
  - intros fuel tk timeout s tk1 s1 status err s2 Hsel Hq.
    simpl. unfold bind at 1. rewrite Hsel. simpl.
    unfold bind at 1. rewrite Hq. reflexivity.
  - intros fuel driftDetectionId tk timeout s tk1 s1 e Hsel Hq.
    simpl. unfold bind at 1. rewrite Hsel. simpl.
    unfold bind at 1. rewrite call_answer, Hq. reflexivity.
Qed.

(** ** The batch returns *)

Lemma waitForStack_returns (fuel : nat) (stackName : string) (s : St Remote) :
  (181 <= fuel)%nat ->
  (forall t rem,
      Z.of_N (fst (fst (DescribeStacks (cfnClient env) stackName t rem))) < 10 * Second) ->
  exists r s', waitForStack env fuel stackName s = Ret r s'.
Proof.
  intros Hfuel Hd. unfold waitForStack. pose proof Second_pos.
  destruct (poll_loop_prompt_returns Remote env
              (Errorf ("timeout waiting for stack " ^^ stackName))
              (stack_poll env stackName) (CallDescribeStacks stackName)
              (waitForStack_timeout (now s)) (10 * Second)
              (stack_poll_queries Remote env stackName)
              (stack_poll_answers_within Remote env stackName _ Hd)
              fuel (waitForStack_ticker (now s)) s
              (waitForStack_armed Remote s) eq_refl) as (r & s' & E).
  - lia.
  - unfold waitForStack_timeout, After, waitForStack_ticker, NewTicker.
    cbn [next_fire]. rewrite Minute_Second. nia.
  - exists r, s'. rewrite waitForStack_loop_poll_loop. exact E.
Qed.

Lemma Deploy_returns (fuel : nat) (stackName : string) (s : St Remote) :
  (181 <= fuel)%nat ->
  (forall t rem,
      Z.of_N (fst (fst (DescribeStacks (cfnClient env) stackName t rem))) < 10 * Second) ->
  exists r s', Deploy env fuel stackName s = Ret r s'.
Proof.
  intros Hfuel Hd.
  destruct (GetTemplateBody env stackName) as [body [e|]] eqn:Ht.
  - rewrite (Deploy_template_error fuel stackName body e s Ht). eauto.
  - rewrite (Deploy_steps fuel stackName body s Ht).
    set (s1 := after _ _ s).
    assert (Hsub : exists x s2,
               (match answer (DescribeStacks (cfnClient env) stackName) s with
                | Ok _ => updateStack env stackName body
                | Err _ => createStack env stackName body
                end) s1 = Ret x s2).
    { destruct (answer (DescribeStacks (cfnClient env) stackName) s).
      - rewrite updateStack_answer. eauto.
      - rewrite createStack_answer. eauto. }
    destruct Hsub as ([stackID [e|]] & s2 & ->); [eauto|].
    destruct (waitForStack_returns fuel stackName s2 Hfuel Hd) as ([status [e|]] & s3 & ->);
      [eauto|].
    rewrite getStackOutputs_answer.
    destruct (match answer (DescribeStacks (cfnClient env) stackName) s3 with
              | Ok output => _
              | Err e => _
              end) as [outputs [e|]]; eauto.
Qed.

(** Against a remote system that answers every describe request in less than
    10 seconds, [DeployAll] returns on every list of stacks, with at most 181
    iterations of the wait for each: it neither panics nor waits forever. *)
Theorem DeployAll_returns (fuel : nat) (stacks : list string) (s : St Remote) :
  (181 <= fuel)%nat ->
  (forall stackName t rem,
      Z.of_N (fst (fst (DescribeStacks (cfnClient env) stackName t rem))) < 10 * Second) ->
  exists r s', DeployAll env fuel stacks s = Ret r s'.
Proof.
  intros Hfuel Hd. unfold DeployAll. generalize (@Nil DeployResult.t). revert s.
  induction stacks as [|a stacks IH]; intros s acc; simpl; [unfold ret; eauto|].
  unfold bind.
  destruct (Deploy_returns fuel a s Hfuel (Hd a)) as ([x [e|]] & s1 & E); rewrite E; simpl.
  - unfold ret. eauto.
  - destruct (Deploy_ok _ env fuel a s x s1 E) as (result & -> & _). apply IH.
Qed.

End Workflows.

(** * The workflows on the scenarios *)

(** A batch whose first template is missing. *)
Lemma Deploy_without_template_witness :
  let err := ErrorfW "failed to read template for stack Net: "
               (External "no such file or directory") in
  Deploy Example.no_template 5 "Net" Example.start = Ret (None, Some err) Example.start /\
  DeployAll Example.no_template 5 ["Net"; "Web"] Example.start =
  Ret (Nil, Some (ErrorfW "failed to deploy stack Net: " err)) Example.start /\
  Error (ErrorfW "failed to deploy stack Net: " err) =
  "failed to deploy stack Net: failed to read template for stack Net: no such file or directory".
Proof.
  exact (Deploy_without_template nat Example.no_template 5 "Net" ["Web"] Example.start
           (External "no such file or directory") eq_refl).
Defined.


(** An update that the remote system rejects. *)
Lemma Deploy_rejected_request_witness :
  Deploy Example.rejected 5 "Net" Example.start =
  Ret (None,
       Some (ErrorfW "failed to update stack: "
               (External "ValidationError: No updates are to be performed.")))
      (after (CallUpdateStack (updateStackInput "Net" "{}"))
         (UpdateStack (cfnClient Example.rejected) (updateStackInput "Net" "{}"))
         (after (CallDescribeStacks "Net") (DescribeStacks (cfnClient Example.rejected) "Net")
            Example.start)).
Proof.
  exact (proj1 (Deploy_rejected_request nat Example.rejected 5 "Net" "{}" Example.start
                  (External "ValidationError: No updates are to be performed.") eq_refl)
           _ eq_refl eq_refl).
Defined.

(** The outcome of the deployment of a stack that did not exist. *)
Lemma Deploy_outcome_witness :
  exists result s',
    Deploy Example.creating 5 "Net" Example.start = Ret (Some result, None) s' /\
    DeployResult.StackName result = "Net" /\
    (DeployResult.Status result = "CREATE_COMPLETE" \/
     DeployResult.Status result = "UPDATE_COMPLETE").
Proof.
  assert (H : exists result s',
             Deploy Example.creating 5 "Net" Example.start = Ret (Some result, None) s')
    by (do 2 eexists; vm_compute; reflexivity).
  destruct H as (result & s' & H).
  destruct (Deploy_outcome nat Example.creating 5 "Net" Example.start result s' H)
    as (H1 & H2 & _).
  exists result, s'. split; [exact H|]. split; [exact H1 | exact H2].
Defined.

(** Drift detection when the remote system cannot be reached. *)
Lemma DetectDrift_of_missing_stack_witness :
  DetectDrift Example.unreachable 5 "Net" Example.start =
  Ret (None, Some (Errorf "stack Net does not exist"))
      (after (CallDescribeStacks "Net") (DescribeStacks (cfnClient Example.unreachable) "Net")
         Example.start).
Proof.
  exact (proj1 (DetectDrift_of_missing_stack nat Example.unreachable 5 "Net" [] Example.start
                  (External "RequestError: send request failed") eq_refl)).
Defined.

(** A stack that is described without drift information. *)
Lemma getDriftResults_without_drift_information_witness :
  exists s', getDriftResults Example.no_drift_information "Net" Example.start = Panic s'.
Proof.
  apply (proj1 (getDriftResults_without_drift_information nat Example.no_drift_information
                  "Net" Example.start)).
  do 3 eexists. split; [reflexivity|]. split; reflexivity.
Defined.


(** A wait whose queries are answered in one second. *)
Lemma waits_end_in_time_witness :
  let s' := final (waitForStack Example.progressing 5 "Net" Example.start) in
  waitForStack Example.progressing 5 "Net" Example.start = Ret ("CREATE_COMPLETE", None) s' /\
  now s' < now Example.start + 30 * Minute + 10 * Second.
Proof.
  intros s'.
  assert (H : waitForStack Example.progressing 5 "Net" Example.start =
              Ret ("CREATE_COMPLETE", None) s') by (vm_compute; reflexivity).
  split; [exact H|].
  refine (proj1 (proj1 (waits_end_in_time nat Example.progressing) 5%nat "Net" Example.start
                   _ s' _ H)).
  intros t [|[|rem]]; reflexivity.
Defined.

(** A stack that vanishes while it is waited for. *)
Lemma status_query_failure_ends_the_wait_witness :
  let s1 := selected (Example.after_requests 1) Tick (10 * Second) in
  let s2 := after (CallDescribeStacks "Net") (DescribeStacks (cfnClient Example.vanishing) "Net")
              s1 in
  waitForStack_loop Example.vanishing 1 "Net" (waitForStack_ticker 0) (waitForStack_timeout 0)
    (Example.after_requests 1) =
  Ret ("", Some (Errorf "stack Net not found")) s2.
Proof.
  intros s1 s2.
  refine (proj1 (proj2 (status_query_failure_ends_the_wait nat Example.vanishing "Net"))
            0%nat (waitForStack_ticker 0) (waitForStack_timeout 0) (Example.after_requests 1)
            {| C := false; next_fire := 20 * Second; period := 10 * Second |} s1
            "" (Errorf "stack Net not found") s2 _ _); vm_compute; reflexivity.
Defined.

(** A batch against a remote system that answers in one second. *)
Lemma DeployAll_returns_witness :
  exists r s', DeployAll Example.progressing 181 ["Net"; "Web"] Example.start = Ret r s'.
Proof.
  apply (DeployAll_returns nat Example.progressing 181 ["Net"; "Web"] Example.start).
  - apply le_n.
  - intros stackName t [|[|rem]]; reflexivity.
Defined.

(** * Properties of the rest of the tool *)

(** ** Strings *)

Lemma length_append (a b : string) :
  String.length (a ^^ b) = (String.length a + String.length b)%nat.
Proof. induction a as [|x a IH]; simpl; [reflexivity | now rewrite IH]. Qed.

Lemma substring_all (s : string) : String.substring 0 (String.length s) s = s.
Proof. induction s as [|x s IH]; simpl; [reflexivity | now rewrite IH]. Qed.

Lemma substring_0_append (a b : string) :
  String.substring 0 (String.length a) (a ^^ b) = a.
Proof.
  induction a as [|x a IH]; simpl.
  - destruct b; reflexivity.
  - now rewrite IH.
Qed.

Lemma substring_skip_append (a b : string) (n : nat) :
  String.substring (String.length a) n (a ^^ b) = String.substring 0 n b.
Proof. induction a as [|x a IH]; simpl; [reflexivity | exact IH]. Qed.

Lemma slice_to_append (a b : string) : slice_to (a ^^ b) (String.length a) = a.
Proof. apply substring_0_append. Qed.

Lemma slice_from_append (a b : string) : slice_from (a ^^ b) (String.length a) = b.
Proof.
  unfold slice_from. rewrite substring_skip_append, length_append.
  replace (String.length a + String.length b - String.length a)%nat
    with (String.length b) by lia.
  apply substring_all.
Qed.

Lemma HasSuffix_append (a b : string) : HasSuffix (a ^^ b) b = true.
Proof.
  unfold HasSuffix. rewrite length_append.
  replace (String.length a + String.length b - String.length b)%nat
    with (String.length a) by lia.
  rewrite slice_from_append, String.eqb_refl, andb_true_r.
  apply Nat.leb_le. lia.
Qed.

(** A string that has a suffix is what is before it and the suffix. *)
Lemma HasSuffix_split (s suffix : string) :
  HasSuffix s suffix = true ->
  s = slice_to s (String.length s - String.length suffix) ^^ suffix.
Proof.
  unfold HasSuffix. intros H. apply andb_true_iff in H. destruct H as [Hle He].
  apply Nat.leb_le in Hle. apply String.eqb_eq in He.
  remember (String.length s - String.length suffix)%nat as n eqn:En.
  assert (Hn : (n <= String.length s)%nat) by lia.
  clear En Hle. rewrite <- He. clear He. unfold slice_to, slice_from.
  revert n Hn. induction s as [|x s IH]; intros n Hn.
  - destruct n; [reflexivity | simpl in Hn; lia].
  - destruct n as [|n].
    + simpl. now rewrite substring_all.
    + simpl. simpl in Hn. f_equal. apply IH. lia.
Qed.

Lemma TrimSuffix_append (a b : string) : TrimSuffix (a ^^ b) b = a.
Proof.
  unfold TrimSuffix. rewrite HasSuffix_append, length_append.
  replace (String.length a + String.length b - String.length b)%nat
    with (String.length a) by lia.
  apply slice_to_append.
Qed.

(** [TrimSuffix] undone: the suffix put back gives the string when it had the
    suffix. *)
Lemma TrimSuffix_restore (s suffix : string) :
  HasSuffix s suffix = true -> TrimSuffix s suffix ^^ suffix = s.
Proof.
  intros H. unfold TrimSuffix. rewrite H. symmetry. now apply HasSuffix_split.
Qed.

Section ToolProperties.

Variable World : Type.
Variable Remote : Type.
Variable Config : Type.
Variable host : Host World Remote Config.

(** ** Project types and dependencies *)

(** The marker files [DetectProjectType] looks for, [*.csproj] apart. *)
Lemma DetectProjectType_no_marker (s : Synthesizer) (m : Machine World Remote) :
  (forall name,
      In name ["package.json"; "requirements.txt"; "setup.py"; "go.mod"; "pom.xml"] ->
      os_Stat host (filepath_Join host [projectPath s; name]) (world m) <> None) ->
  DetectProjectType host s m =
  (if (0 <? List.length
              (fst (filepath_Glob host (filepath_Join host [projectPath s; "*.csproj"])
                      (world m))))%nat
   then ("csharp", None)
   else ("", Some (Errorf "unable to detect CDK project type")), m).
Proof.
  intros H. unfold DetectProjectType, bind_L, Stat, look.
  destruct (os_Stat host (filepath_Join host [projectPath s; "package.json"]) (world m)) eqn:E1;
    [|exfalso; apply (H "package.json"); simpl; auto].
  destruct (os_Stat host (filepath_Join host [projectPath s; "requirements.txt"]) (world m))
    eqn:E2; [|exfalso; apply (H "requirements.txt"); simpl; auto].
  destruct (os_Stat host (filepath_Join host [projectPath s; "setup.py"]) (world m)) eqn:E3;
    [|exfalso; apply (H "setup.py"); simpl; auto].
  destruct (os_Stat host (filepath_Join host [projectPath s; "go.mod"]) (world m)) eqn:E4;
    [|exfalso; apply (H "go.mod"); simpl; auto].
  destruct (os_Stat host (filepath_Join host [projectPath s; "pom.xml"]) (world m)) eqn:E5;
    [|exfalso; apply (H "pom.xml"); simpl; auto 6].
  destruct (0 <? _)%nat; reflexivity.
Qed.

(** A project that is recognised by a [*.csproj] file only is detected as
    C#, and [Initialize] then fails on it: [InstallDependencies] does not
    support the type that [DetectProjectType] reports.  Nothing is run. *)
Theorem Initialize_rejects_csharp (c : CDK Remote) (m : Machine World Remote) :
  (forall name,
      In name ["package.json"; "requirements.txt"; "setup.py"; "go.mod"; "pom.xml"] ->
      os_Stat host (filepath_Join host [projectPath (cdk_synthesizer c); name]) (world m) <>
      None) ->
  fst (filepath_Glob host (filepath_Join host [projectPath (cdk_synthesizer c); "*.csproj"])
         (world m)) <> [] ->
  DetectProjectType host (cdk_synthesizer c) m = (("csharp", None), m) /\
  CDK_Initialize host c m =
  (Some (ErrorfW "failed to install dependencies: "
           (Errorf "unsupported project type: csharp")), m).
Proof.
  intros Hno Hcs.
  assert (Hd : DetectProjectType host (cdk_synthesizer c) m = (("csharp", None), m)).
  { rewrite (DetectProjectType_no_marker _ m Hno).
    destruct (fst (filepath_Glob host _ (world m))); [congruence | reflexivity]. }
  split; [exact Hd|].
  unfold CDK_Initialize, bind_L. rewrite Hd. reflexivity.
Qed.

(** A project with a [package.json] is a TypeScript project whatever else it
    holds.  [Initialize] runs [npm install] in it, and nothing else, when
    [node_modules] does not exist, and runs nothing when it exists or cannot
    be examined; an installation that fails is reported with the prefix of
    [InstallDependencies] and that of [Initialize], which are the same. *)
Theorem Initialize_of_a_typescript_project (c : CDK Remote) (m : Machine World Remote) :
  let dir := projectPath (cdk_synthesizer c) in
  let npm := exec.set_Dir (exec.Command "npm" ["install"]) dir in
  os_Stat host (filepath_Join host [dir; "package.json"]) (world m) = None ->
  DetectProjectType host (cdk_synthesizer c) m = (("typescript", None), m) /\
  CDK_Initialize host c m =
  if IsNotExist host (os_Stat host (filepath_Join host [dir; "node_modules"]) (world m))
  then (match fst (exec_Run host npm (world m)) with
        | Some err =>
            Some (ErrorfW "failed to install dependencies: "
                    (ErrorfW "failed to install dependencies: " err))
        | None => None
        end,
        {| world := snd (exec_Run host npm (world m));
           done := done m ++ [ActRun npm];
           cloud := cloud m |})
  else (None, m).
Proof.
  intros dir npm Hp.
  assert (Hd : DetectProjectType host (cdk_synthesizer c) m = (("typescript", None), m)).
  { unfold DetectProjectType, bind_L, Stat, look. fold dir. rewrite Hp. reflexivity. }
  split; [exact Hd|].
  unfold CDK_Initialize, bind_L. rewrite Hd. simpl.
  unfold InstallDependencies. simpl. unfold bind_L, Stat, look. fold dir.
  destruct (IsNotExist host _); [|reflexivity].
  unfold install_with, bind_L, Run, act. fold dir. fold npm.
  destruct (exec_Run host npm (world m)) as [[err|] w]; reflexivity.
Qed.

(** ** The Python version check *)

Lemma required_in_machine (name : string) (prepare : string -> string) (pattern : string)
  (m : Machine World Remote) :
  snd (required_in host name prepare pattern m) = m.
Proof.
  unfold required_in, bind_L, look.
  destruct (os_ReadFile host name (world m)); [|reflexivity].
  destruct (_ =? 3)%nat; reflexivity.
Qed.

Lemma required_in_unreadable (name : string) (prepare : string -> string) (pattern : string)
  (m : Machine World Remote) (e : error) :
  os_ReadFile host name (world m) = Err e ->
  required_in host name prepare pattern m = (None, m).
Proof. intros H. unfold required_in, bind_L, look. rewrite H. reflexivity. Qed.

Lemma bind_L_read {A B} (x : L World Remote A) (k : A -> L World Remote B)
  (m : Machine World Remote) :
  snd (x m) = m -> bind_L x k m = k (fst (x m)) m.
Proof. unfold bind_L. destruct (x m); simpl; intros ->; reflexivity. Qed.

(** [getRequiredPythonVersion] only reads, and never returns an error. *)
Lemma getRequiredPythonVersion_total (s : Synthesizer) (m : Machine World Remote) :
  exists major minor, getRequiredPythonVersion host s m = ((major, minor, None), m).
Proof.
  unfold getRequiredPythonVersion.
  rewrite bind_L_read by apply required_in_machine.
  destruct (fst _) as [[a b]|]; [do 2 eexists; reflexivity|].
  rewrite bind_L_read by apply required_in_machine.
  destruct (fst _) as [[a b]|]; [do 2 eexists; reflexivity|].
  rewrite bind_L_read by apply required_in_machine.
  destruct (fst _) as [[a b]|]; do 2 eexists; reflexivity.
Qed.

(** The Python version check.  The version a project requires is read
    without an effect and without an error, and is 3.7 when none of
    [.python-version], [setup.py] and [pyproject.toml] can be read.  An
    installed version [major.minor.patch] passes the check exactly when
    [(major, minor)] is not below the required pair in the lexicographic
    order; the patch level plays no part. *)
Theorem python_version_check (s : Synthesizer) :
  (forall m, exists major minor, getRequiredPythonVersion host s m = ((major, minor, None), m)) /\
  (forall m,
      (forall name, In name [".python-version"; "setup.py"; "pyproject.toml"] ->
                    exists e, os_ReadFile host (filepath_Join host [projectPath s; name])
                                (world m) = Err e) ->
      getRequiredPythonVersion host s m = ((3, 7, None), m)) /\
  (forall pythonCmd m major minor patch m1 reqMajor reqMinor,
      getPythonVersion host pythonCmd m = ((major, minor, patch, None), m1) ->
      getRequiredPythonVersion host s m1 = ((reqMajor, reqMinor, None), m1) ->
      snd (checkPythonCompatibility host s pythonCmd m) = m1 /\
      (fst (checkPythonCompatibility host s pythonCmd m) = None <->
       reqMajor < major \/ (major = reqMajor /\ reqMinor <= minor))).
Proof.
  split; [exact (getRequiredPythonVersion_total s)|]. split.
  - intros m H. unfold getRequiredPythonVersion.
    destruct (H ".python-version") as [e1 E1]; [simpl; auto|].
    destruct (H "setup.py") as [e2 E2]; [simpl; auto|].
    destruct (H "pyproject.toml") as [e3 E3]; [simpl; auto|].
    unfold bind_L.
    rewrite (required_in_unreadable _ _ _ m e1 E1).
    rewrite (required_in_unreadable _ _ _ m e2 E2).
    rewrite (required_in_unreadable _ _ _ m e3 E3).
    reflexivity.
  - intros pythonCmd m major minor patch m1 reqMajor reqMinor Hv Hr.
    assert (Hc : exists err,
               checkPythonCompatibility host s pythonCmd m =
               (if (major <? reqMajor) || ((major =? reqMajor) && (minor <? reqMinor))
                then Some err else None, m1)).
    { unfold checkPythonCompatibility. unfold bind_L at 1. rewrite Hv.
      unfold bind_L at 1. rewrite Hr. cbv beta iota.
      destruct ((major <? reqMajor) || ((major =? reqMajor) && (minor <? reqMinor)));
        [eexists; reflexivity | exists (Errorf ""); reflexivity]. }
    destruct Hc as [err ->]. simpl. split; [reflexivity|].
    destruct ((major <? reqMajor) || ((major =? reqMajor) && (minor <? reqMinor))) eqn:E.
    + split; [discriminate|]. intros Hge. exfalso.
      apply orb_true_iff in E. destruct E as [E | E].
      * apply Z.ltb_lt in E. lia.
      * apply andb_true_iff in E. destruct E as [E1 E2].
        apply Z.eqb_eq in E1. apply Z.ltb_lt in E2. lia.
    + split; [intros _ | reflexivity].
      apply orb_false_iff in E. destruct E as [E1 E2].
      apply Z.ltb_ge in E1. apply andb_false_iff in E2.
      destruct E2 as [E2 | E2]; [apply Z.eqb_neq in E2 | apply Z.ltb_ge in E2]; lia.
Qed.

(** ** What is run to install Python dependencies *)

Lemma DetectProjectType_machine (s : Synthesizer) (m : Machine World Remote) :
  snd (DetectProjectType host s m) = m.
Proof.
  unfold DetectProjectType, bind_L, Stat, look.
  repeat match goal with
         | |- context [match os_Stat host ?p (world m) with _ => _ end] =>
             destruct (os_Stat host p (world m))
         end; try reflexivity.
  destruct (0 <? _)%nat; reflexivity.
Qed.





(** ** Synthesis *)

Lemma prefix_empty (s : string) : String.prefix "" s = true.
Proof. destruct s; reflexivity. Qed.

Lemma venv_command_python3 (venvPython rest : string) :
  venv_command venvPython ("python3 " ^^ rest) = venvPython ^^ " " ^^ rest.
Proof.
  unfold venv_command, HasPrefix, slice_from. simpl.
  rewrite prefix_empty, substring_all. reflexivity.
Qed.

Lemma venv_command_python (venvPython rest : string) :
  venv_command venvPython ("python " ^^ rest) = venvPython ^^ " " ^^ rest.
Proof.
  unfold venv_command, HasPrefix, slice_from. simpl.
  rewrite prefix_empty, substring_all. reflexivity.
Qed.

Lemma Run_then_wrap (cmd : exec.Cmd) (msg : string) (m : Machine World Remote) :
  bind_L (Run host cmd)
    (fun err => match err with
                | Some err => unit_L (Some (ErrorfW msg err))
                | None => unit_L None
                end) m =
  (match fst (exec_Run host cmd (world m)) with
   | Some err => Some (ErrorfW msg err)
   | None => None
   end,
   {| world := snd (exec_Run host cmd (world m));
      done := done m ++ [ActRun cmd];
      cloud := cloud m |}).
Proof.
  unfold bind_L, Run, act.
  destruct (exec_Run host cmd (world m)) as [[err|] w]; reflexivity.
Qed.

Lemma Fields_nonempty (appCmd : string) :
  strings_Fields host appCmd <> [] ->
  (List.length (strings_Fields host appCmd) =? 0)%nat = false.
Proof. destruct (strings_Fields host appCmd); [congruence | reflexivity]. Qed.

(** The synthesis of a Python project whose app command begins with
    [python3] or [python] and a space: the interpreter gives way to the one of
    the virtual environment, the rest of the command is kept, and the one
    command that is run, in the directory of the project, is [npx cdk synth]
    with this app command and the output directory, in the environment of
    the process extended by [CDK_OUTDIR], [PATH] and [VIRTUAL_ENV], in this
    order. *)
Theorem runCDKSynth_of_a_python_project (s : Synthesizer) (appCmd rest : string)
  (m : Machine World Remote) :
  appCmd = "python3 " ^^ rest \/ appCmd = "python " ^^ rest ->
  strings_Fields host appCmd <> [] ->
  fst (fst (DetectProjectType host s m)) = "python" ->
  let venvPython := filepath_Join host [projectPath s; ".venv"; "bin"; "python"] in
  let venvBin := filepath_Join host [projectPath s; ".venv"; "bin"] in
  let cmd := {| exec.Args := ["npx"; "cdk"; "synth"; "--app"; venvPython ^^ " " ^^ rest;
                              "--output"; outputDir s];
                exec.Dir := projectPath s;
                exec.Env := Slice (os_Environ host (world m) ++
                                   ["CDK_OUTDIR=" ^^ outputDir s;
                                    "PATH=" ^^ venvBin ^^ ":" ^^ os_Getenv host "PATH" (world m);
                                    "VIRTUAL_ENV=" ^^
                                    filepath_Join host [projectPath s; ".venv"]]) |} in
  runCDKSynth host s appCmd m =
  (match fst (exec_Run host cmd (world m)) with
   | Some err => Some (ErrorfW "CDK synthesis failed: " err)
   | None => None
   end,
   {| world := snd (exec_Run host cmd (world m));
      done := done m ++ [ActRun cmd];
      cloud := cloud m |}).
Proof.
  intros Happ Hf Ht venvPython venvBin cmd.
  assert (Hv : venv_command venvPython appCmd = venvPython ^^ " " ^^ rest).
  { destruct Happ as [-> | ->]; [apply venv_command_python3 | apply venv_command_python]. }
  unfold runCDKSynth. rewrite (Fields_nonempty appCmd Hf).
  unfold bind_L at 1. unfold look at 1.
  rewrite bind_L_read by apply DetectProjectType_machine. rewrite Ht. simpl.
  unfold bind_L at 1. unfold unit_L at 1.
  unfold bind_L at 1. unfold bind_L at 1. unfold look at 1. unfold unit_L at 1.
  fold venvPython. fold venvBin. rewrite Hv. simpl.
  rewrite <- app_assoc.
  exact (Run_then_wrap cmd "CDK synthesis failed: " m).
Qed.

(** The synthesis of a TypeScript project with a [tsconfig.json] whose app
    command does not mention [ts-node]: [npx tsc] is run first and its
    failure is ignored; whatever it returns, [npx cdk synth] is run after it
    with the app command as it is and the output directory, and the result
    of the synthesis is the result of that second command. *)
Theorem runCDKSynth_of_a_typescript_project (s : Synthesizer) (appCmd : string)
  (m : Machine World Remote) :
  strings_Fields host appCmd <> [] ->
  fst (fst (DetectProjectType host s m)) = "typescript" ->
  Contains appCmd "ts-node" = false ->
  os_Stat host (filepath_Join host [projectPath s; "tsconfig.json"]) (world m) = None ->
  let tsc := {| exec.Args := ["npx"; "tsc"]; exec.Dir := projectPath s; exec.Env := Nil |} in
  let cmd := {| exec.Args := ["npx"; "cdk"; "synth"; "--app"; appCmd; "--output"; outputDir s];
                exec.Dir := projectPath s;
                exec.Env := Slice (os_Environ host (world m) ++
                                   ["CDK_OUTDIR=" ^^ outputDir s]) |} in
  let w1 := snd (exec_Run host tsc (world m)) in
  runCDKSynth host s appCmd m =
  (match fst (exec_Run host cmd w1) with
   | Some err => Some (ErrorfW "CDK synthesis failed: " err)
   | None => None
   end,
   {| world := snd (exec_Run host cmd w1);
      done := done m ++ [ActRun tsc; ActRun cmd];
      cloud := cloud m |}).
Proof.
  intros Hf Ht Hc Hs tsc cmd w1.
  unfold runCDKSynth. rewrite (Fields_nonempty appCmd Hf).
  unfold bind_L at 1. unfold look at 1.
  rewrite bind_L_read by apply DetectProjectType_machine. rewrite Ht, Hc. simpl.
  unfold bind_L at 1. unfold bind_L at 1. unfold Stat at 1, look at 1. rewrite Hs.
  change (exec.set_Dir (exec.Command "npx" ["tsc"]) (projectPath s)) with tsc.
  unfold bind_L at 1. unfold Run at 1, act at 1. subst w1.
  destruct (exec_Run host tsc (world m)) as [e0 w]. simpl snd.
  unfold unit_L at 1. unfold bind_L at 1. unfold unit_L at 1.
  rewrite (Run_then_wrap cmd "CDK synthesis failed: ").
  simpl. rewrite <- app_assoc. reflexivity.
Qed.

(** An app command without a field (an empty [app] in [cdk.json], or none) is
    an error of the synthesis, and nothing is run. *)
Theorem Synth_of_an_empty_app_command (s : Synthesizer) (m : Machine World Remote)
  (data : string) (config : CDKConfig) :
  os_ReadFile host (filepath_Join host [projectPath s; "cdk.json"]) (world m) = Ok data ->
  json_Unmarshal host data = Ok config ->
  strings_Fields host (App config) = [] ->
  runCDKSynth host s (App config) m = (Some (Errorf "empty app command in cdk.json"), m) /\
  Synth host s m = (Err (Errorf "empty app command in cdk.json"), m).
Proof.
  intros Hr Hj Hf.
  assert (Hrun : runCDKSynth host s (App config) m =
                 (Some (Errorf "empty app command in cdk.json"), m)).
  { unfold runCDKSynth. rewrite Hf. reflexivity. }
  split; [exact Hrun|].
  unfold Synth. unfold bind_L at 1.
  unfold readCDKConfig, bind_L at 1, look. rewrite Hr, Hj.
  unfold unit_L at 1. unfold bind_L. rewrite Hrun. reflexivity.
Qed.

(** ** The stacks of a synthesis *)

Lemma findGeneratedStacks_machine (s : Synthesizer) (m : Machine World Remote) :
  snd (findGeneratedStacks host s m) = m.
Proof.
  unfold findGeneratedStacks, bind_L, look.
  destruct (snd (filepath_Glob host _ (world m))); [reflexivity|].
  destruct (len _ =? 0)%nat; reflexivity.
Qed.

Lemma findGeneratedStacks_ok (s : Synthesizer) (m : Machine World Remote)
  (stacks : slice string) (m' : Machine World Remote) :
  findGeneratedStacks host s m = ((stacks, None), m') ->
  elems stacks =
  map stack_of_template
    (fst (filepath_Glob host (filepath_Join host [outputDir s; "*.template.json"]) (world m))) /\
  elems stacks <> [].
Proof.
  unfold findGeneratedStacks, bind_L, look.
  destruct (snd (filepath_Glob host _ (world m))); [discriminate|].
  destruct (len _ =? 0)%nat eqn:El; [discriminate|].
  unfold unit_L. intros H. inversion H; subst.
  rewrite elems_range_append. simpl. split; [reflexivity|].
  apply Nat.eqb_neq in El. unfold len in El. rewrite elems_range_append in El. simpl in El.
  intros E. rewrite E in El. apply El. reflexivity.
Qed.

(** [findGeneratedStacks] only reads.  When it returns no error it names at
    least one stack, one for each template file that was found, in the order
    they were found.  When these files are in the output directory and end
    in [.template.json], as the pattern asks, the template that
    [GetTemplateBody] reads for a stack is the file the stack was named
    after. *)
Theorem findGeneratedStacks_names_the_templates (s : Synthesizer) (m : Machine World Remote)
  (stacks : slice string) (m' : Machine World Remote) :
  let found := fst (filepath_Glob host (filepath_Join host [outputDir s; "*.template.json"])
                      (world m)) in
  findGeneratedStacks host s m = ((stacks, None), m') ->
  (forall p, In p found ->
             HasSuffix (Base p) ".template.json" = true /\
             filepath_Join host [outputDir s; Base p] = p) ->
  m' = m /\
  elems stacks <> [] /\
  map (fun name => filepath_Join host [outputDir s; name ^^ ".template.json"]) (elems stacks) =
  found /\
  (forall i name d ctx,
      nth_error (elems stacks) i = Some name ->
      deployer_synthesizer d = s ->
      exists p,
        nth_error found i = Some p /\
        GetTemplateBody (deployer_env host d ctx (world m)) name =
        match os_ReadFile host p (world m) with
        | Ok data => (data, None)
        | Err e => ("", Some (ErrorfW ("failed to read template for stack " ^^ name ^^ ": ") e))
        end).
Proof.
  intros found H Hfound.
  pose proof (f_equal snd H) as Hm. rewrite findGeneratedStacks_machine in Hm. simpl in Hm.
  destruct (findGeneratedStacks_ok s m stacks m' H) as [He Hne]. fold found in He.
  assert (Hpaths : map (fun name => filepath_Join host [outputDir s; name ^^ ".template.json"])
                     (elems stacks) = found).
  { rewrite He, map_map. clear He H Hne.
    induction found as [|p l IH]; [reflexivity|]. simpl.
    destruct (Hfound p (or_introl eq_refl)) as [Hs Hj].
    unfold stack_of_template at 1. rewrite (TrimSuffix_restore _ _ Hs), Hj.
    f_equal. apply IH. intros q Hq. apply Hfound. now right. }
  split; [now symmetry|]. split; [exact Hne|]. split; [exact Hpaths|].
  intros i name d ctx Hi Hd.
  pose proof (map_nth_error
                (fun name => filepath_Join host [outputDir s; name ^^ ".template.json"])
                i (elems stacks) Hi) as Hp.
  rewrite Hpaths in Hp.
  eexists. split; [exact Hp|].
  unfold GetTemplateBody, deployer_env. simpl. rewrite Hd.
  destruct (os_ReadFile host _ (world m)); reflexivity.
Qed.

(** A synthesis that succeeds names at least one stack: [Deploy] and
    [DetectDrift] are never handed an empty list by it. *)
Lemma Synth_ok (s : Synthesizer) (m : Machine World Remote) (r : SynthResult.t)
  (m' : Machine World Remote) :
  Synth host s m = (Ok r, m') ->
  SynthResult.TemplateDir r = outputDir s /\ elems (SynthResult.Stacks r) <> [].
Proof.
  unfold Synth. unfold bind_L at 1.
  destruct (readCDKConfig host s m) as [[config | e] m1]; [|discriminate].
  unfold bind_L at 1.
  destruct (runCDKSynth host s (App config) m1) as [[e|] m2]; [discriminate|].
  unfold bind_L at 1.
  destruct (findGeneratedStacks host s m2) as [[stacks [e|]] m3] eqn:Ef; simpl;
    [discriminate|].
  unfold unit_L. intros H. inversion H; subst. simpl. split; [reflexivity|].
  exact (proj2 (findGeneratedStacks_ok s m2 stacks m' Ef)).
Qed.

(** ** The directory of a clone *)

Lemma list_ascii_of_string_append (a b : string) :
  list_ascii_of_string (a ^^ b) = list_ascii_of_string a ++ list_ascii_of_string b.
Proof. induction a as [|x a IH]; simpl; [reflexivity | now rewrite IH]. Qed.

Lemma eqb_slash (c : ascii) : c <> slash -> Ascii.eqb c slash = false.
Proof. intros H. now apply Ascii.eqb_neq. Qed.

Lemma last_element_app (l rest : list ascii) :
  ~ In slash l -> last_element (l ++ slash :: rest) = l.
Proof.
  induction l as [|c l IH]; intros H; simpl.
  - reflexivity.
  - rewrite eqb_slash by (intros E; apply H; left; now symmetry).
    f_equal. apply IH. intros Hin. apply H. now right.
Qed.

Lemma strip_slashes_not_slash (l : list ascii) :
  ~ In slash l -> strip_slashes l = l.
Proof.
  destruct l as [|c l]; intros H; simpl; [reflexivity|].
  rewrite eqb_slash by (intros E; apply H; left; now symmetry). reflexivity.
Qed.

(** The last element of a path that ends in a name without a slash. *)
Lemma Base_of_name (prefix name : string) :
  ~ In slash (list_ascii_of_string name) -> name <> "" ->
  Base (prefix ^^ "/" ^^ name) = name.
Proof.
  intros Hs Hn. unfold Base.
  assert (Hne : String.eqb (prefix ^^ "/" ^^ name) "" = false).
  { apply String.eqb_neq. destruct prefix; discriminate. }
  rewrite Hne, !list_ascii_of_string_append. simpl.
  rewrite rev_app_distr. simpl. rewrite <- app_assoc. simpl.
  assert (Hr : ~ In slash (rev (list_ascii_of_string name))).
  { intros H. apply Hs. now apply in_rev. }
  assert (Hstrip : forall rest,
             strip_slashes (rev (list_ascii_of_string name) ++ rest) =
             rev (list_ascii_of_string name) ++ rest).
  { intros rest.
    destruct (rev (list_ascii_of_string name)) as [|c l] eqn:E.
    - exfalso. apply Hn. rewrite <- (string_of_list_ascii_of_string name).
      rewrite <- (rev_involutive (list_ascii_of_string name)), E. reflexivity.
    - simpl. rewrite eqb_slash; [reflexivity|].
      intros Ec. apply Hr. left. now symmetry. }
  rewrite Hstrip.
  change ("/"%char :: rev (list_ascii_of_string prefix))
    with (slash :: rev (list_ascii_of_string prefix)).
  rewrite (last_element_app _ _ Hr).
  destruct (rev (list_ascii_of_string name)) as [|c l] eqn:E.
  - exfalso. apply Hn. rewrite <- (string_of_list_ascii_of_string name).
    rewrite <- (rev_involutive (list_ascii_of_string name)), E. reflexivity.
  - change (string_of_list_ascii (rev (c :: l)) = name).
    rewrite <- E, rev_involutive. apply string_of_list_ascii_of_string.
Qed.

(** The extension of a name that ends in [.git]. *)
Lemma Ext_git (stem : string) : Ext (stem ^^ ".git") = ".git".
Proof.
  unfold Ext. rewrite list_ascii_of_string_append, rev_app_distr. reflexivity.
Qed.

(** The directory a repository is cloned into.  A URL that ends in a slash
    and a name, the name without a slash, gives the name; when the name ends
    in [.git] the extension is taken off, whatever is before it, nothing
    included.  The clone is made in that directory of the destination, one
    commit deep, and its path is returned when the clone succeeds. *)
Theorem CloneRepository_directory (prefix stem destDir : string) (m : Machine World Remote) :
  ~ In slash (list_ascii_of_string stem) ->
  repo_name (prefix ^^ "/" ^^ stem ^^ ".git") = stem /\
  (stem <> "" -> Ext stem <> ".git" -> repo_name (prefix ^^ "/" ^^ stem) = stem) /\
  (destDir <> "" ->
   forall repoURL,
     repo_name repoURL = stem ->
     let clonePath := filepath_Join host [destDir; stem] in
     CloneRepository host repoURL destDir m =
     (match fst (git_PlainClone host clonePath repoURL 1 (world m)) with
      | Some err => ("", Some (ErrorfW "failed to clone repository: " err))
      | None => (clonePath, None)
      end,
      {| world := snd (git_PlainClone host clonePath repoURL 1 (world m));
         done := done m ++ [ActPlainClone clonePath repoURL 1];
         cloud := cloud m |})).
Proof.
  intros Hs. split; [|split].
  - unfold repo_name.
    assert (Hb : Base (prefix ^^ "/" ^^ stem ^^ ".git") = stem ^^ ".git").
    { apply Base_of_name.
      - rewrite list_ascii_of_string_append. intros H. apply in_app_or in H.
        destruct H as [H | H]; [now apply Hs|].
        simpl in H. unfold slash in H.
        repeat (destruct H as [H | H]; [discriminate|]). exact H.
      - destruct stem; discriminate. }
    rewrite Hb, Ext_git. simpl. rewrite length_append. simpl.
    replace (String.length stem + 4 - 4)%nat with (String.length stem) by lia.
    apply slice_to_append.
  - intros Hn He. unfold repo_name. rewrite (Base_of_name prefix stem Hs Hn).
    apply String.eqb_neq in He. rewrite He. reflexivity.
  - intros Hd repoURL Hr clonePath. unfold CloneRepository.
    apply String.eqb_neq in Hd. rewrite Hd.
    unfold bind_L at 1. unfold unit_L at 1. simpl. rewrite Hr. fold clonePath.
    unfold bind_L, act.
    destruct (git_PlainClone host clonePath repoURL 1 (world m)) as [[err|] w]; reflexivity.
Qed.

(** ** What is done to the local machine *)

Section Adds.

Variable P : Action -> Prop.
Hypothesis P_Run : forall cmd, P (ActRun cmd).
Hypothesis P_CombinedOutput : forall cmd, P (ActCombinedOutput cmd).

Lemma adds_unit {A} (a : A) : adds P (unit_L (World:=World) (Remote:=Remote) a).
Proof.
  intros m. split; [reflexivity|].
  exists []. split; [now rewrite app_nil_r | constructor].
Qed.

Lemma adds_look {A} (f : World -> A) : adds P (look (Remote:=Remote) f).
Proof.
  intros m. split; [reflexivity|].
  exists []. split; [now rewrite app_nil_r | constructor].
Qed.

Lemma adds_act {A} (a : Action) (f : World -> A * World) :
  P a -> adds P (act (Remote:=Remote) a f).
Proof.
  intros Ha m. unfold act. destruct (f (world m)). simpl. split; [reflexivity|].
  exists [a]. split; [reflexivity | repeat constructor; exact Ha].
Qed.

Lemma adds_bind {A B} (x : L World Remote A) (k : A -> L World Remote B) :
  adds P x -> (forall a, adds P (k a)) -> adds P (bind_L x k).
Proof.
  intros Hx Hk m. unfold bind_L. destruct (Hx m) as (C1 & l1 & E1 & F1).
  destruct (x m) as [a m1]. simpl in E1, C1.
  destruct (Hk a m1) as (C2 & l2 & E2 & F2).
  split; [congruence|].
  exists (l1 ++ l2). split; [rewrite E2, E1; now rewrite app_assoc | now apply Forall_app].
Qed.

Lemma adds_T_unit {A} (a : A) : adds_T P (unit_T (World:=World) (Remote:=Remote) a).
Proof. intros m. exists []. split; [simpl; now rewrite app_nil_r | constructor]. Qed.

Lemma adds_T_bind {A B} (x : T World Remote A) (k : A -> T World Remote B) :
  adds_T P x -> (forall a, adds_T P (k a)) -> adds_T P (bind_T x k).
Proof.
  intros Hx Hk m. unfold bind_T. destruct (Hx m) as (l1 & E1 & F1).
  destruct (x m) as [a m1 | m1 | m1]; simpl in E1.
  - destruct (Hk a m1) as (l2 & E2 & F2).
    exists (l1 ++ l2). split; [rewrite E2, E1; now rewrite app_assoc | now apply Forall_app].
  - exists l1. auto.
  - exists l1. auto.
Qed.

Lemma adds_T_local {A} (x : L World Remote A) : adds P x -> adds_T P (local x).
Proof.
  intros Hx m. unfold local. destruct (Hx m) as (_ & l & E & F).
  destruct (x m) as [a m1]. exists l. auto.
Qed.

Lemma adds_T_remote_call {A} (x : World -> M Remote A) : adds_T P (remote_call x).
Proof.
  intros m. exists []. unfold remote_call.
  split; [|constructor].
  destruct (x (world m) (cloud m)); simpl; now rewrite app_nil_r.
Qed.

Ltac adds_step :=
  first
    [ apply adds_unit
    | apply adds_look
    | apply adds_act; first [apply P_Run | apply P_CombinedOutput | exact I]
    | assumption
    | match goal with
      | |- adds _ (bind_L _ _) => apply adds_bind; [|intros ?]
      | |- adds _ (match ?x with _ => _ end) => destruct x
      | |- adds _ (if ?b then _ else _) => destruct b
      | |- adds_T _ (unit_T _) => apply adds_T_unit
      | |- adds_T _ (local _) => apply adds_T_local
      | |- adds_T _ (remote_call _) => apply adds_T_remote_call
      | |- adds_T _ (bind_T _ _) => apply adds_T_bind; [|intros ?]
      | |- adds_T _ (match ?x with _ => _ end) => destruct x
      | |- adds_T _ (if ?b then _ else _) => destruct b
      end ].

Lemma adds_DetectProjectType (s : Synthesizer) : adds P (DetectProjectType host s).
Proof. unfold DetectProjectType, Stat. repeat adds_step. Qed.

Lemma adds_getPythonVersion (pythonCmd : string) : adds P (getPythonVersion host pythonCmd).
Proof. unfold getPythonVersion, CombinedOutput. repeat adds_step. Qed.

Lemma adds_required_in (name : string) (prepare : string -> string) (pattern : string) :
  adds P (required_in host name prepare pattern).
Proof. unfold required_in. repeat adds_step. Qed.

Lemma adds_getRequiredPythonVersion (s : Synthesizer) :
  adds P (getRequiredPythonVersion host s).
Proof.
  unfold getRequiredPythonVersion.
  repeat first [apply adds_required_in | adds_step].
Qed.

Lemma adds_checkPythonCompatibility (s : Synthesizer) (pythonCmd : string) :
  adds P (checkPythonCompatibility host s pythonCmd).
Proof.
  unfold checkPythonCompatibility.
  repeat first [apply adds_getPythonVersion | apply adds_getRequiredPythonVersion | adds_step].
Qed.

Lemma adds_installPythonDependencies (s : Synthesizer) :
  adds P (installPythonDependencies host s).
Proof.
  unfold installPythonDependencies, Stat, Run.
  repeat first [apply adds_checkPythonCompatibility | adds_step].
Qed.

Lemma adds_install_with (s : Synthesizer) (cmd : exec.Cmd) : adds P (install_with host s cmd).
Proof. unfold install_with, Run. repeat adds_step. Qed.

Lemma adds_InstallDependencies (s : Synthesizer) (projectType : string) :
  adds P (InstallDependencies host s projectType).
Proof.
  unfold InstallDependencies, Stat.
  repeat first [apply adds_installPythonDependencies | apply adds_install_with | adds_step].
Qed.

Lemma adds_readCDKConfig (s : Synthesizer) : adds P (readCDKConfig host s).
Proof. unfold readCDKConfig. repeat adds_step. Qed.

Lemma adds_runCDKSynth (s : Synthesizer) (appCmd : string) :
  adds P (runCDKSynth host s appCmd).
Proof.
  unfold runCDKSynth, Stat, Run.
  repeat first [apply adds_DetectProjectType | adds_step].
Qed.

Lemma adds_findGeneratedStacks (s : Synthesizer) : adds P (findGeneratedStacks host s).
Proof. unfold findGeneratedStacks. repeat adds_step. Qed.

Lemma adds_Synth (s : Synthesizer) : adds P (Synth host s).
Proof.
  unfold Synth.
  repeat first [apply adds_readCDKConfig | apply adds_runCDKSynth
               | apply adds_findGeneratedStacks | adds_step].
Qed.

Lemma adds_CDK_Initialize (c : CDK Remote) : adds P (CDK_Initialize host c).
Proof.
  unfold CDK_Initialize.
  repeat first [apply adds_DetectProjectType | apply adds_InstallDependencies | adds_step].
Qed.

Hypothesis P_LoadDefaultConfig : P ActLoadDefaultConfig.

Lemma adds_NewDeployer (ctx : option (Z * ctxError)) (synthesizer : Synthesizer) :
  adds P (NewDeployer host ctx synthesizer).
Proof.
  unfold NewDeployer.
  repeat first [apply adds_act; exact P_LoadDefaultConfig | adds_step].
Qed.

Lemma adds_CDK_Deploy (c : CDK Remote) (ctx : option (Z * ctxError)) (fuel : nat)
  (stacks : list string) :
  adds_T P (CDK_Deploy host c ctx fuel stacks).
Proof.
  unfold CDK_Deploy. repeat first [apply adds_NewDeployer | adds_step].
Qed.

Lemma adds_CDK_DetectDrift (c : CDK Remote) (ctx : option (Z * ctxError)) (fuel : nat)
  (stacks : list string) :
  adds_T P (CDK_DetectDrift host c ctx fuel stacks).
Proof.
  unfold CDK_DetectDrift. repeat first [apply adds_NewDeployer | adds_step].
Qed.

Lemma adds_run_command (cdkApp : CDK Remote) (ctx : option (Z * ctxError)) (fuel : nat)
  (command stackName : string) :
  adds_T P (run_command host cdkApp ctx fuel command stackName).
Proof.
  unfold run_command, CDK_Synth.
  repeat first [apply adds_Synth | apply adds_CDK_Deploy | apply adds_CDK_DetectDrift
               | adds_step].
Qed.

(** What [run] does after the clone, the cleanup apart. *)
Lemma adds_run_rest (projectPath : string) (ctx : option (Z * ctxError)) (fuel : nat)
  (command stackName : string) :
  adds_T P
    (bind_T (local (CDK_Initialize host (CDK_New host projectPath)))
       (fun err =>
          match err with
          | Some err => unit_T (Some (ErrorfW "failed to initialize CDK project: " err))
          | None => run_command host (CDK_New host projectPath) ctx fuel command stackName
          end)).
Proof.
  repeat first [apply adds_CDK_Initialize | apply adds_run_command | adds_step].
Qed.

End Adds.

(** ** [run] *)

(** [run] after a clone that succeeded: what it does without the cleanup,
    followed, unless it never ends, by the deferred cleanup. *)
Lemma run_cleanup (ctx : option (Z * ctxError)) (fuel : nat)
  (repoURL command destDir stackName : string) (m : Machine World Remote)
  (projectPath : string) (m1 : Machine World Remote) :
  CloneRepository host repoURL destDir m = ((projectPath, None), m1) ->
  run host ctx fuel repoURL command destDir stackName true m =
  match run host ctx fuel repoURL command destDir stackName false m with
  | Returns a m' => Returns a (snd (CleanupRepository host projectPath m'))
  | Panics m' => Panics (snd (CleanupRepository host projectPath m'))
  | RunsOut m' => RunsOut m'
  end.
Proof.
  intros Hc. unfold run, bind_T, local. rewrite Hc. reflexivity.
Qed.

Lemma run_kept (ctx : option (Z * ctxError)) (fuel : nat)
  (repoURL command destDir stackName : string) (m : Machine World Remote)
  (projectPath : string) (m1 : Machine World Remote) :
  CloneRepository host repoURL destDir m = ((projectPath, None), m1) ->
  exists l,
    done (machine (run host ctx fuel repoURL command destDir stackName false m)) =
    done m1 ++ l /\
    Forall runs_or_loads l.
Proof.
  intros Hc. unfold run. unfold bind_T at 1. unfold local at 1. rewrite Hc. simpl.
  pose proof (adds_run_rest runs_or_loads (fun _ => I) (fun _ => I) I projectPath ctx fuel
                command stackName) as H.
  exact (H m1).
Qed.

(** The cleanup of [run].  After a clone that succeeded, what [run] does to
    the local machine until it returns or panics is running commands and
    loading the configuration of the SDK: it removes nothing.  With the
    cleanup asked for, [run] returns what it returns without it, or panics
    as it does without it, and in both cases the removal of the clone comes
    after everything else, once. *)
Theorem run_removes_the_clone_last (ctx : option (Z * ctxError)) (fuel : nat)
  (repoURL command destDir stackName : string) (m : Machine World Remote)
  (projectPath : string) (m1 : Machine World Remote) :
  CloneRepository host repoURL destDir m = ((projectPath, None), m1) ->
  let kept := run host ctx fuel repoURL command destDir stackName false m in
  let removed := run host ctx fuel repoURL command destDir stackName true m in
  (exists l, done (machine kept) = done m1 ++ l /\ Forall runs_or_loads l) /\
  (forall a m', kept = Returns a m' ->
                removed = Returns a (snd (CleanupRepository host projectPath m'))) /\
  (forall m', kept = Panics m' ->
              removed = Panics (snd (CleanupRepository host projectPath m'))) /\
  ((forall m', removed <> RunsOut m') ->
   exists l, done (machine removed) = done m1 ++ l ++ [ActRemoveAll projectPath] /\
             Forall runs_or_loads l).
Proof.
  intros Hc kept removed.
  pose proof (run_kept ctx fuel repoURL command destDir stackName m projectPath m1 Hc) as Hk.
  pose proof (run_cleanup ctx fuel repoURL command destDir stackName m projectPath m1 Hc) as Hr.
  fold kept in Hk, Hr. fold removed in Hr.
  split; [exact Hk|]. split; [|split].
  - intros a m' E. rewrite Hr, E. reflexivity.
  - intros m' E. rewrite Hr, E. reflexivity.
  - intros Hends. destruct Hk as (l & Hl & Fl). exists l. split; [|exact Fl].
    rewrite Hr in *. unfold CleanupRepository, act in *.
    destruct kept as [a m' | m' | m']; simpl in *.
    + destruct (os_RemoveAll host projectPath (world m')). simpl.
      rewrite Hl. now rewrite app_assoc.
    + destruct (os_RemoveAll host projectPath (world m')). simpl.
      rewrite Hl. now rewrite app_assoc.
    + exfalso. exact (Hends m' eq_refl).
Qed.

(** A clone that fails into a fresh temporary directory.  [run] returns the
    failure with the prefix of [CloneRepository] and its own, which are the
    same; nothing comes after the clone, and the temporary directory that was
    made for it is not removed, cleanup or not. *)
Theorem run_of_a_failed_clone (ctx : option (Z * ctxError)) (fuel : nat)
  (repoURL command stackName : string) (cleanup : bool) (m : Machine World Remote)
  (tmpDir : string) (w1 : World) (e : error) :
  os_MkdirTemp host "" "cdk-deployer-*" (world m) = (Ok tmpDir, w1) ->
  let clonePath := filepath_Join host [tmpDir; repo_name repoURL] in
  fst (git_PlainClone host clonePath repoURL 1 w1) = Some e ->
  let err := ErrorfW "failed to clone repository: "
               (ErrorfW "failed to clone repository: " e) in
  run host ctx fuel repoURL command "" stackName cleanup m =
  Returns (Some err)
    {| world := snd (git_PlainClone host clonePath repoURL 1 w1);
       done := done m ++ [ActMkdirTemp "" "cdk-deployer-*"; ActPlainClone clonePath repoURL 1];
       cloud := cloud m |} /\
  Error err = "failed to clone repository: failed to clone repository: " ^^ Error e.
Proof.
  intros Hmk clonePath Hcl err. split; [|reflexivity].
  unfold run. unfold bind_T at 1. unfold local at 1.
  unfold CloneRepository. simpl. unfold bind_L at 1. unfold bind_L at 1. unfold act at 1.
  rewrite Hmk. unfold unit_L at 1. simpl. fold clonePath.
  unfold bind_L, act. simpl.
  destruct (git_PlainClone host clonePath repoURL 1 w1) as [[e'|] w2]; simpl in Hcl;
    [|discriminate].
  inversion Hcl; subst. simpl. rewrite <- app_assoc. reflexivity.
Qed.

(** A command that is none of [synth], [deploy] and [drift] is refused only
    after the repository is cloned and the project initialized, with its
    dependencies installed. *)
Theorem run_of_an_unknown_command (ctx : option (Z * ctxError)) (fuel : nat)
  (repoURL command destDir stackName : string) (cleanup : bool) (m : Machine World Remote)
  (projectPath : string) (m1 m2 : Machine World Remote) :
  command <> "synth" -> command <> "deploy" -> command <> "drift" ->
  CloneRepository host repoURL destDir m = ((projectPath, None), m1) ->
  CDK_Initialize host (CDK_New host projectPath) m1 = (None, m2) ->
  run host ctx fuel repoURL command destDir stackName cleanup m =
  Returns (Some (Errorf ("unknown command: " ^^ command ^^
                         " (use 'synth', 'deploy', or 'drift')")))
          (if cleanup then snd (CleanupRepository host projectPath m2) else m2).
Proof.
  intros H1 H2 H3 Hc Hi.
  apply String.eqb_neq in H1. apply String.eqb_neq in H2. apply String.eqb_neq in H3.
  unfold run. unfold bind_T at 1. unfold local at 1. rewrite Hc. simpl.
  assert (Hbody : bind_T (local (CDK_Initialize host (CDK_New host projectPath)))
                    (fun err =>
                       match err with
                       | Some err =>
                           unit_T (Some (ErrorfW "failed to initialize CDK project: " err))
                       | None =>
                           run_command host (CDK_New host projectPath) ctx fuel command
                             stackName
                       end) m1 =
                  Returns (Some (Errorf ("unknown command: " ^^ command ^^
                                         " (use 'synth', 'deploy', or 'drift')"))) m2).
  { unfold bind_T, local. rewrite Hi. unfold run_command. rewrite H1, H2, H3. reflexivity. }
  destruct cleanup; [|exact Hbody].
  unfold defer. rewrite Hbody. reflexivity.
Qed.

(** ** The deployer of a [CDK] instance *)

(** A [CDK] instance makes its deployer at its first [Deploy] or
    [DetectDrift] and keeps it.  With a deployer, [Deploy] does nothing to the
    local machine and leaves the instance as it is.  Without one it loads the
    configuration of the SDK: when that fails it returns the failure,
    wrapped, with no outcome, no request on the remote system and still no
    deployer; when it succeeds the instance it leaves has the deployer made
    from that configuration and the synthesizer of the instance, and a
    [DetectDrift] on it loads nothing again. *)
Theorem CDK_deployer_is_made_once (c : CDK Remote) (ctx : option (Z * ctxError)) (fuel : nat)
  (stacks : list string) (m : Machine World Remote) :
  (forall d, cdk_deployer c = Some d ->
             done (machine (CDK_Deploy host c ctx fuel stacks m)) = done m /\
             forall r m', CDK_Deploy host c ctx fuel stacks m = Returns r m' -> fst r = c) /\
  (forall e, cdk_deployer c = None ->
             config_LoadDefaultConfig host ctx (world m) = Err e ->
             CDK_Deploy host c ctx fuel stacks m =
             Returns (c, (Nil, Some (ErrorfW "failed to load AWS config: " e)))
               {| world := world m; done := done m ++ [ActLoadDefaultConfig]; cloud := cloud m |}) /\
  (forall cfg r m',
      cdk_deployer c = None ->
      config_LoadDefaultConfig host ctx (world m) = Ok cfg ->
      CDK_Deploy host c ctx fuel stacks m = Returns r m' ->
      cdk_deployer (fst r) =
      Some {| deployer_cfnClient := cloudformation_NewFromConfig host cfg;
              deployer_synthesizer := cdk_synthesizer c |} /\
      done m' = done m ++ [ActLoadDefaultConfig] /\
      forall ctx' fuel' stacks',
        done (machine (CDK_DetectDrift host (fst r) ctx' fuel' stacks' m')) = done m').
Proof.
  split; [|split].
  - intros d Hd. unfold CDK_Deploy. rewrite Hd. unfold bind_T, remote_call, unit_T.
    destruct (DeployAll _ fuel stacks (cloud m)) as [res s | s | s]; simpl.
    + split; [reflexivity|]. intros r m' H. inversion H. reflexivity.
    + split; [reflexivity | discriminate].
    + split; [reflexivity | discriminate].
  - intros e Hd He. unfold CDK_Deploy. rewrite Hd.
    unfold bind_T, local, NewDeployer, bind_L, act. rewrite He. reflexivity.
  - intros cfg r m' Hd Hcfg. unfold CDK_Deploy. rewrite Hd.
    unfold bind_T at 1. unfold local, NewDeployer, bind_L, act. rewrite Hcfg.
    unfold unit_L. unfold bind_T, remote_call, unit_T. simpl.
    destruct (DeployAll _ fuel stacks (cloud m)) as [res s | s | s]; try discriminate.
    intros H. inversion H; subst. simpl.
    split; [reflexivity|]. split; [reflexivity|].
    intros ctx' fuel' stacks'. unfold CDK_DetectDrift. simpl.
    unfold bind_T, remote_call, unit_T. simpl.
    destruct (DetectDriftAll _ fuel' stacks' s); reflexivity.
Qed.


(** ** What stays on the local machine *)

Lemma CloneRepository_cloud (repoURL destDir : string) (m : Machine World Remote) :
  cloud (snd (CloneRepository host repoURL destDir m)) = cloud m.
Proof.
  unfold CloneRepository, bind_L, act, unit_L.
  destruct (String.eqb destDir ""); simpl.
  - destruct (os_MkdirTemp host "" "cdk-deployer-*" (world m)) as [[tmpDir | e] w]; simpl;
      [|reflexivity].
    destruct (git_PlainClone host _ repoURL 1 w) as [[e|] w']; reflexivity.
  - destruct (git_PlainClone host _ repoURL 1 (world m)) as [[e|] w']; reflexivity.
Qed.

Lemma runs_Run (cmd : exec.Cmd) : runs (ActRun cmd).
Proof. exact I. Qed.

Lemma runs_CombinedOutput (cmd : exec.Cmd) : runs (ActCombinedOutput cmd).
Proof. exact I. Qed.

(** The command [synth] stays on the local machine.  After a clone that
    succeeded, [run] with [synth] always returns, whatever the context and
    the fuel; it makes no request on the remote system, and on the local
    machine it only runs commands, the removal of the clone apart: the
    configuration of the SDK is not loaded. *)
Theorem run_synth_is_local (ctx : option (Z * ctxError)) (fuel : nat)
  (repoURL destDir stackName : string) (cleanup : bool) (m : Machine World Remote)
  (projectPath : string) (m1 : Machine World Remote) :
  CloneRepository host repoURL destDir m = ((projectPath, None), m1) ->
  exists a m' l,
    run host ctx fuel repoURL "synth" destDir stackName cleanup m = Returns a m' /\
    cloud m' = cloud m /\
    done m' = done m1 ++ l ++ (if cleanup then [ActRemoveAll projectPath] else []) /\
    Forall runs l.
Proof.
  intros Hc.
  pose proof (CloneRepository_cloud repoURL destDir m) as Hcl. rewrite Hc in Hcl. simpl in Hcl.
  unfold run. unfold bind_T at 1. unfold local at 1. rewrite Hc. simpl.
  match goal with
  | |- context [if cleanup then defer _ ?b else _] => set (body := b)
  end.
  assert (Hb : exists a m' l, body m1 = Returns a m' /\ cloud m' = cloud m1 /\
                              done m' = done m1 ++ l /\ Forall runs l).
  { unfold body, bind_T, local.
    destruct (adds_CDK_Initialize runs runs_Run runs_CombinedOutput
                (CDK_New host projectPath) m1) as (C1 & l1 & E1 & F1).
    destruct (CDK_Initialize host (CDK_New host projectPath) m1) as [[err|] m2];
      simpl in C1, E1.
    - do 3 eexists. split; [reflexivity|]. eauto.
    - unfold run_command. simpl. unfold bind_T, local, CDK_Synth. simpl.
      destruct (adds_Synth runs runs_Run
                  (NewSynthesizer host projectPath) m2) as (C2 & l2 & E2 & F2).
      destruct (Synth host (NewSynthesizer host projectPath) m2) as [[r | e] m3];
        simpl in C2, E2; eexists; exists m3, (l1 ++ l2).
      + split; [reflexivity|]. split; [congruence|].
        split; [rewrite E2, E1; now rewrite app_assoc | now apply Forall_app].
      + split; [reflexivity|]. split; [congruence|].
        split; [rewrite E2, E1; now rewrite app_assoc | now apply Forall_app]. }
  destruct Hb as (a & m' & l & Hb & Cb & Eb & Fb).
  destruct cleanup.
  - unfold defer. rewrite Hb. unfold CleanupRepository, act.
    destruct (os_RemoveAll host projectPath (world m')) as [e w]. simpl.
    exists a, {| world := w; done := done m' ++ [ActRemoveAll projectPath]; cloud := cloud m' |}, l.
    split; [reflexivity|]. simpl. split; [congruence|].
    split; [rewrite Eb; now rewrite app_assoc | exact Fb].
  - exists a, m', l. split; [exact Hb|]. split; [congruence|].
    split; [now rewrite app_nil_r | exact Fb].
Qed.

(** [SynthAndDeploy] reaches the remote system only with a synthesized app.
    When the initialization fails it returns that failure as it is, and when
    the synthesis fails that failure wrapped, in both cases with no outcome
    and the state of the deployer untouched; otherwise it is [Deploy] on the
    stacks of the synthesis, of which there is at least one. *)
Theorem SynthAndDeploy_deploys_the_synthesized_stacks (c : CDK Remote)
  (ctx : option (Z * ctxError)) (fuel : nat) (m : Machine World Remote) :
  let o := CDK_SynthAndDeploy host c ctx fuel m in
  (forall err m1,
      CDK_Initialize host c m = (Some err, m1) ->
      o = Returns (c, (Nil, Some err)) m1 /\ cloud m1 = cloud m) /\
  (forall m1 err m2,
      CDK_Initialize host c m = (None, m1) ->
      CDK_Synth host c m1 = (Err err, m2) ->
      o = Returns (c, (Nil, Some (ErrorfW "synthesis failed: " err))) m2 /\
      cloud m2 = cloud m) /\
  (forall m1 r m2,
      CDK_Initialize host c m = (None, m1) ->
      CDK_Synth host c m1 = (Ok r, m2) ->
      o = CDK_Deploy host c ctx fuel (elems (SynthResult.Stacks r)) m2 /\
      elems (SynthResult.Stacks r) <> [] /\
      cloud m2 = cloud m).
Proof.
  intros o. unfold o, CDK_SynthAndDeploy.
  pose proof (adds_CDK_Initialize runs runs_Run runs_CombinedOutput c m) as (C1 & _).
  split; [|split].
  - intros err m1 Hi. rewrite Hi in C1. unfold bind_T, local. rewrite Hi. auto.
  - intros m1 err m2 Hi Hs. rewrite Hi in C1. simpl in C1.
    pose proof (adds_Synth runs runs_Run (cdk_synthesizer c) m1)
      as (C2 & _).
    unfold CDK_Synth in Hs. unfold bind_T, local, CDK_Synth. rewrite Hi, Hs.
    rewrite Hs in C2. simpl in C2. split; [reflexivity | congruence].
  - intros m1 r m2 Hi Hs. rewrite Hi in C1. simpl in C1.
    pose proof (adds_Synth runs runs_Run (cdk_synthesizer c) m1)
      as (C2 & _).
    unfold CDK_Synth in Hs. unfold bind_T at 1 2. unfold local, CDK_Synth. rewrite Hi, Hs.
    rewrite Hs in C2. simpl in C2.
    split; [reflexivity|]. split; [|congruence].
    exact (proj2 (Synth_ok _ _ _ _ Hs)).
Qed.


End ToolProperties.

(** * The rest of the tool on the scripted machine *)

(** A project with nothing but a C# project file. *)
Lemma Initialize_rejects_csharp_witness :
  let m := Local.machine_of Local.csharp_files in
  DetectProjectType Local.laptop Local.app m = (("csharp", None), m) /\
  CDK_Initialize Local.laptop Local.app_instance m =
  (Some (ErrorfW "failed to install dependencies: "
           (Errorf "unsupported project type: csharp")), m).
Proof.
  intros m.
  apply (Initialize_rejects_csharp _ _ _ Local.laptop Local.app_instance m).
  - intros name [<- | [<- | [<- | [<- | [<- | []]]]]]; vm_compute; discriminate.
  - vm_compute. discriminate.
Defined.

(** A TypeScript project whose dependencies are not installed yet. *)
Lemma Initialize_of_a_typescript_project_witness :
  let m := Local.machine_of Local.compiled_files in
  let npm := {| exec.Args := ["npm"; "install"]; exec.Dir := "/app"; exec.Env := Nil |} in
  CDK_Initialize Local.laptop Local.app_instance m =
  (None, {| world := Local.compiled_files; done := [ActRun npm]; cloud := Example.start |}).
Proof.
  intros m npm.
  exact (proj2 (Initialize_of_a_typescript_project _ _ _ Local.laptop Local.app_instance m
                  eq_refl)).
Defined.

(** Python 3.6.9 where nothing asks for a version: 3.7 is required. *)
Lemma python_version_check_witness :
  let h := Local.host "Python 3.6.9" [] Local.no_failure false in
  let m := Local.machine_of Local.python_files in
  getRequiredPythonVersion h Local.app m = ((3, 7, None), m) /\
  fst (checkPythonCompatibility h Local.app "python3" m) <> None.
Proof.
  intros h m.
  assert (Hr : forall m1, world m1 = Local.python_files ->
                          getRequiredPythonVersion h Local.app m1 = ((3, 7, None), m1)).
  { intros m1 Hw. apply (proj1 (proj2 (python_version_check _ _ _ h Local.app))).
    rewrite Hw. intros name [<- | [<- | [<- | []]]]; eexists; reflexivity. }
  split; [apply Hr; reflexivity|].
  intros Hnone.
  assert (Hv : getPythonVersion h "python3" m =
               ((3, 6, 9, None), snd (getPythonVersion h "python3" m)))
    by (vm_compute; reflexivity).
  destruct (proj1 (proj2 (proj2 (proj2 (python_version_check _ _ _ h Local.app))
                            "python3" m 3 6 9 _ 3 7 Hv
                            (Hr (snd (getPythonVersion h "python3" m)) eq_refl))) Hnone)
    as [H | [_ H]]; lia.
Defined.


(** The synthesis of a Python project whose app command is [python3 app.py]. *)
Lemma runCDKSynth_of_a_python_project_witness :
  let m := Local.machine_of Local.python_files in
  let cmd := {| exec.Args := ["npx"; "cdk"; "synth"; "--app"; "/app/.venv/bin/python app.py";
                              "--output"; "/app/cdk.out"];
                exec.Dir := "/app";
                exec.Env := Slice ["HOME=/root"; "CDK_OUTDIR=/app/cdk.out";
                                   "PATH=/app/.venv/bin:/usr/bin";
                                   "VIRTUAL_ENV=/app/.venv"] |} in
  runCDKSynth Local.laptop Local.app "python3 app.py" m =
  (None, {| world := Local.python_files; done := [ActRun cmd]; cloud := Example.start |}).
Proof.
  intros m cmd.
  refine (runCDKSynth_of_a_python_project _ _ _ Local.laptop Local.app "python3 app.py" "app.py"
            m (or_introl eq_refl) _ eq_refl).
  vm_compute. discriminate.
Defined.

(** The synthesis of a TypeScript project that is compiled first. *)
Lemma runCDKSynth_of_a_typescript_project_witness :
  let m := Local.machine_of Local.compiled_files in
  let tsc := {| exec.Args := ["npx"; "tsc"]; exec.Dir := "/app"; exec.Env := Nil |} in
  let cmd := {| exec.Args := ["npx"; "cdk"; "synth"; "--app"; "node bin/app.js";
                              "--output"; "/app/cdk.out"];
                exec.Dir := "/app";
                exec.Env := Slice ["HOME=/root"; "CDK_OUTDIR=/app/cdk.out"] |} in
  let h := Local.host "Python 3.9.7" []
             (fun c => String.eqb (nth 1 (exec.Args c) "") "tsc") false in
  runCDKSynth h Local.app "node bin/app.js" m =
  (None, {| world := Local.compiled_files; done := [ActRun tsc; ActRun cmd];
            cloud := Example.start |}).
Proof.
  intros m tsc cmd h.
  refine (runCDKSynth_of_a_typescript_project _ _ _ h Local.app "node bin/app.js" m
            _ eq_refl eq_refl eq_refl).
  vm_compute. discriminate.
Defined.

(** A [cdk.json] with an empty app command. *)
Lemma Synth_of_an_empty_app_command_witness :
  let m := Local.machine_of [("/app/cdk.json", "")] in
  Synth Local.laptop Local.app m = (Err (Errorf "empty app command in cdk.json"), m).
Proof.
  intros m.
  exact (proj2 (Synth_of_an_empty_app_command _ _ _ Local.laptop Local.app m ""
                  {| App := "" |} eq_refl eq_refl eq_refl)).
Defined.

(** An output directory with two templates and a manifest. *)
Lemma findGeneratedStacks_names_the_templates_witness :
  let m := Local.machine_of Local.two_templates in
  findGeneratedStacks Local.laptop Local.app m = ((Slice ["Net"; "Web"], None), m) /\
  map (fun name => filepath_Join Local.laptop [outputDir Local.app; name ^^ ".template.json"])
      ["Net"; "Web"] =
  ["/app/cdk.out/Net.template.json"; "/app/cdk.out/Web.template.json"].
Proof.
  intros m.
  assert (H : findGeneratedStacks Local.laptop Local.app m = ((Slice ["Net"; "Web"], None), m))
    by (vm_compute; reflexivity).
  split; [exact H|].
  refine (proj1 (proj2 (proj2 (findGeneratedStacks_names_the_templates _ _ _ Local.laptop
                                 Local.app m _ m H _)))).
  intros p [<- | [<- | []]]; split; vm_compute; reflexivity.
Defined.

(** The directory of a repository on GitHub. *)
Lemma CloneRepository_directory_witness :
  repo_name "https://github.com/user/cdk-project.git" = "cdk-project".
Proof.
  refine (proj1 (CloneRepository_directory _ _ _ Local.laptop "https://github.com/user"
                   "cdk-project" "/work" (Local.machine_of []) _)).
  intros H. vm_compute in H. intuition discriminate.
Defined.

(** A deployment with cleanup: the clone is removed last. *)
Lemma run_removes_the_clone_last_witness :
  let url := "https://github.com/user/cdk-project.git" in
  let m := Local.machine_of [] in
  let m1 := snd (CloneRepository Local.laptop url "/work" m) in
  let removed := run Local.laptop None 5 url "deploy" "/work" "" true m in
  CloneRepository Local.laptop url "/work" m = (("/work/cdk-project", None), m1) /\
  exists l, done (machine removed) = done m1 ++ l ++ [ActRemoveAll "/work/cdk-project"] /\
            Forall runs_or_loads l.
Proof.
  intros url m m1 removed.
  assert (Hc : CloneRepository Local.laptop url "/work" m = (("/work/cdk-project", None), m1))
    by (vm_compute; reflexivity).
  split; [exact Hc|].
  refine (proj2 (proj2 (proj2 (run_removes_the_clone_last _ _ _ Local.laptop None 5%nat url
                                 "deploy" "/work" "" m "/work/cdk-project" m1 Hc))) _).
  intros m' H. vm_compute in H. discriminate.
Defined.

(** A repository that cannot be cloned. *)
Lemma run_of_a_failed_clone_witness :
  let h := Local.host "Python 3.9.7" [] Local.no_failure true in
  let url := "https://github.com/user/cdk-project.git" in
  let path := "/tmp/cdk-deployer-1/cdk-project" in
  run h None 5 url "deploy" "" "" true (Local.machine_of []) =
  Returns (Some (ErrorfW "failed to clone repository: "
                   (ErrorfW "failed to clone repository: "
                      (External "repository not found"))))
    {| world := []; done := [ActMkdirTemp "" "cdk-deployer-*"; ActPlainClone path url 1];
       cloud := Example.start |}.
Proof.
  intros h url path.
  exact (proj1 (run_of_a_failed_clone _ _ _ h None 5%nat url "deploy" "" true
                  (Local.machine_of []) "/tmp/cdk-deployer-1" []
                  (External "repository not found") eq_refl eq_refl)).
Defined.

(** A command the tool does not know. *)
Lemma run_of_an_unknown_command_witness :
  let url := "https://github.com/user/cdk-project.git" in
  let m := Local.machine_of [] in
  let m1 := snd (CloneRepository Local.laptop url "/work" m) in
  let m2 := snd (CDK_Initialize Local.laptop (CDK_New Local.laptop "/work/cdk-project") m1) in
  run Local.laptop None 5 url "destroy" "/work" "" false m =
  Returns (Some (Errorf "unknown command: destroy (use 'synth', 'deploy', or 'drift')")) m2 /\
  done m2 =
  [ActPlainClone "/work/cdk-project" url 1;
   ActRun {| exec.Args := ["npm"; "install"]; exec.Dir := "/work/cdk-project";
             exec.Env := Nil |}].
Proof.
  intros url m m1 m2.
  assert (Hc : CloneRepository Local.laptop url "/work" m = (("/work/cdk-project", None), m1))
    by (vm_compute; reflexivity).
  assert (Hi : CDK_Initialize Local.laptop (CDK_New Local.laptop "/work/cdk-project") m1 =
               (None, m2)) by (vm_compute; reflexivity).
  split; [|vm_compute; reflexivity].
  refine (run_of_an_unknown_command _ _ _ Local.laptop None 5%nat url "destroy" "/work" ""
            false m "/work/cdk-project" m1 m2 _ _ _ Hc Hi); discriminate.
Defined.


(** Synthesis of a cloned TypeScript project, with the cleanup. *)
Lemma run_synth_is_local_witness :
  let url := "https://github.com/user/cdk-project.git" in
  let m := Local.machine_of [] in
  let m1 := snd (CloneRepository Local.laptop url "/work" m) in
  exists a m' l,
    run Local.laptop None 0 url "synth" "/work" "" true m = Returns a m' /\
    cloud m' = cloud m /\
    done m' = done m1 ++ l ++ [ActRemoveAll "/work/cdk-project"] /\
    Forall runs l.
Proof.
  intros url m m1.
  assert (Hc : CloneRepository Local.laptop url "/work" m = (("/work/cdk-project", None), m1))
    by (vm_compute; reflexivity).
  exact (run_synth_is_local _ _ _ Local.laptop None 0%nat url "/work" "" true m
           "/work/cdk-project" m1 Hc).
Defined.

(** [SynthAndDeploy] on a cloned TypeScript project: the stack [Net] is
    deployed. *)
Lemma SynthAndDeploy_deploys_the_synthesized_stacks_witness :
  let url := "https://github.com/user/cdk-project.git" in
  let c := CDK_New Local.laptop "/work/cdk-project" in
  let m := snd (CloneRepository Local.laptop url "/work" (Local.machine_of [])) in
  let m1 := snd (CDK_Initialize Local.laptop c m) in
  let m2 := snd (CDK_Synth Local.laptop c m1) in
  CDK_SynthAndDeploy Local.laptop c None 5 m = CDK_Deploy Local.laptop c None 5 ["Net"] m2.
Proof.
  intros url c m m1 m2.
  assert (Hi : CDK_Initialize Local.laptop c m = (None, m1)) by (vm_compute; reflexivity).
  assert (Hs : CDK_Synth Local.laptop c m1 =
               (Ok {| SynthResult.TemplateDir := "/work/cdk-project/cdk.out";
                      SynthResult.Stacks := Slice ["Net"] |}, m2))
    by (vm_compute; reflexivity).
  exact (proj1 (proj2 (proj2 (SynthAndDeploy_deploys_the_synthesized_stacks _ _ _ Local.laptop
                                c None 5%nat m)) m1 _ m2 Hi Hs)).
Defined.
